(** * SmartNotes: the client-side logic of the note pages

    A shallow embedding of the pure and effectful logic found in
    - [src/pages/Notes.tsx]      (the search filter [filteredNotes]),
    - the note-detail page       ([fetchNote], [handleExport]),
    - [src/pages/NewNote.tsx]    ([handleSummarize]),
    together with the part of the [notes] table of the SQL migration that
    the detail page queries.

    ECMAScript strings are sequences of UTF-16 code units; they are
    embedded as lists of code units so that [length], [includes],
    [replace] and [toLowerCase] read as they do in the language
    definition. *)

From Stdlib Require Import NArith ZArith Ascii String List Bool Lia.
From stdpp Require Import base list.
Local Open Scope N_scope.

(** ** Unicode case data

    The tables that [String.prototype.toLowerCase] and [toUpperCase]
    consult, from the Unicode Character Database, version 14.0: the
    lower-case and upper-case mappings of the code points that have one
    (the full mappings of SpecialCasing that hold in every language,
    otherwise the simple ones), and the properties Cased and
    Case_Ignorable as lists of inclusive ranges.  All tables are sorted
    by code point. *)

Module Unicode.

Definition lower_table_0 : list (N * list N) :=
  [(65, [97]); (66, [98]); (67, [99]); (68, [100]); (69, [101]);
   (70, [102]); (71, [103]); (72, [104]); (73, [105]); (74, [106]);
   (75, [107]); (76, [108]); (77, [109]); (78, [110]); (79, [111]);
   (80, [112]); (81, [113]); (82, [114]); (83, [115]); (84, [116]);
   (85, [117]); (86, [118]); (87, [119]); (88, [120]); (89, [121]);
   (90, [122]); (192, [224]); (193, [225]); (194, [226]); (195, [227]);
   (196, [228]); (197, [229]); (198, [230]); (199, [231]); (200, [232]);
   (201, [233]); (202, [234]); (203, [235]); (204, [236]); (205, [237]);
   (206, [238]); (207, [239]); (208, [240]); (209, [241]); (210, [242]);
   (211, [243]); (212, [244]); (213, [245]); (214, [246]); (216, [248]);
   (217, [249]); (218, [250]); (219, [251]); (220, [252]); (221, [253]);
   (222, [254]); (256, [257]); (258, [259]); (260, [261]); (262, [263]);
   (264, [265]); (266, [267]); (268, [269]); (270, [271]); (272, [273]);
   (274, [275]); (276, [277]); (278, [279]); (280, [281]); (282, [283]);
   (284, [285]); (286, [287]); (288, [289]); (290, [291]); (292, [293]);
   (294, [295]); (296, [297]); (298, [299]); (300, [301]); (302, [303]);
   (304, [105; 775]); (306, [307]); (308, [309]); (310, [311]);
   (313, [314]); (315, [316]); (317, [318]); (319, [320]); (321, [322]);
   (323, [324]); (325, [326]); (327, [328]); (330, [331]); (332, [333]);
   (334, [335]); (336, [337]); (338, [339]); (340, [341]); (342, [343]);
   (344, [345]); (346, [347]); (348, [349]); (350, [351]); (352, [353]);
   (354, [355]); (356, [357]); (358, [359]); (360, [361]); (362, [363]);
   (364, [365]); (366, [367]); (368, [369]); (370, [371]); (372, [373]);
   (374, [375]); (376, [255]); (377, [378]); (379, [380]); (381, [382]);
   (385, [595]); (386, [387]); (388, [389]); (390, [596]); (391, [392]);
   (393, [598]); (394, [599]); (395, [396]); (398, [477]); (399, [601]);
   (400, [603]); (401, [402]); (403, [608]); (404, [611]); (406, [617]);
   (407, [616]); (408, [409]); (412, [623]); (413, [626]); (415, [629]);
   (416, [417]); (418, [419]); (420, [421]); (422, [640]); (423, [424]);
   (425, [643]); (428, [429]); (430, [648]); (431, [432]); (433, [650]);
   (434, [651]); (435, [436]); (437, [438]); (439, [658]); (440, [441]);
   (444, [445]); (452, [454]); (453, [454]); (455, [457]); (456, [457]);
   (458, [460]); (459, [460]); (461, [462]); (463, [464]); (465, [466]);
   (467, [468]); (469, [470]); (471, [472]); (473, [474]); (475, [476]);
   (478, [479]); (480, [481]); (482, [483]); (484, [485]); (486, [487]);
   (488, [489]); (490, [491]); (492, [493]); (494, [495]); (497, [499]);
   (498, [499]); (500, [501]); (502, [405]); (503, [447]); (504, [505]);
   (506, [507]); (508, [509]); (510, [511]); (512, [513]); (514, [515]);
   (516, [517]); (518, [519]); (520, [521]); (522, [523]); (524, [525]);
   (526, [527]); (528, [529]); (530, [531]); (532, [533]); (534, [535]);
   (536, [537])].

Definition lower_table_1 : list (N * list N) :=
  [(538, [539]); (540, [541]); (542, [543]); (544, [414]); (546, [547]);
   (548, [549]); (550, [551]); (552, [553]); (554, [555]); (556, [557]);
   (558, [559]); (560, [561]); (562, [563]); (570, [11365]); (571, [572]);
   (573, [410]); (574, [11366]); (577, [578]); (579, [384]); (580, [649]);
   (581, [652]); (582, [583]); (584, [585]); (586, [587]); (588, [589]);
   (590, [591]); (880, [881]); (882, [883]); (886, [887]); (895, [1011]);
   (902, [940]); (904, [941]); (905, [942]); (906, [943]); (908, [972]);
   (910, [973]); (911, [974]); (913, [945]); (914, [946]); (915, [947]);
   (916, [948]); (917, [949]); (918, [950]); (919, [951]); (920, [952]);
   (921, [953]); (922, [954]); (923, [955]); (924, [956]); (925, [957]);
   (926, [958]); (927, [959]); (928, [960]); (929, [961]); (931, [963]);
   (932, [964]); (933, [965]); (934, [966]); (935, [967]); (936, [968]);
   (937, [969]); (938, [970]); (939, [971]); (975, [983]); (984, [985]);
   (986, [987]); (988, [989]); (990, [991]); (992, [993]); (994, [995]);
   (996, [997]); (998, [999]); (1000, [1001]); (1002, [1003]);
   (1004, [1005]); (1006, [1007]); (1012, [952]); (1015, [1016]);
   (1017, [1010]); (1018, [1019]); (1021, [891]); (1022, [892]);
   (1023, [893]); (1024, [1104]); (1025, [1105]); (1026, [1106]);
   (1027, [1107]); (1028, [1108]); (1029, [1109]); (1030, [1110]);
   (1031, [1111]); (1032, [1112]); (1033, [1113]); (1034, [1114]);
   (1035, [1115]); (1036, [1116]); (1037, [1117]); (1038, [1118]);
   (1039, [1119]); (1040, [1072]); (1041, [1073]); (1042, [1074]);
   (1043, [1075]); (1044, [1076]); (1045, [1077]); (1046, [1078]);
   (1047, [1079]); (1048, [1080]); (1049, [1081]); (1050, [1082]);
   (1051, [1083]); (1052, [1084]); (1053, [1085]); (1054, [1086]);
   (1055, [1087]); (1056, [1088]); (1057, [1089]); (1058, [1090]);
   (1059, [1091]); (1060, [1092]); (1061, [1093]); (1062, [1094]);
   (1063, [1095]); (1064, [1096]); (1065, [1097]); (1066, [1098]);
   (1067, [1099]); (1068, [1100]); (1069, [1101]); (1070, [1102]);
   (1071, [1103]); (1120, [1121]); (1122, [1123]); (1124, [1125]);
   (1126, [1127]); (1128, [1129]); (1130, [1131]); (1132, [1133]);
   (1134, [1135]); (1136, [1137]); (1138, [1139]); (1140, [1141]);
   (1142, [1143]); (1144, [1145]); (1146, [1147]); (1148, [1149]);
   (1150, [1151]); (1152, [1153]); (1162, [1163]); (1164, [1165]);
   (1166, [1167]); (1168, [1169]); (1170, [1171]); (1172, [1173]);
   (1174, [1175]); (1176, [1177]); (1178, [1179]); (1180, [1181]);
   (1182, [1183]); (1184, [1185]); (1186, [1187]); (1188, [1189]);
   (1190, [1191]); (1192, [1193]); (1194, [1195]); (1196, [1197]);
   (1198, [1199]); (1200, [1201]); (1202, [1203]); (1204, [1205]);
   (1206, [1207]); (1208, [1209]); (1210, [1211]); (1212, [1213]);
   (1214, [1215]); (1216, [1231]); (1217, [1218]); (1219, [1220]);
   (1221, [1222]); (1223, [1224]); (1225, [1226]); (1227, [1228]);
   (1229, [1230]); (1232, [1233]); (1234, [1235]); (1236, [1237]);
   (1238, [1239]); (1240, [1241]); (1242, [1243]); (1244, [1245]);
   (1246, [1247]); (1248, [1249]); (1250, [1251]); (1252, [1253]);
   (1254, [1255]); (1256, [1257]); (1258, [1259]); (1260, [1261]);
   (1262, [1263]); (1264, [1265])].

Definition lower_table_2 : list (N * list N) :=
  [(1266, [1267]); (1268, [1269]); (1270, [1271]); (1272, [1273]);
   (1274, [1275]); (1276, [1277]); (1278, [1279]); (1280, [1281]);
   (1282, [1283]); (1284, [1285]); (1286, [1287]); (1288, [1289]);
   (1290, [1291]); (1292, [1293]); (1294, [1295]); (1296, [1297]);
   (1298, [1299]); (1300, [1301]); (1302, [1303]); (1304, [1305]);
   (1306, [1307]); (1308, [1309]); (1310, [1311]); (1312, [1313]);
   (1314, [1315]); (1316, [1317]); (1318, [1319]); (1320, [1321]);
   (1322, [1323]); (1324, [1325]); (1326, [1327]); (1329, [1377]);
   (1330, [1378]); (1331, [1379]); (1332, [1380]); (1333, [1381]);
   (1334, [1382]); (1335, [1383]); (1336, [1384]); (1337, [1385]);
   (1338, [1386]); (1339, [1387]); (1340, [1388]); (1341, [1389]);
   (1342, [1390]); (1343, [1391]); (1344, [1392]); (1345, [1393]);
   (1346, [1394]); (1347, [1395]); (1348, [1396]); (1349, [1397]);
   (1350, [1398]); (1351, [1399]); (1352, [1400]); (1353, [1401]);
   (1354, [1402]); (1355, [1403]); (1356, [1404]); (1357, [1405]);
   (1358, [1406]); (1359, [1407]); (1360, [1408]); (1361, [1409]);
   (1362, [1410]); (1363, [1411]); (1364, [1412]); (1365, [1413]);
   (1366, [1414]); (4256, [11520]); (4257, [11521]); (4258, [11522]);
   (4259, [11523]); (4260, [11524]); (4261, [11525]); (4262, [11526]);
   (4263, [11527]); (4264, [11528]); (4265, [11529]); (4266, [11530]);
   (4267, [11531]); (4268, [11532]); (4269, [11533]); (4270, [11534]);
   (4271, [11535]); (4272, [11536]); (4273, [11537]); (4274, [11538]);
   (4275, [11539]); (4276, [11540]); (4277, [11541]); (4278, [11542]);
   (4279, [11543]); (4280, [11544]); (4281, [11545]); (4282, [11546]);
   (4283, [11547]); (4284, [11548]); (4285, [11549]); (4286, [11550]);
   (4287, [11551]); (4288, [11552]); (4289, [11553]); (4290, [11554]);
   (4291, [11555]); (4292, [11556]); (4293, [11557]); (4295, [11559]);
   (4301, [11565]); (5024, [43888]); (5025, [43889]); (5026, [43890]);
   (5027, [43891]); (5028, [43892]); (5029, [43893]); (5030, [43894]);
   (5031, [43895]); (5032, [43896]); (5033, [43897]); (5034, [43898]);
   (5035, [43899]); (5036, [43900]); (5037, [43901]); (5038, [43902]);
   (5039, [43903]); (5040, [43904]); (5041, [43905]); (5042, [43906]);
   (5043, [43907]); (5044, [43908]); (5045, [43909]); (5046, [43910]);
   (5047, [43911]); (5048, [43912]); (5049, [43913]); (5050, [43914]);
   (5051, [43915]); (5052, [43916]); (5053, [43917]); (5054, [43918]);
   (5055, [43919]); (5056, [43920]); (5057, [43921]); (5058, [43922]);
   (5059, [43923]); (5060, [43924]); (5061, [43925]); (5062, [43926]);
   (5063, [43927]); (5064, [43928]); (5065, [43929]); (5066, [43930]);
   (5067, [43931]); (5068, [43932]); (5069, [43933]); (5070, [43934]);
   (5071, [43935]); (5072, [43936]); (5073, [43937]); (5074, [43938]);
   (5075, [43939]); (5076, [43940]); (5077, [43941]); (5078, [43942]);
   (5079, [43943]); (5080, [43944]); (5081, [43945]); (5082, [43946]);
   (5083, [43947]); (5084, [43948]); (5085, [43949]); (5086, [43950]);
   (5087, [43951]); (5088, [43952]); (5089, [43953]); (5090, [43954]);
   (5091, [43955]); (5092, [43956]); (5093, [43957]); (5094, [43958]);
   (5095, [43959]); (5096, [43960]); (5097, [43961]); (5098, [43962]);
   (5099, [43963]); (5100, [43964]); (5101, [43965]); (5102, [43966]);
   (5103, [43967]); (5104, [5112]); (5105, [5113]); (5106, [5114]);
   (5107, [5115]); (5108, [5116]); (5109, [5117]); (7312, [4304]);
   (7313, [4305]); (7314, [4306]); (7315, [4307]); (7316, [4308])].

Definition lower_table_3 : list (N * list N) :=
  [(7317, [4309]); (7318, [4310]); (7319, [4311]); (7320, [4312]);
   (7321, [4313]); (7322, [4314]); (7323, [4315]); (7324, [4316]);
   (7325, [4317]); (7326, [4318]); (7327, [4319]); (7328, [4320]);
   (7329, [4321]); (7330, [4322]); (7331, [4323]); (7332, [4324]);
   (7333, [4325]); (7334, [4326]); (7335, [4327]); (7336, [4328]);
   (7337, [4329]); (7338, [4330]); (7339, [4331]); (7340, [4332]);
   (7341, [4333]); (7342, [4334]); (7343, [4335]); (7344, [4336]);
   (7345, [4337]); (7346, [4338]); (7347, [4339]); (7348, [4340]);
   (7349, [4341]); (7350, [4342]); (7351, [4343]); (7352, [4344]);
   (7353, [4345]); (7354, [4346]); (7357, [4349]); (7358, [4350]);
   (7359, [4351]); (7680, [7681]); (7682, [7683]); (7684, [7685]);
   (7686, [7687]); (7688, [7689]); (7690, [7691]); (7692, [7693]);
   (7694, [7695]); (7696, [7697]); (7698, [7699]); (7700, [7701]);
   (7702, [7703]); (7704, [7705]); (7706, [7707]); (7708, [7709]);
   (7710, [7711]); (7712, [7713]); (7714, [7715]); (7716, [7717]);
   (7718, [7719]); (7720, [7721]); (7722, [7723]); (7724, [7725]);
   (7726, [7727]); (7728, [7729]); (7730, [7731]); (7732, [7733]);
   (7734, [7735]); (7736, [7737]); (7738, [7739]); (7740, [7741]);
   (7742, [7743]); (7744, [7745]); (7746, [7747]); (7748, [7749]);
   (7750, [7751]); (7752, [7753]); (7754, [7755]); (7756, [7757]);
   (7758, [7759]); (7760, [7761]); (7762, [7763]); (7764, [7765]);
   (7766, [7767]); (7768, [7769]); (7770, [7771]); (7772, [7773]);
   (7774, [7775]); (7776, [7777]); (7778, [7779]); (7780, [7781]);
   (7782, [7783]); (7784, [7785]); (7786, [7787]); (7788, [7789]);
   (7790, [7791]); (7792, [7793]); (7794, [7795]); (7796, [7797]);
   (7798, [7799]); (7800, [7801]); (7802, [7803]); (7804, [7805]);
   (7806, [7807]); (7808, [7809]); (7810, [7811]); (7812, [7813]);
   (7814, [7815]); (7816, [7817]); (7818, [7819]); (7820, [7821]);
   (7822, [7823]); (7824, [7825]); (7826, [7827]); (7828, [7829]);
   (7838, [223]); (7840, [7841]); (7842, [7843]); (7844, [7845]);
   (7846, [7847]); (7848, [7849]); (7850, [7851]); (7852, [7853]);
   (7854, [7855]); (7856, [7857]); (7858, [7859]); (7860, [7861]);
   (7862, [7863]); (7864, [7865]); (7866, [7867]); (7868, [7869]);
   (7870, [7871]); (7872, [7873]); (7874, [7875]); (7876, [7877]);
   (7878, [7879]); (7880, [7881]); (7882, [7883]); (7884, [7885]);
   (7886, [7887]); (7888, [7889]); (7890, [7891]); (7892, [7893]);
   (7894, [7895]); (7896, [7897]); (7898, [7899]); (7900, [7901]);
   (7902, [7903]); (7904, [7905]); (7906, [7907]); (7908, [7909]);
   (7910, [7911]); (7912, [7913]); (7914, [7915]); (7916, [7917]);
   (7918, [7919]); (7920, [7921]); (7922, [7923]); (7924, [7925]);
   (7926, [7927]); (7928, [7929]); (7930, [7931]); (7932, [7933]);
   (7934, [7935]); (7944, [7936]); (7945, [7937]); (7946, [7938]);
   (7947, [7939]); (7948, [7940]); (7949, [7941]); (7950, [7942]);
   (7951, [7943]); (7960, [7952]); (7961, [7953]); (7962, [7954]);
   (7963, [7955]); (7964, [7956]); (7965, [7957]); (7976, [7968]);
   (7977, [7969]); (7978, [7970]); (7979, [7971]); (7980, [7972]);
   (7981, [7973]); (7982, [7974]); (7983, [7975]); (7992, [7984]);
   (7993, [7985]); (7994, [7986]); (7995, [7987]); (7996, [7988]);
   (7997, [7989]); (7998, [7990]); (7999, [7991]); (8008, [8000]);
   (8009, [8001]); (8010, [8002]); (8011, [8003]); (8012, [8004])].

Definition lower_table_4 : list (N * list N) :=
  [(8013, [8005]); (8025, [8017]); (8027, [8019]); (8029, [8021]);
   (8031, [8023]); (8040, [8032]); (8041, [8033]); (8042, [8034]);
   (8043, [8035]); (8044, [8036]); (8045, [8037]); (8046, [8038]);
   (8047, [8039]); (8072, [8064]); (8073, [8065]); (8074, [8066]);
   (8075, [8067]); (8076, [8068]); (8077, [8069]); (8078, [8070]);
   (8079, [8071]); (8088, [8080]); (8089, [8081]); (8090, [8082]);
   (8091, [8083]); (8092, [8084]); (8093, [8085]); (8094, [8086]);
   (8095, [8087]); (8104, [8096]); (8105, [8097]); (8106, [8098]);
   (8107, [8099]); (8108, [8100]); (8109, [8101]); (8110, [8102]);
   (8111, [8103]); (8120, [8112]); (8121, [8113]); (8122, [8048]);
   (8123, [8049]); (8124, [8115]); (8136, [8050]); (8137, [8051]);
   (8138, [8052]); (8139, [8053]); (8140, [8131]); (8152, [8144]);
   (8153, [8145]); (8154, [8054]); (8155, [8055]); (8168, [8160]);
   (8169, [8161]); (8170, [8058]); (8171, [8059]); (8172, [8165]);
   (8184, [8056]); (8185, [8057]); (8186, [8060]); (8187, [8061]);
   (8188, [8179]); (8486, [969]); (8490, [107]); (8491, [229]);
   (8498, [8526]); (8544, [8560]); (8545, [8561]); (8546, [8562]);
   (8547, [8563]); (8548, [8564]); (8549, [8565]); (8550, [8566]);
   (8551, [8567]); (8552, [8568]); (8553, [8569]); (8554, [8570]);
   (8555, [8571]); (8556, [8572]); (8557, [8573]); (8558, [8574]);
   (8559, [8575]); (8579, [8580]); (9398, [9424]); (9399, [9425]);
   (9400, [9426]); (9401, [9427]); (9402, [9428]); (9403, [9429]);
   (9404, [9430]); (9405, [9431]); (9406, [9432]); (9407, [9433]);
   (9408, [9434]); (9409, [9435]); (9410, [9436]); (9411, [9437]);
   (9412, [9438]); (9413, [9439]); (9414, [9440]); (9415, [9441]);
   (9416, [9442]); (9417, [9443]); (9418, [9444]); (9419, [9445]);
   (9420, [9446]); (9421, [9447]); (9422, [9448]); (9423, [9449]);
   (11264, [11312]); (11265, [11313]); (11266, [11314]); (11267, [11315]);
   (11268, [11316]); (11269, [11317]); (11270, [11318]); (11271, [11319]);
   (11272, [11320]); (11273, [11321]); (11274, [11322]); (11275, [11323]);
   (11276, [11324]); (11277, [11325]); (11278, [11326]); (11279, [11327]);
   (11280, [11328]); (11281, [11329]); (11282, [11330]); (11283, [11331]);
   (11284, [11332]); (11285, [11333]); (11286, [11334]); (11287, [11335]);
   (11288, [11336]); (11289, [11337]); (11290, [11338]); (11291, [11339]);
   (11292, [11340]); (11293, [11341]); (11294, [11342]); (11295, [11343]);
   (11296, [11344]); (11297, [11345]); (11298, [11346]); (11299, [11347]);
   (11300, [11348]); (11301, [11349]); (11302, [11350]); (11303, [11351]);
   (11304, [11352]); (11305, [11353]); (11306, [11354]); (11307, [11355]);
   (11308, [11356]); (11309, [11357]); (11310, [11358]); (11311, [11359]);
   (11360, [11361]); (11362, [619]); (11363, [7549]); (11364, [637]);
   (11367, [11368]); (11369, [11370]); (11371, [11372]); (11373, [593]);
   (11374, [625]); (11375, [592]); (11376, [594]); (11378, [11379]);
   (11381, [11382]); (11390, [575]); (11391, [576]); (11392, [11393]);
   (11394, [11395]); (11396, [11397]); (11398, [11399]); (11400, [11401]);
   (11402, [11403]); (11404, [11405]); (11406, [11407]); (11408, [11409]);
   (11410, [11411]); (11412, [11413]); (11414, [11415]); (11416, [11417]);
   (11418, [11419]); (11420, [11421]); (11422, [11423]); (11424, [11425]);
   (11426, [11427]); (11428, [11429]); (11430, [11431]); (11432, [11433]);
   (11434, [11435]); (11436, [11437]); (11438, [11439]); (11440, [11441]);
   (11442, [11443]); (11444, [11445]); (11446, [11447]); (11448, [11449])].

Definition lower_table_5 : list (N * list N) :=
  [(11450, [11451]); (11452, [11453]); (11454, [11455]); (11456, [11457]);
   (11458, [11459]); (11460, [11461]); (11462, [11463]); (11464, [11465]);
   (11466, [11467]); (11468, [11469]); (11470, [11471]); (11472, [11473]);
   (11474, [11475]); (11476, [11477]); (11478, [11479]); (11480, [11481]);
   (11482, [11483]); (11484, [11485]); (11486, [11487]); (11488, [11489]);
   (11490, [11491]); (11499, [11500]); (11501, [11502]); (11506, [11507]);
   (42560, [42561]); (42562, [42563]); (42564, [42565]); (42566, [42567]);
   (42568, [42569]); (42570, [42571]); (42572, [42573]); (42574, [42575]);
   (42576, [42577]); (42578, [42579]); (42580, [42581]); (42582, [42583]);
   (42584, [42585]); (42586, [42587]); (42588, [42589]); (42590, [42591]);
   (42592, [42593]); (42594, [42595]); (42596, [42597]); (42598, [42599]);
   (42600, [42601]); (42602, [42603]); (42604, [42605]); (42624, [42625]);
   (42626, [42627]); (42628, [42629]); (42630, [42631]); (42632, [42633]);
   (42634, [42635]); (42636, [42637]); (42638, [42639]); (42640, [42641]);
   (42642, [42643]); (42644, [42645]); (42646, [42647]); (42648, [42649]);
   (42650, [42651]); (42786, [42787]); (42788, [42789]); (42790, [42791]);
   (42792, [42793]); (42794, [42795]); (42796, [42797]); (42798, [42799]);
   (42802, [42803]); (42804, [42805]); (42806, [42807]); (42808, [42809]);
   (42810, [42811]); (42812, [42813]); (42814, [42815]); (42816, [42817]);
   (42818, [42819]); (42820, [42821]); (42822, [42823]); (42824, [42825]);
   (42826, [42827]); (42828, [42829]); (42830, [42831]); (42832, [42833]);
   (42834, [42835]); (42836, [42837]); (42838, [42839]); (42840, [42841]);
   (42842, [42843]); (42844, [42845]); (42846, [42847]); (42848, [42849]);
   (42850, [42851]); (42852, [42853]); (42854, [42855]); (42856, [42857]);
   (42858, [42859]); (42860, [42861]); (42862, [42863]); (42873, [42874]);
   (42875, [42876]); (42877, [7545]); (42878, [42879]); (42880, [42881]);
   (42882, [42883]); (42884, [42885]); (42886, [42887]); (42891, [42892]);
   (42893, [613]); (42896, [42897]); (42898, [42899]); (42902, [42903]);
   (42904, [42905]); (42906, [42907]); (42908, [42909]); (42910, [42911]);
   (42912, [42913]); (42914, [42915]); (42916, [42917]); (42918, [42919]);
   (42920, [42921]); (42922, [614]); (42923, [604]); (42924, [609]);
   (42925, [620]); (42926, [618]); (42928, [670]); (42929, [647]);
   (42930, [669]); (42931, [43859]); (42932, [42933]); (42934, [42935]);
   (42936, [42937]); (42938, [42939]); (42940, [42941]); (42942, [42943]);
   (42944, [42945]); (42946, [42947]); (42948, [42900]); (42949, [642]);
   (42950, [7566]); (42951, [42952]); (42953, [42954]); (42960, [42961]);
   (42966, [42967]); (42968, [42969]); (42997, [42998]); (65313, [65345]);
   (65314, [65346]); (65315, [65347]); (65316, [65348]); (65317, [65349]);
   (65318, [65350]); (65319, [65351]); (65320, [65352]); (65321, [65353]);
   (65322, [65354]); (65323, [65355]); (65324, [65356]); (65325, [65357]);
   (65326, [65358]); (65327, [65359]); (65328, [65360]); (65329, [65361]);
   (65330, [65362]); (65331, [65363]); (65332, [65364]); (65333, [65365]);
   (65334, [65366]); (65335, [65367]); (65336, [65368]); (65337, [65369]);
   (65338, [65370]); (66560, [66600]); (66561, [66601]); (66562, [66602]);
   (66563, [66603]); (66564, [66604]); (66565, [66605]); (66566, [66606]);
   (66567, [66607]); (66568, [66608]); (66569, [66609]); (66570, [66610]);
   (66571, [66611]); (66572, [66612]); (66573, [66613]); (66574, [66614]);
   (66575, [66615]); (66576, [66616]); (66577, [66617]); (66578, [66618]);
   (66579, [66619]); (66580, [66620]); (66581, [66621]); (66582, [66622]);
   (66583, [66623]); (66584, [66624]); (66585, [66625]); (66586, [66626])].

Definition lower_table_6 : list (N * list N) :=
  [(66587, [66627]); (66588, [66628]); (66589, [66629]); (66590, [66630]);
   (66591, [66631]); (66592, [66632]); (66593, [66633]); (66594, [66634]);
   (66595, [66635]); (66596, [66636]); (66597, [66637]); (66598, [66638]);
   (66599, [66639]); (66736, [66776]); (66737, [66777]); (66738, [66778]);
   (66739, [66779]); (66740, [66780]); (66741, [66781]); (66742, [66782]);
   (66743, [66783]); (66744, [66784]); (66745, [66785]); (66746, [66786]);
   (66747, [66787]); (66748, [66788]); (66749, [66789]); (66750, [66790]);
   (66751, [66791]); (66752, [66792]); (66753, [66793]); (66754, [66794]);
   (66755, [66795]); (66756, [66796]); (66757, [66797]); (66758, [66798]);
   (66759, [66799]); (66760, [66800]); (66761, [66801]); (66762, [66802]);
   (66763, [66803]); (66764, [66804]); (66765, [66805]); (66766, [66806]);
   (66767, [66807]); (66768, [66808]); (66769, [66809]); (66770, [66810]);
   (66771, [66811]); (66928, [66967]); (66929, [66968]); (66930, [66969]);
   (66931, [66970]); (66932, [66971]); (66933, [66972]); (66934, [66973]);
   (66935, [66974]); (66936, [66975]); (66937, [66976]); (66938, [66977]);
   (66940, [66979]); (66941, [66980]); (66942, [66981]); (66943, [66982]);
   (66944, [66983]); (66945, [66984]); (66946, [66985]); (66947, [66986]);
   (66948, [66987]); (66949, [66988]); (66950, [66989]); (66951, [66990]);
   (66952, [66991]); (66953, [66992]); (66954, [66993]); (66956, [66995]);
   (66957, [66996]); (66958, [66997]); (66959, [66998]); (66960, [66999]);
   (66961, [67000]); (66962, [67001]); (66964, [67003]); (66965, [67004]);
   (68736, [68800]); (68737, [68801]); (68738, [68802]); (68739, [68803]);
   (68740, [68804]); (68741, [68805]); (68742, [68806]); (68743, [68807]);
   (68744, [68808]); (68745, [68809]); (68746, [68810]); (68747, [68811]);
   (68748, [68812]); (68749, [68813]); (68750, [68814]); (68751, [68815]);
   (68752, [68816]); (68753, [68817]); (68754, [68818]); (68755, [68819]);
   (68756, [68820]); (68757, [68821]); (68758, [68822]); (68759, [68823]);
   (68760, [68824]); (68761, [68825]); (68762, [68826]); (68763, [68827]);
   (68764, [68828]); (68765, [68829]); (68766, [68830]); (68767, [68831]);
   (68768, [68832]); (68769, [68833]); (68770, [68834]); (68771, [68835]);
   (68772, [68836]); (68773, [68837]); (68774, [68838]); (68775, [68839]);
   (68776, [68840]); (68777, [68841]); (68778, [68842]); (68779, [68843]);
   (68780, [68844]); (68781, [68845]); (68782, [68846]); (68783, [68847]);
   (68784, [68848]); (68785, [68849]); (68786, [68850]); (71840, [71872]);
   (71841, [71873]); (71842, [71874]); (71843, [71875]); (71844, [71876]);
   (71845, [71877]); (71846, [71878]); (71847, [71879]); (71848, [71880]);
   (71849, [71881]); (71850, [71882]); (71851, [71883]); (71852, [71884]);
   (71853, [71885]); (71854, [71886]); (71855, [71887]); (71856, [71888]);
   (71857, [71889]); (71858, [71890]); (71859, [71891]); (71860, [71892]);
   (71861, [71893]); (71862, [71894]); (71863, [71895]); (71864, [71896]);
   (71865, [71897]); (71866, [71898]); (71867, [71899]); (71868, [71900]);
   (71869, [71901]); (71870, [71902]); (71871, [71903]); (93760, [93792]);
   (93761, [93793]); (93762, [93794]); (93763, [93795]); (93764, [93796]);
   (93765, [93797]); (93766, [93798]); (93767, [93799]); (93768, [93800]);
   (93769, [93801]); (93770, [93802]); (93771, [93803]); (93772, [93804]);
   (93773, [93805]); (93774, [93806]); (93775, [93807]); (93776, [93808]);
   (93777, [93809]); (93778, [93810]); (93779, [93811]); (93780, [93812]);
   (93781, [93813]); (93782, [93814]); (93783, [93815]); (93784, [93816]);
   (93785, [93817]); (93786, [93818]); (93787, [93819]); (93788, [93820]);
   (93789, [93821]); (93790, [93822]); (93791, [93823]);
   (125184, [125218])].

Definition lower_table_7 : list (N * list N) :=
  [(125185, [125219]); (125186, [125220]); (125187, [125221]);
   (125188, [125222]); (125189, [125223]); (125190, [125224]);
   (125191, [125225]); (125192, [125226]); (125193, [125227]);
   (125194, [125228]); (125195, [125229]); (125196, [125230]);
   (125197, [125231]); (125198, [125232]); (125199, [125233]);
   (125200, [125234]); (125201, [125235]); (125202, [125236]);
   (125203, [125237]); (125204, [125238]); (125205, [125239]);
   (125206, [125240]); (125207, [125241]); (125208, [125242]);
   (125209, [125243]); (125210, [125244]); (125211, [125245]);
   (125212, [125246]); (125213, [125247]); (125214, [125248]);
   (125215, [125249]); (125216, [125250]); (125217, [125251])].

Definition lower_table : list (N * list N) :=
  lower_table_0
  ++ lower_table_1
  ++ lower_table_2
  ++ lower_table_3
  ++ lower_table_4
  ++ lower_table_5
  ++ lower_table_6
  ++ lower_table_7.

Definition upper_table_0 : list (N * list N) :=
  [(97, [65]); (98, [66]); (99, [67]); (100, [68]); (101, [69]);
   (102, [70]); (103, [71]); (104, [72]); (105, [73]); (106, [74]);
   (107, [75]); (108, [76]); (109, [77]); (110, [78]); (111, [79]);
   (112, [80]); (113, [81]); (114, [82]); (115, [83]); (116, [84]);
   (117, [85]); (118, [86]); (119, [87]); (120, [88]); (121, [89]);
   (122, [90]); (181, [924]); (223, [83; 83]); (224, [192]); (225, [193]);
   (226, [194]); (227, [195]); (228, [196]); (229, [197]); (230, [198]);
   (231, [199]); (232, [200]); (233, [201]); (234, [202]); (235, [203]);
   (236, [204]); (237, [205]); (238, [206]); (239, [207]); (240, [208]);
   (241, [209]); (242, [210]); (243, [211]); (244, [212]); (245, [213]);
   (246, [214]); (248, [216]); (249, [217]); (250, [218]); (251, [219]);
   (252, [220]); (253, [221]); (254, [222]); (255, [376]); (257, [256]);
   (259, [258]); (261, [260]); (263, [262]); (265, [264]); (267, [266]);
   (269, [268]); (271, [270]); (273, [272]); (275, [274]); (277, [276]);
   (279, [278]); (281, [280]); (283, [282]); (285, [284]); (287, [286]);
   (289, [288]); (291, [290]); (293, [292]); (295, [294]); (297, [296]);
   (299, [298]); (301, [300]); (303, [302]); (305, [73]); (307, [306]);
   (309, [308]); (311, [310]); (314, [313]); (316, [315]); (318, [317]);
   (320, [319]); (322, [321]); (324, [323]); (326, [325]); (328, [327]);
   (329, [700; 78]); (331, [330]); (333, [332]); (335, [334]);
   (337, [336]); (339, [338]); (341, [340]); (343, [342]); (345, [344]);
   (347, [346]); (349, [348]); (351, [350]); (353, [352]); (355, [354]);
   (357, [356]); (359, [358]); (361, [360]); (363, [362]); (365, [364]);
   (367, [366]); (369, [368]); (371, [370]); (373, [372]); (375, [374]);
   (378, [377]); (380, [379]); (382, [381]); (383, [83]); (384, [579]);
   (387, [386]); (389, [388]); (392, [391]); (396, [395]); (402, [401]);
   (405, [502]); (409, [408]); (410, [573]); (414, [544]); (417, [416]);
   (419, [418]); (421, [420]); (424, [423]); (429, [428]); (432, [431]);
   (436, [435]); (438, [437]); (441, [440]); (445, [444]); (447, [503]);
   (453, [452]); (454, [452]); (456, [455]); (457, [455]); (459, [458]);
   (460, [458]); (462, [461]); (464, [463]); (466, [465]); (468, [467]);
   (470, [469]); (472, [471]); (474, [473]); (476, [475]); (477, [398]);
   (479, [478]); (481, [480]); (483, [482]); (485, [484]); (487, [486]);
   (489, [488]); (491, [490]); (493, [492]); (495, [494]);
   (496, [74; 780]); (498, [497]); (499, [497]); (501, [500]);
   (505, [504]); (507, [506]); (509, [508]); (511, [510]); (513, [512]);
   (515, [514]); (517, [516]); (519, [518]); (521, [520]); (523, [522]);
   (525, [524]); (527, [526]); (529, [528]); (531, [530]); (533, [532]);
   (535, [534]); (537, [536]); (539, [538]); (541, [540]); (543, [542]);
   (547, [546]); (549, [548]); (551, [550]); (553, [552]); (555, [554]);
   (557, [556]); (559, [558]); (561, [560])].

Definition upper_table_1 : list (N * list N) :=
  [(563, [562]); (572, [571]); (575, [11390]); (576, [11391]);
   (578, [577]); (583, [582]); (585, [584]); (587, [586]); (589, [588]);
   (591, [590]); (592, [11375]); (593, [11373]); (594, [11376]);
   (595, [385]); (596, [390]); (598, [393]); (599, [394]); (601, [399]);
   (603, [400]); (604, [42923]); (608, [403]); (609, [42924]);
   (611, [404]); (613, [42893]); (614, [42922]); (616, [407]);
   (617, [406]); (618, [42926]); (619, [11362]); (620, [42925]);
   (623, [412]); (625, [11374]); (626, [413]); (629, [415]);
   (637, [11364]); (640, [422]); (642, [42949]); (643, [425]);
   (647, [42929]); (648, [430]); (649, [580]); (650, [433]); (651, [434]);
   (652, [581]); (658, [439]); (669, [42930]); (670, [42928]);
   (837, [921]); (881, [880]); (883, [882]); (887, [886]); (891, [1021]);
   (892, [1022]); (893, [1023]); (912, [921; 776; 769]); (940, [902]);
   (941, [904]); (942, [905]); (943, [906]); (944, [933; 776; 769]);
   (945, [913]); (946, [914]); (947, [915]); (948, [916]); (949, [917]);
   (950, [918]); (951, [919]); (952, [920]); (953, [921]); (954, [922]);
   (955, [923]); (956, [924]); (957, [925]); (958, [926]); (959, [927]);
   (960, [928]); (961, [929]); (962, [931]); (963, [931]); (964, [932]);
   (965, [933]); (966, [934]); (967, [935]); (968, [936]); (969, [937]);
   (970, [938]); (971, [939]); (972, [908]); (973, [910]); (974, [911]);
   (976, [914]); (977, [920]); (981, [934]); (982, [928]); (983, [975]);
   (985, [984]); (987, [986]); (989, [988]); (991, [990]); (993, [992]);
   (995, [994]); (997, [996]); (999, [998]); (1001, [1000]);
   (1003, [1002]); (1005, [1004]); (1007, [1006]); (1008, [922]);
   (1009, [929]); (1010, [1017]); (1011, [895]); (1013, [917]);
   (1016, [1015]); (1019, [1018]); (1072, [1040]); (1073, [1041]);
   (1074, [1042]); (1075, [1043]); (1076, [1044]); (1077, [1045]);
   (1078, [1046]); (1079, [1047]); (1080, [1048]); (1081, [1049]);
   (1082, [1050]); (1083, [1051]); (1084, [1052]); (1085, [1053]);
   (1086, [1054]); (1087, [1055]); (1088, [1056]); (1089, [1057]);
   (1090, [1058]); (1091, [1059]); (1092, [1060]); (1093, [1061]);
   (1094, [1062]); (1095, [1063]); (1096, [1064]); (1097, [1065]);
   (1098, [1066]); (1099, [1067]); (1100, [1068]); (1101, [1069]);
   (1102, [1070]); (1103, [1071]); (1104, [1024]); (1105, [1025]);
   (1106, [1026]); (1107, [1027]); (1108, [1028]); (1109, [1029]);
   (1110, [1030]); (1111, [1031]); (1112, [1032]); (1113, [1033]);
   (1114, [1034]); (1115, [1035]); (1116, [1036]); (1117, [1037]);
   (1118, [1038]); (1119, [1039]); (1121, [1120]); (1123, [1122]);
   (1125, [1124]); (1127, [1126]); (1129, [1128]); (1131, [1130]);
   (1133, [1132]); (1135, [1134]); (1137, [1136]); (1139, [1138]);
   (1141, [1140]); (1143, [1142]); (1145, [1144]); (1147, [1146]);
   (1149, [1148]); (1151, [1150]); (1153, [1152]); (1163, [1162]);
   (1165, [1164]); (1167, [1166]); (1169, [1168]); (1171, [1170]);
   (1173, [1172]); (1175, [1174]); (1177, [1176]); (1179, [1178]);
   (1181, [1180]); (1183, [1182]); (1185, [1184]); (1187, [1186]);
   (1189, [1188]); (1191, [1190]); (1193, [1192]); (1195, [1194]);
   (1197, [1196]); (1199, [1198]); (1201, [1200]); (1203, [1202])].

Definition upper_table_2 : list (N * list N) :=
  [(1205, [1204]); (1207, [1206]); (1209, [1208]); (1211, [1210]);
   (1213, [1212]); (1215, [1214]); (1218, [1217]); (1220, [1219]);
   (1222, [1221]); (1224, [1223]); (1226, [1225]); (1228, [1227]);
   (1230, [1229]); (1231, [1216]); (1233, [1232]); (1235, [1234]);
   (1237, [1236]); (1239, [1238]); (1241, [1240]); (1243, [1242]);
   (1245, [1244]); (1247, [1246]); (1249, [1248]); (1251, [1250]);
   (1253, [1252]); (1255, [1254]); (1257, [1256]); (1259, [1258]);
   (1261, [1260]); (1263, [1262]); (1265, [1264]); (1267, [1266]);
   (1269, [1268]); (1271, [1270]); (1273, [1272]); (1275, [1274]);
   (1277, [1276]); (1279, [1278]); (1281, [1280]); (1283, [1282]);
   (1285, [1284]); (1287, [1286]); (1289, [1288]); (1291, [1290]);
   (1293, [1292]); (1295, [1294]); (1297, [1296]); (1299, [1298]);
   (1301, [1300]); (1303, [1302]); (1305, [1304]); (1307, [1306]);
   (1309, [1308]); (1311, [1310]); (1313, [1312]); (1315, [1314]);
   (1317, [1316]); (1319, [1318]); (1321, [1320]); (1323, [1322]);
   (1325, [1324]); (1327, [1326]); (1377, [1329]); (1378, [1330]);
   (1379, [1331]); (1380, [1332]); (1381, [1333]); (1382, [1334]);
   (1383, [1335]); (1384, [1336]); (1385, [1337]); (1386, [1338]);
   (1387, [1339]); (1388, [1340]); (1389, [1341]); (1390, [1342]);
   (1391, [1343]); (1392, [1344]); (1393, [1345]); (1394, [1346]);
   (1395, [1347]); (1396, [1348]); (1397, [1349]); (1398, [1350]);
   (1399, [1351]); (1400, [1352]); (1401, [1353]); (1402, [1354]);
   (1403, [1355]); (1404, [1356]); (1405, [1357]); (1406, [1358]);
   (1407, [1359]); (1408, [1360]); (1409, [1361]); (1410, [1362]);
   (1411, [1363]); (1412, [1364]); (1413, [1365]); (1414, [1366]);
   (1415, [1333; 1362]); (4304, [7312]); (4305, [7313]); (4306, [7314]);
   (4307, [7315]); (4308, [7316]); (4309, [7317]); (4310, [7318]);
   (4311, [7319]); (4312, [7320]); (4313, [7321]); (4314, [7322]);
   (4315, [7323]); (4316, [7324]); (4317, [7325]); (4318, [7326]);
   (4319, [7327]); (4320, [7328]); (4321, [7329]); (4322, [7330]);
   (4323, [7331]); (4324, [7332]); (4325, [7333]); (4326, [7334]);
   (4327, [7335]); (4328, [7336]); (4329, [7337]); (4330, [7338]);
   (4331, [7339]); (4332, [7340]); (4333, [7341]); (4334, [7342]);
   (4335, [7343]); (4336, [7344]); (4337, [7345]); (4338, [7346]);
   (4339, [7347]); (4340, [7348]); (4341, [7349]); (4342, [7350]);
   (4343, [7351]); (4344, [7352]); (4345, [7353]); (4346, [7354]);
   (4349, [7357]); (4350, [7358]); (4351, [7359]); (5112, [5104]);
   (5113, [5105]); (5114, [5106]); (5115, [5107]); (5116, [5108]);
   (5117, [5109]); (7296, [1042]); (7297, [1044]); (7298, [1054]);
   (7299, [1057]); (7300, [1058]); (7301, [1058]); (7302, [1066]);
   (7303, [1122]); (7304, [42570]); (7545, [42877]); (7549, [11363]);
   (7566, [42950]); (7681, [7680]); (7683, [7682]); (7685, [7684]);
   (7687, [7686]); (7689, [7688]); (7691, [7690]); (7693, [7692]);
   (7695, [7694]); (7697, [7696]); (7699, [7698]); (7701, [7700]);
   (7703, [7702]); (7705, [7704]); (7707, [7706]); (7709, [7708]);
   (7711, [7710]); (7713, [7712]); (7715, [7714]); (7717, [7716]);
   (7719, [7718]); (7721, [7720]); (7723, [7722]); (7725, [7724]);
   (7727, [7726]); (7729, [7728]); (7731, [7730]); (7733, [7732]);
   (7735, [7734]); (7737, [7736]); (7739, [7738]); (7741, [7740]);
   (7743, [7742]); (7745, [7744]); (7747, [7746]); (7749, [7748])].

Definition upper_table_3 : list (N * list N) :=
  [(7751, [7750]); (7753, [7752]); (7755, [7754]); (7757, [7756]);
   (7759, [7758]); (7761, [7760]); (7763, [7762]); (7765, [7764]);
   (7767, [7766]); (7769, [7768]); (7771, [7770]); (7773, [7772]);
   (7775, [7774]); (7777, [7776]); (7779, [7778]); (7781, [7780]);
   (7783, [7782]); (7785, [7784]); (7787, [7786]); (7789, [7788]);
   (7791, [7790]); (7793, [7792]); (7795, [7794]); (7797, [7796]);
   (7799, [7798]); (7801, [7800]); (7803, [7802]); (7805, [7804]);
   (7807, [7806]); (7809, [7808]); (7811, [7810]); (7813, [7812]);
   (7815, [7814]); (7817, [7816]); (7819, [7818]); (7821, [7820]);
   (7823, [7822]); (7825, [7824]); (7827, [7826]); (7829, [7828]);
   (7830, [72; 817]); (7831, [84; 776]); (7832, [87; 778]);
   (7833, [89; 778]); (7834, [65; 702]); (7835, [7776]); (7841, [7840]);
   (7843, [7842]); (7845, [7844]); (7847, [7846]); (7849, [7848]);
   (7851, [7850]); (7853, [7852]); (7855, [7854]); (7857, [7856]);
   (7859, [7858]); (7861, [7860]); (7863, [7862]); (7865, [7864]);
   (7867, [7866]); (7869, [7868]); (7871, [7870]); (7873, [7872]);
   (7875, [7874]); (7877, [7876]); (7879, [7878]); (7881, [7880]);
   (7883, [7882]); (7885, [7884]); (7887, [7886]); (7889, [7888]);
   (7891, [7890]); (7893, [7892]); (7895, [7894]); (7897, [7896]);
   (7899, [7898]); (7901, [7900]); (7903, [7902]); (7905, [7904]);
   (7907, [7906]); (7909, [7908]); (7911, [7910]); (7913, [7912]);
   (7915, [7914]); (7917, [7916]); (7919, [7918]); (7921, [7920]);
   (7923, [7922]); (7925, [7924]); (7927, [7926]); (7929, [7928]);
   (7931, [7930]); (7933, [7932]); (7935, [7934]); (7936, [7944]);
   (7937, [7945]); (7938, [7946]); (7939, [7947]); (7940, [7948]);
   (7941, [7949]); (7942, [7950]); (7943, [7951]); (7952, [7960]);
   (7953, [7961]); (7954, [7962]); (7955, [7963]); (7956, [7964]);
   (7957, [7965]); (7968, [7976]); (7969, [7977]); (7970, [7978]);
   (7971, [7979]); (7972, [7980]); (7973, [7981]); (7974, [7982]);
   (7975, [7983]); (7984, [7992]); (7985, [7993]); (7986, [7994]);
   (7987, [7995]); (7988, [7996]); (7989, [7997]); (7990, [7998]);
   (7991, [7999]); (8000, [8008]); (8001, [8009]); (8002, [8010]);
   (8003, [8011]); (8004, [8012]); (8005, [8013]); (8016, [933; 787]);
   (8017, [8025]); (8018, [933; 787; 768]); (8019, [8027]);
   (8020, [933; 787; 769]); (8021, [8029]); (8022, [933; 787; 834]);
   (8023, [8031]); (8032, [8040]); (8033, [8041]); (8034, [8042]);
   (8035, [8043]); (8036, [8044]); (8037, [8045]); (8038, [8046]);
   (8039, [8047]); (8048, [8122]); (8049, [8123]); (8050, [8136]);
   (8051, [8137]); (8052, [8138]); (8053, [8139]); (8054, [8154]);
   (8055, [8155]); (8056, [8184]); (8057, [8185]); (8058, [8170]);
   (8059, [8171]); (8060, [8186]); (8061, [8187]); (8064, [7944; 921]);
   (8065, [7945; 921]); (8066, [7946; 921]); (8067, [7947; 921]);
   (8068, [7948; 921]); (8069, [7949; 921]); (8070, [7950; 921]);
   (8071, [7951; 921]); (8072, [7944; 921]); (8073, [7945; 921]);
   (8074, [7946; 921]); (8075, [7947; 921]); (8076, [7948; 921]);
   (8077, [7949; 921]); (8078, [7950; 921]); (8079, [7951; 921]);
   (8080, [7976; 921]); (8081, [7977; 921]); (8082, [7978; 921]);
   (8083, [7979; 921]); (8084, [7980; 921]); (8085, [7981; 921]);
   (8086, [7982; 921]); (8087, [7983; 921]); (8088, [7976; 921]);
   (8089, [7977; 921]); (8090, [7978; 921]); (8091, [7979; 921]);
   (8092, [7980; 921]); (8093, [7981; 921]); (8094, [7982; 921]);
   (8095, [7983; 921]); (8096, [8040; 921]); (8097, [8041; 921]);
   (8098, [8042; 921]); (8099, [8043; 921]); (8100, [8044; 921]);
   (8101, [8045; 921]); (8102, [8046; 921]); (8103, [8047; 921])].

Definition upper_table_4 : list (N * list N) :=
  [(8104, [8040; 921]); (8105, [8041; 921]); (8106, [8042; 921]);
   (8107, [8043; 921]); (8108, [8044; 921]); (8109, [8045; 921]);
   (8110, [8046; 921]); (8111, [8047; 921]); (8112, [8120]);
   (8113, [8121]); (8114, [8122; 921]); (8115, [913; 921]);
   (8116, [902; 921]); (8118, [913; 834]); (8119, [913; 834; 921]);
   (8124, [913; 921]); (8126, [921]); (8130, [8138; 921]);
   (8131, [919; 921]); (8132, [905; 921]); (8134, [919; 834]);
   (8135, [919; 834; 921]); (8140, [919; 921]); (8144, [8152]);
   (8145, [8153]); (8146, [921; 776; 768]); (8147, [921; 776; 769]);
   (8150, [921; 834]); (8151, [921; 776; 834]); (8160, [8168]);
   (8161, [8169]); (8162, [933; 776; 768]); (8163, [933; 776; 769]);
   (8164, [929; 787]); (8165, [8172]); (8166, [933; 834]);
   (8167, [933; 776; 834]); (8178, [8186; 921]); (8179, [937; 921]);
   (8180, [911; 921]); (8182, [937; 834]); (8183, [937; 834; 921]);
   (8188, [937; 921]); (8526, [8498]); (8560, [8544]); (8561, [8545]);
   (8562, [8546]); (8563, [8547]); (8564, [8548]); (8565, [8549]);
   (8566, [8550]); (8567, [8551]); (8568, [8552]); (8569, [8553]);
   (8570, [8554]); (8571, [8555]); (8572, [8556]); (8573, [8557]);
   (8574, [8558]); (8575, [8559]); (8580, [8579]); (9424, [9398]);
   (9425, [9399]); (9426, [9400]); (9427, [9401]); (9428, [9402]);
   (9429, [9403]); (9430, [9404]); (9431, [9405]); (9432, [9406]);
   (9433, [9407]); (9434, [9408]); (9435, [9409]); (9436, [9410]);
   (9437, [9411]); (9438, [9412]); (9439, [9413]); (9440, [9414]);
   (9441, [9415]); (9442, [9416]); (9443, [9417]); (9444, [9418]);
   (9445, [9419]); (9446, [9420]); (9447, [9421]); (9448, [9422]);
   (9449, [9423]); (11312, [11264]); (11313, [11265]); (11314, [11266]);
   (11315, [11267]); (11316, [11268]); (11317, [11269]); (11318, [11270]);
   (11319, [11271]); (11320, [11272]); (11321, [11273]); (11322, [11274]);
   (11323, [11275]); (11324, [11276]); (11325, [11277]); (11326, [11278]);
   (11327, [11279]); (11328, [11280]); (11329, [11281]); (11330, [11282]);
   (11331, [11283]); (11332, [11284]); (11333, [11285]); (11334, [11286]);
   (11335, [11287]); (11336, [11288]); (11337, [11289]); (11338, [11290]);
   (11339, [11291]); (11340, [11292]); (11341, [11293]); (11342, [11294]);
   (11343, [11295]); (11344, [11296]); (11345, [11297]); (11346, [11298]);
   (11347, [11299]); (11348, [11300]); (11349, [11301]); (11350, [11302]);
   (11351, [11303]); (11352, [11304]); (11353, [11305]); (11354, [11306]);
   (11355, [11307]); (11356, [11308]); (11357, [11309]); (11358, [11310]);
   (11359, [11311]); (11361, [11360]); (11365, [570]); (11366, [574]);
   (11368, [11367]); (11370, [11369]); (11372, [11371]); (11379, [11378]);
   (11382, [11381]); (11393, [11392]); (11395, [11394]); (11397, [11396]);
   (11399, [11398]); (11401, [11400]); (11403, [11402]); (11405, [11404]);
   (11407, [11406]); (11409, [11408]); (11411, [11410]); (11413, [11412]);
   (11415, [11414]); (11417, [11416]); (11419, [11418]); (11421, [11420]);
   (11423, [11422]); (11425, [11424]); (11427, [11426]); (11429, [11428]);
   (11431, [11430]); (11433, [11432]); (11435, [11434]); (11437, [11436]);
   (11439, [11438]); (11441, [11440]); (11443, [11442]); (11445, [11444]);
   (11447, [11446]); (11449, [11448]); (11451, [11450]); (11453, [11452]);
   (11455, [11454]); (11457, [11456]); (11459, [11458]); (11461, [11460]);
   (11463, [11462]); (11465, [11464]); (11467, [11466]); (11469, [11468]);
   (11471, [11470]); (11473, [11472]); (11475, [11474]); (11477, [11476]);
   (11479, [11478]); (11481, [11480]); (11483, [11482]); (11485, [11484]);
   (11487, [11486]); (11489, [11488]); (11491, [11490]); (11500, [11499]);
   (11502, [11501]); (11507, [11506]); (11520, [4256]); (11521, [4257]);
   (11522, [4258]); (11523, [4259])].

Definition upper_table_5 : list (N * list N) :=
  [(11524, [4260]); (11525, [4261]); (11526, [4262]); (11527, [4263]);
   (11528, [4264]); (11529, [4265]); (11530, [4266]); (11531, [4267]);
   (11532, [4268]); (11533, [4269]); (11534, [4270]); (11535, [4271]);
   (11536, [4272]); (11537, [4273]); (11538, [4274]); (11539, [4275]);
   (11540, [4276]); (11541, [4277]); (11542, [4278]); (11543, [4279]);
   (11544, [4280]); (11545, [4281]); (11546, [4282]); (11547, [4283]);
   (11548, [4284]); (11549, [4285]); (11550, [4286]); (11551, [4287]);
   (11552, [4288]); (11553, [4289]); (11554, [4290]); (11555, [4291]);
   (11556, [4292]); (11557, [4293]); (11559, [4295]); (11565, [4301]);
   (42561, [42560]); (42563, [42562]); (42565, [42564]); (42567, [42566]);
   (42569, [42568]); (42571, [42570]); (42573, [42572]); (42575, [42574]);
   (42577, [42576]); (42579, [42578]); (42581, [42580]); (42583, [42582]);
   (42585, [42584]); (42587, [42586]); (42589, [42588]); (42591, [42590]);
   (42593, [42592]); (42595, [42594]); (42597, [42596]); (42599, [42598]);
   (42601, [42600]); (42603, [42602]); (42605, [42604]); (42625, [42624]);
   (42627, [42626]); (42629, [42628]); (42631, [42630]); (42633, [42632]);
   (42635, [42634]); (42637, [42636]); (42639, [42638]); (42641, [42640]);
   (42643, [42642]); (42645, [42644]); (42647, [42646]); (42649, [42648]);
   (42651, [42650]); (42787, [42786]); (42789, [42788]); (42791, [42790]);
   (42793, [42792]); (42795, [42794]); (42797, [42796]); (42799, [42798]);
   (42803, [42802]); (42805, [42804]); (42807, [42806]); (42809, [42808]);
   (42811, [42810]); (42813, [42812]); (42815, [42814]); (42817, [42816]);
   (42819, [42818]); (42821, [42820]); (42823, [42822]); (42825, [42824]);
   (42827, [42826]); (42829, [42828]); (42831, [42830]); (42833, [42832]);
   (42835, [42834]); (42837, [42836]); (42839, [42838]); (42841, [42840]);
   (42843, [42842]); (42845, [42844]); (42847, [42846]); (42849, [42848]);
   (42851, [42850]); (42853, [42852]); (42855, [42854]); (42857, [42856]);
   (42859, [42858]); (42861, [42860]); (42863, [42862]); (42874, [42873]);
   (42876, [42875]); (42879, [42878]); (42881, [42880]); (42883, [42882]);
   (42885, [42884]); (42887, [42886]); (42892, [42891]); (42897, [42896]);
   (42899, [42898]); (42900, [42948]); (42903, [42902]); (42905, [42904]);
   (42907, [42906]); (42909, [42908]); (42911, [42910]); (42913, [42912]);
   (42915, [42914]); (42917, [42916]); (42919, [42918]); (42921, [42920]);
   (42933, [42932]); (42935, [42934]); (42937, [42936]); (42939, [42938]);
   (42941, [42940]); (42943, [42942]); (42945, [42944]); (42947, [42946]);
   (42952, [42951]); (42954, [42953]); (42961, [42960]); (42967, [42966]);
   (42969, [42968]); (42998, [42997]); (43859, [42931]); (43888, [5024]);
   (43889, [5025]); (43890, [5026]); (43891, [5027]); (43892, [5028]);
   (43893, [5029]); (43894, [5030]); (43895, [5031]); (43896, [5032]);
   (43897, [5033]); (43898, [5034]); (43899, [5035]); (43900, [5036]);
   (43901, [5037]); (43902, [5038]); (43903, [5039]); (43904, [5040]);
   (43905, [5041]); (43906, [5042]); (43907, [5043]); (43908, [5044]);
   (43909, [5045]); (43910, [5046]); (43911, [5047]); (43912, [5048]);
   (43913, [5049]); (43914, [5050]); (43915, [5051]); (43916, [5052]);
   (43917, [5053]); (43918, [5054]); (43919, [5055]); (43920, [5056]);
   (43921, [5057]); (43922, [5058]); (43923, [5059]); (43924, [5060]);
   (43925, [5061]); (43926, [5062]); (43927, [5063]); (43928, [5064]);
   (43929, [5065]); (43930, [5066]); (43931, [5067]); (43932, [5068]);
   (43933, [5069]); (43934, [5070]); (43935, [5071]); (43936, [5072]);
   (43937, [5073]); (43938, [5074]); (43939, [5075]); (43940, [5076])].

Definition upper_table_6 : list (N * list N) :=
  [(43941, [5077]); (43942, [5078]); (43943, [5079]); (43944, [5080]);
   (43945, [5081]); (43946, [5082]); (43947, [5083]); (43948, [5084]);
   (43949, [5085]); (43950, [5086]); (43951, [5087]); (43952, [5088]);
   (43953, [5089]); (43954, [5090]); (43955, [5091]); (43956, [5092]);
   (43957, [5093]); (43958, [5094]); (43959, [5095]); (43960, [5096]);
   (43961, [5097]); (43962, [5098]); (43963, [5099]); (43964, [5100]);
   (43965, [5101]); (43966, [5102]); (43967, [5103]); (64256, [70; 70]);
   (64257, [70; 73]); (64258, [70; 76]); (64259, [70; 70; 73]);
   (64260, [70; 70; 76]); (64261, [83; 84]); (64262, [83; 84]);
   (64275, [1348; 1350]); (64276, [1348; 1333]); (64277, [1348; 1339]);
   (64278, [1358; 1350]); (64279, [1348; 1341]); (65345, [65313]);
   (65346, [65314]); (65347, [65315]); (65348, [65316]); (65349, [65317]);
   (65350, [65318]); (65351, [65319]); (65352, [65320]); (65353, [65321]);
   (65354, [65322]); (65355, [65323]); (65356, [65324]); (65357, [65325]);
   (65358, [65326]); (65359, [65327]); (65360, [65328]); (65361, [65329]);
   (65362, [65330]); (65363, [65331]); (65364, [65332]); (65365, [65333]);
   (65366, [65334]); (65367, [65335]); (65368, [65336]); (65369, [65337]);
   (65370, [65338]); (66600, [66560]); (66601, [66561]); (66602, [66562]);
   (66603, [66563]); (66604, [66564]); (66605, [66565]); (66606, [66566]);
   (66607, [66567]); (66608, [66568]); (66609, [66569]); (66610, [66570]);
   (66611, [66571]); (66612, [66572]); (66613, [66573]); (66614, [66574]);
   (66615, [66575]); (66616, [66576]); (66617, [66577]); (66618, [66578]);
   (66619, [66579]); (66620, [66580]); (66621, [66581]); (66622, [66582]);
   (66623, [66583]); (66624, [66584]); (66625, [66585]); (66626, [66586]);
   (66627, [66587]); (66628, [66588]); (66629, [66589]); (66630, [66590]);
   (66631, [66591]); (66632, [66592]); (66633, [66593]); (66634, [66594]);
   (66635, [66595]); (66636, [66596]); (66637, [66597]); (66638, [66598]);
   (66639, [66599]); (66776, [66736]); (66777, [66737]); (66778, [66738]);
   (66779, [66739]); (66780, [66740]); (66781, [66741]); (66782, [66742]);
   (66783, [66743]); (66784, [66744]); (66785, [66745]); (66786, [66746]);
   (66787, [66747]); (66788, [66748]); (66789, [66749]); (66790, [66750]);
   (66791, [66751]); (66792, [66752]); (66793, [66753]); (66794, [66754]);
   (66795, [66755]); (66796, [66756]); (66797, [66757]); (66798, [66758]);
   (66799, [66759]); (66800, [66760]); (66801, [66761]); (66802, [66762]);
   (66803, [66763]); (66804, [66764]); (66805, [66765]); (66806, [66766]);
   (66807, [66767]); (66808, [66768]); (66809, [66769]); (66810, [66770]);
   (66811, [66771]); (66967, [66928]); (66968, [66929]); (66969, [66930]);
   (66970, [66931]); (66971, [66932]); (66972, [66933]); (66973, [66934]);
   (66974, [66935]); (66975, [66936]); (66976, [66937]); (66977, [66938]);
   (66979, [66940]); (66980, [66941]); (66981, [66942]); (66982, [66943]);
   (66983, [66944]); (66984, [66945]); (66985, [66946]); (66986, [66947]);
   (66987, [66948]); (66988, [66949]); (66989, [66950]); (66990, [66951]);
   (66991, [66952]); (66992, [66953]); (66993, [66954]); (66995, [66956]);
   (66996, [66957]); (66997, [66958]); (66998, [66959]); (66999, [66960]);
   (67000, [66961]); (67001, [66962]); (67003, [66964]); (67004, [66965]);
   (68800, [68736]); (68801, [68737]); (68802, [68738]); (68803, [68739]);
   (68804, [68740]); (68805, [68741]); (68806, [68742]); (68807, [68743]);
   (68808, [68744]); (68809, [68745]); (68810, [68746]); (68811, [68747]);
   (68812, [68748]); (68813, [68749]); (68814, [68750]); (68815, [68751]);
   (68816, [68752]); (68817, [68753]); (68818, [68754]); (68819, [68755]);
   (68820, [68756]); (68821, [68757]); (68822, [68758]); (68823, [68759])].

Definition upper_table_7 : list (N * list N) :=
  [(68824, [68760]); (68825, [68761]); (68826, [68762]); (68827, [68763]);
   (68828, [68764]); (68829, [68765]); (68830, [68766]); (68831, [68767]);
   (68832, [68768]); (68833, [68769]); (68834, [68770]); (68835, [68771]);
   (68836, [68772]); (68837, [68773]); (68838, [68774]); (68839, [68775]);
   (68840, [68776]); (68841, [68777]); (68842, [68778]); (68843, [68779]);
   (68844, [68780]); (68845, [68781]); (68846, [68782]); (68847, [68783]);
   (68848, [68784]); (68849, [68785]); (68850, [68786]); (71872, [71840]);
   (71873, [71841]); (71874, [71842]); (71875, [71843]); (71876, [71844]);
   (71877, [71845]); (71878, [71846]); (71879, [71847]); (71880, [71848]);
   (71881, [71849]); (71882, [71850]); (71883, [71851]); (71884, [71852]);
   (71885, [71853]); (71886, [71854]); (71887, [71855]); (71888, [71856]);
   (71889, [71857]); (71890, [71858]); (71891, [71859]); (71892, [71860]);
   (71893, [71861]); (71894, [71862]); (71895, [71863]); (71896, [71864]);
   (71897, [71865]); (71898, [71866]); (71899, [71867]); (71900, [71868]);
   (71901, [71869]); (71902, [71870]); (71903, [71871]); (93792, [93760]);
   (93793, [93761]); (93794, [93762]); (93795, [93763]); (93796, [93764]);
   (93797, [93765]); (93798, [93766]); (93799, [93767]); (93800, [93768]);
   (93801, [93769]); (93802, [93770]); (93803, [93771]); (93804, [93772]);
   (93805, [93773]); (93806, [93774]); (93807, [93775]); (93808, [93776]);
   (93809, [93777]); (93810, [93778]); (93811, [93779]); (93812, [93780]);
   (93813, [93781]); (93814, [93782]); (93815, [93783]); (93816, [93784]);
   (93817, [93785]); (93818, [93786]); (93819, [93787]); (93820, [93788]);
   (93821, [93789]); (93822, [93790]); (93823, [93791]);
   (125218, [125184]); (125219, [125185]); (125220, [125186]);
   (125221, [125187]); (125222, [125188]); (125223, [125189]);
   (125224, [125190]); (125225, [125191]); (125226, [125192]);
   (125227, [125193]); (125228, [125194]); (125229, [125195]);
   (125230, [125196]); (125231, [125197]); (125232, [125198]);
   (125233, [125199]); (125234, [125200]); (125235, [125201]);
   (125236, [125202]); (125237, [125203]); (125238, [125204]);
   (125239, [125205]); (125240, [125206]); (125241, [125207]);
   (125242, [125208]); (125243, [125209]); (125244, [125210]);
   (125245, [125211]); (125246, [125212]); (125247, [125213]);
   (125248, [125214]); (125249, [125215]); (125250, [125216]);
   (125251, [125217])].

Definition upper_table : list (N * list N) :=
  upper_table_0
  ++ upper_table_1
  ++ upper_table_2
  ++ upper_table_3
  ++ upper_table_4
  ++ upper_table_5
  ++ upper_table_6
  ++ upper_table_7.

Definition cased_ranges_0 : list (N * N) :=
  [(65, 90); (97, 122); (170, 170); (181, 181); (186, 186); (192, 214);
   (216, 246); (248, 442); (444, 447); (452, 659); (661, 696); (704, 705);
   (736, 740); (837, 837); (880, 883); (886, 887); (890, 893); (895, 895);
   (902, 902); (904, 906); (908, 908); (910, 929); (931, 1013);
   (1015, 1153); (1162, 1327); (1329, 1366); (1376, 1416); (4256, 4293);
   (4295, 4295); (4301, 4301); (4304, 4346); (4349, 4351); (5024, 5109);
   (5112, 5117); (7296, 7304); (7312, 7354); (7357, 7359); (7424, 7615);
   (7680, 7957); (7960, 7965); (7968, 8005); (8008, 8013); (8016, 8023);
   (8025, 8025); (8027, 8027); (8029, 8029); (8031, 8061); (8064, 8116);
   (8118, 8124); (8126, 8126); (8130, 8132); (8134, 8140); (8144, 8147);
   (8150, 8155); (8160, 8172); (8178, 8180); (8182, 8188); (8305, 8305);
   (8319, 8319); (8336, 8348); (8450, 8450); (8455, 8455); (8458, 8467);
   (8469, 8469); (8473, 8477); (8484, 8484); (8486, 8486); (8488, 8488);
   (8490, 8493); (8495, 8500); (8505, 8505); (8508, 8511); (8517, 8521);
   (8526, 8526); (8544, 8575); (8579, 8580); (9398, 9449); (11264, 11492);
   (11499, 11502); (11506, 11507); (11520, 11557); (11559, 11559);
   (11565, 11565); (42560, 42605); (42624, 42653); (42786, 42887);
   (42891, 42894); (42896, 42954); (42960, 42961); (42963, 42963);
   (42965, 42969); (42997, 42998); (43000, 43002); (43824, 43866);
   (43868, 43880); (43888, 43967); (64256, 64262); (64275, 64279);
   (65313, 65338); (65345, 65370); (66560, 66639); (66736, 66771);
   (66776, 66811); (66928, 66938); (66940, 66954); (66956, 66962);
   (66964, 66965); (66967, 66977); (66979, 66993); (66995, 67001);
   (67003, 67004); (67456, 67456); (67459, 67461); (67463, 67504);
   (67506, 67514); (68736, 68786); (68800, 68850); (71840, 71903);
   (93760, 93823); (119808, 119892); (119894, 119964); (119966, 119967);
   (119970, 119970); (119973, 119974); (119977, 119980); (119982, 119993);
   (119995, 119995); (119997, 120003); (120005, 120069); (120071, 120074);
   (120077, 120084); (120086, 120092); (120094, 120121); (120123, 120126);
   (120128, 120132); (120134, 120134); (120138, 120144); (120146, 120485);
   (120488, 120512); (120514, 120538); (120540, 120570); (120572, 120596);
   (120598, 120628); (120630, 120654); (120656, 120686); (120688, 120712);
   (120714, 120744); (120746, 120770); (120772, 120779); (122624, 122633)].

Definition cased_ranges_1 : list (N * N) :=
  [(122635, 122654); (125184, 125251); (127280, 127305); (127312, 127337);
   (127344, 127369)].

Definition cased_ranges : list (N * N) :=
  cased_ranges_0
  ++ cased_ranges_1.

Definition case_ignorable_ranges_0 : list (N * N) :=
  [(39, 39); (46, 46); (58, 58); (94, 94); (96, 96); (168, 168);
   (173, 173); (175, 175); (180, 180); (183, 184); (688, 879); (884, 885);
   (890, 890); (900, 901); (903, 903); (1155, 1161); (1369, 1369);
   (1375, 1375); (1425, 1469); (1471, 1471); (1473, 1474); (1476, 1477);
   (1479, 1479); (1524, 1524); (1536, 1541); (1552, 1562); (1564, 1564);
   (1600, 1600); (1611, 1631); (1648, 1648); (1750, 1757); (1759, 1768);
   (1770, 1773); (1807, 1807); (1809, 1809); (1840, 1866); (1958, 1968);
   (2027, 2037); (2042, 2042); (2045, 2045); (2070, 2093); (2137, 2139);
   (2184, 2184); (2192, 2193); (2200, 2207); (2249, 2306); (2362, 2362);
   (2364, 2364); (2369, 2376); (2381, 2381); (2385, 2391); (2402, 2403);
   (2417, 2417); (2433, 2433); (2492, 2492); (2497, 2500); (2509, 2509);
   (2530, 2531); (2558, 2558); (2561, 2562); (2620, 2620); (2625, 2626);
   (2631, 2632); (2635, 2637); (2641, 2641); (2672, 2673); (2677, 2677);
   (2689, 2690); (2748, 2748); (2753, 2757); (2759, 2760); (2765, 2765);
   (2786, 2787); (2810, 2815); (2817, 2817); (2876, 2876); (2879, 2879);
   (2881, 2884); (2893, 2893); (2901, 2902); (2914, 2915); (2946, 2946);
   (3008, 3008); (3021, 3021); (3072, 3072); (3076, 3076); (3132, 3132);
   (3134, 3136); (3142, 3144); (3146, 3149); (3157, 3158); (3170, 3171);
   (3201, 3201); (3260, 3260); (3263, 3263); (3270, 3270); (3276, 3277);
   (3298, 3299); (3328, 3329); (3387, 3388); (3393, 3396); (3405, 3405);
   (3426, 3427); (3457, 3457); (3530, 3530); (3538, 3540); (3542, 3542);
   (3633, 3633); (3636, 3642); (3654, 3662); (3761, 3761); (3764, 3772);
   (3782, 3782); (3784, 3789); (3864, 3865); (3893, 3893); (3895, 3895);
   (3897, 3897); (3953, 3966); (3968, 3972); (3974, 3975); (3981, 3991);
   (3993, 4028); (4038, 4038); (4141, 4144); (4146, 4151); (4153, 4154);
   (4157, 4158); (4184, 4185); (4190, 4192); (4209, 4212); (4226, 4226);
   (4229, 4230); (4237, 4237); (4253, 4253); (4348, 4348); (4957, 4959);
   (5906, 5908); (5938, 5939); (5970, 5971); (6002, 6003); (6068, 6069);
   (6071, 6077); (6086, 6086); (6089, 6099); (6103, 6103); (6109, 6109);
   (6155, 6159); (6211, 6211); (6277, 6278)].

Definition case_ignorable_ranges_1 : list (N * N) :=
  [(6313, 6313); (6432, 6434); (6439, 6440); (6450, 6450); (6457, 6459);
   (6679, 6680); (6683, 6683); (6742, 6742); (6744, 6750); (6752, 6752);
   (6754, 6754); (6757, 6764); (6771, 6780); (6783, 6783); (6823, 6823);
   (6832, 6862); (6912, 6915); (6964, 6964); (6966, 6970); (6972, 6972);
   (6978, 6978); (7019, 7027); (7040, 7041); (7074, 7077); (7080, 7081);
   (7083, 7085); (7142, 7142); (7144, 7145); (7149, 7149); (7151, 7153);
   (7212, 7219); (7222, 7223); (7288, 7293); (7376, 7378); (7380, 7392);
   (7394, 7400); (7405, 7405); (7412, 7412); (7416, 7417); (7468, 7530);
   (7544, 7544); (7579, 7679); (8125, 8125); (8127, 8129); (8141, 8143);
   (8157, 8159); (8173, 8175); (8189, 8190); (8203, 8207); (8216, 8217);
   (8228, 8228); (8231, 8231); (8234, 8238); (8288, 8292); (8294, 8303);
   (8305, 8305); (8319, 8319); (8336, 8348); (8400, 8432); (11388, 11389);
   (11503, 11505); (11631, 11631); (11647, 11647); (11744, 11775);
   (11823, 11823); (12293, 12293); (12330, 12333); (12337, 12341);
   (12347, 12347); (12441, 12446); (12540, 12542); (40981, 40981);
   (42232, 42237); (42508, 42508); (42607, 42610); (42612, 42621);
   (42623, 42623); (42652, 42655); (42736, 42737); (42752, 42785);
   (42864, 42864); (42888, 42890); (42994, 42996); (43000, 43001);
   (43010, 43010); (43014, 43014); (43019, 43019); (43045, 43046);
   (43052, 43052); (43204, 43205); (43232, 43249); (43263, 43263);
   (43302, 43309); (43335, 43345); (43392, 43394); (43443, 43443);
   (43446, 43449); (43452, 43453); (43471, 43471); (43493, 43494);
   (43561, 43566); (43569, 43570); (43573, 43574); (43587, 43587);
   (43596, 43596); (43632, 43632); (43644, 43644); (43696, 43696);
   (43698, 43700); (43703, 43704); (43710, 43711); (43713, 43713);
   (43741, 43741); (43756, 43757); (43763, 43764); (43766, 43766);
   (43867, 43871); (43881, 43883); (44005, 44005); (44008, 44008);
   (44013, 44013); (64286, 64286); (64434, 64450); (65024, 65039);
   (65043, 65043); (65056, 65071); (65106, 65106); (65109, 65109);
   (65279, 65279); (65287, 65287); (65294, 65294); (65306, 65306);
   (65342, 65342); (65344, 65344); (65392, 65392); (65438, 65439);
   (65507, 65507); (65529, 65531); (66045, 66045); (66272, 66272);
   (66422, 66426); (67456, 67461); (67463, 67504); (67506, 67514);
   (68097, 68099); (68101, 68102); (68108, 68111); (68152, 68154);
   (68159, 68159); (68325, 68326)].

Definition case_ignorable_ranges_2 : list (N * N) :=
  [(68900, 68903); (69291, 69292); (69446, 69456); (69506, 69509);
   (69633, 69633); (69688, 69702); (69744, 69744); (69747, 69748);
   (69759, 69761); (69811, 69814); (69817, 69818); (69821, 69821);
   (69826, 69826); (69837, 69837); (69888, 69890); (69927, 69931);
   (69933, 69940); (70003, 70003); (70016, 70017); (70070, 70078);
   (70089, 70092); (70095, 70095); (70191, 70193); (70196, 70196);
   (70198, 70199); (70206, 70206); (70367, 70367); (70371, 70378);
   (70400, 70401); (70459, 70460); (70464, 70464); (70502, 70508);
   (70512, 70516); (70712, 70719); (70722, 70724); (70726, 70726);
   (70750, 70750); (70835, 70840); (70842, 70842); (70847, 70848);
   (70850, 70851); (71090, 71093); (71100, 71101); (71103, 71104);
   (71132, 71133); (71219, 71226); (71229, 71229); (71231, 71232);
   (71339, 71339); (71341, 71341); (71344, 71349); (71351, 71351);
   (71453, 71455); (71458, 71461); (71463, 71467); (71727, 71735);
   (71737, 71738); (71995, 71996); (71998, 71998); (72003, 72003);
   (72148, 72151); (72154, 72155); (72160, 72160); (72193, 72202);
   (72243, 72248); (72251, 72254); (72263, 72263); (72273, 72278);
   (72281, 72283); (72330, 72342); (72344, 72345); (72752, 72758);
   (72760, 72765); (72767, 72767); (72850, 72871); (72874, 72880);
   (72882, 72883); (72885, 72886); (73009, 73014); (73018, 73018);
   (73020, 73021); (73023, 73029); (73031, 73031); (73104, 73105);
   (73109, 73109); (73111, 73111); (73459, 73460); (78896, 78904);
   (92912, 92916); (92976, 92982); (92992, 92995); (94031, 94031);
   (94095, 94111); (94176, 94177); (94179, 94180); (110576, 110579);
   (110581, 110587); (110589, 110590); (113821, 113822); (113824, 113827);
   (118528, 118573); (118576, 118598); (119143, 119145); (119155, 119170);
   (119173, 119179); (119210, 119213); (119362, 119364); (121344, 121398);
   (121403, 121452); (121461, 121461); (121476, 121476); (121499, 121503);
   (121505, 121519); (122880, 122886); (122888, 122904); (122907, 122913);
   (122915, 122916); (122918, 122922); (123184, 123197); (123566, 123566);
   (123628, 123631); (125136, 125142); (125252, 125259); (127995, 127999);
   (917505, 917505); (917536, 917631); (917760, 917999)].

Definition case_ignorable_ranges : list (N * N) :=
  case_ignorable_ranges_0
  ++ case_ignorable_ranges_1
  ++ case_ignorable_ranges_2.

(** The mapping of [c] in a table sorted by code point, if it has one. *)
Fixpoint find_mapping (c : N) (t : list (N * list N)) : option (list N) :=
  match t with
  | [] => None
  | (k, out) :: t' =>
      if c =? k then Some out
      else if c <? k then None
      else find_mapping c t'
  end.

(** Membership in a sorted list of inclusive ranges. *)
Fixpoint in_ranges (c : N) (rs : list (N * N)) : bool :=
  match rs with
  | [] => false
  | (lo, hi) :: rs' =>
      if c <? lo then false
      else if c <=? hi then true
      else in_ranges c rs'
  end.

Definition cased (c : N) : bool := in_ranges c cased_ranges.

Definition case_ignorable (c : N) : bool := in_ranges c case_ignorable_ranges.

End Unicode.

(** ** ECMAScript strings *)

Module JS.

(** A UTF-16 code unit (a value below [2^16]). *)
Definition codeunit := N.
Definition jsstring := list codeunit.

(** A string literal of the source, written in ASCII. *)
Definition lit (s : string) : jsstring :=
  List.map N_of_ascii (list_ascii_of_string s).
#[global] Arguments lit : simpl never.

(** The line feed written [\n] inside the template literals. *)
Definition NL : jsstring := [10].

Definition is_digit (c : codeunit) : bool := (0x30 <=? c) && (c <=? 0x39).
Definition is_lower_az (c : codeunit) : bool := (0x61 <=? c) && (c <=? 0x7A).
Definition is_upper_AZ (c : codeunit) : bool := (0x41 <=? c) && (c <=? 0x5A).

(** *** Code points

    The case conversions read a string as a sequence of code points: a
    high surrogate followed by a low surrogate is one code point above
    the Basic Multilingual Plane; every other code unit stands alone.  A
    surrogate without its partner (and a value that is no code unit) is
    kept apart as [Lone]: the conversions pass it through. *)

Inductive point :=
| Scalar (c : N)
| Lone (u : codeunit).

Definition is_high (u : codeunit) : bool := (0xD800 <=? u) && (u <=? 0xDBFF).
Definition is_low (u : codeunit) : bool := (0xDC00 <=? u) && (u <=? 0xDFFF).

Definition pair_value (h l : codeunit) : N :=
  0x10000 + (h - 0xD800) * 0x400 + (l - 0xDC00).

Definition classify (u : codeunit) : point :=
  if (u <? 0xD800) || ((0xE000 <=? u) && (u <? 0x10000)) then Scalar u
  else Lone u.

Fixpoint decode (s : jsstring) : list point :=
  match s with
  | [] => []
  | h :: t =>
      match t with
      | l :: t' =>
          if is_high h && is_low l
          then Scalar (pair_value h l) :: decode t'
          else classify h :: decode t
      | [] => [classify h]
      end
  end.

Definition encode (p : point) : jsstring :=
  match p with
  | Lone u => [u]
  | Scalar c =>
      if c <? 0x10000 then [c]
      else [0xD800 + (c - 0x10000) / 0x400; 0xDC00 + (c - 0x10000) mod 0x400]
  end.

Definition point_cased (p : point) : bool :=
  match p with
  | Scalar c => Unicode.cased c
  | Lone _ => false
  end.

Definition point_ignorable (p : point) : bool :=
  match p with
  | Scalar c => Unicode.case_ignorable c
  | Lone _ => false
  end.

(** The code points that follow are case-ignorable ones and then a cased
    letter. *)
Fixpoint followed_by_cased (ps : list point) : bool :=
  match ps with
  | [] => false
  | p :: rest =>
      if point_ignorable p then followed_by_cased rest else point_cased p
  end.

(** Capital sigma, and its two lower-case forms. *)
Definition SIGMA : N := 0x3A3.
Definition FINAL_SIGMA : N := 0x3C2.
Definition SMALL_SIGMA : N := 0x3C3.

(** The lower-case form of one code point; [final] tells whether it
    stands in the Final_Sigma context, which only capital sigma looks
    at. *)
Definition lower_point (final : bool) (p : point) : list point :=
  match p with
  | Lone u => [Lone u]
  | Scalar c =>
      if c =? SIGMA
      then [Scalar (if final then FINAL_SIGMA else SMALL_SIGMA)]
      else match Unicode.find_mapping c Unicode.lower_table with
           | Some out => List.map Scalar out
           | None => [Scalar c]
           end
  end.

(** Lower-casing from left to right.  [preceded] tells whether a cased
    letter and then only case-ignorable code points come before; a code
    point is in the Final_Sigma context when that holds and no cased
    letter follows after case-ignorable code points. *)
Fixpoint lower_points (preceded : bool) (ps : list point) : list point :=
  match ps with
  | [] => []
  | p :: rest =>
      lower_point (preceded && negb (followed_by_cased rest)) p
      ++ lower_points (if point_ignorable p then preceded else point_cased p)
           rest
  end.

(** [String.prototype.toLowerCase]. *)
Definition toLowerCase (s : jsstring) : jsstring :=
  flat_map encode (lower_points false (decode s)).

Definition upper_point (p : point) : list point :=
  match p with
  | Lone u => [Lone u]
  | Scalar c =>
      match Unicode.find_mapping c Unicode.upper_table with
      | Some out => List.map Scalar out
      | None => [Scalar c]
      end
  end.

(** [String.prototype.toUpperCase]; no mapping depends on the context. *)
Definition toUpperCase (s : jsstring) : jsstring :=
  flat_map encode (flat_map upper_point (decode s)).

(** The case mappings on the ASCII letters. *)
Definition ascii_lower (c : codeunit) : codeunit :=
  if is_upper_AZ c then c + 0x20 else c.


Definition is_ascii (c : codeunit) : bool := c <? 0x80.

(** [s.startsWith(q)]. *)
Fixpoint startsWith (s q : jsstring) : bool :=
  match q, s with
  | [], _ => true
  | _ :: _, [] => false
  | c :: q', d :: s' => (c =? d) && startsWith s' q'
  end.

(** [s.includes(q)]: some position of [s] starts an occurrence of [q]. *)
Fixpoint includes (s q : jsstring) : bool :=
  startsWith s q ||
  match s with
  | [] => false
  | _ :: s' => includes s' q
  end.

(** [xs.join(sep)]. *)
Fixpoint join (sep : jsstring) (xs : list jsstring) : jsstring :=
  match xs with
  | [] => []
  | [x] => x
  | x :: rest => x ++ sep ++ join sep rest
  end.

(** [s.replace(re, r)] for a global regular expression [re] that is a
    single character class: every code unit accepted by the class is
    replaced by [r]. *)
Definition replace_class (cls : codeunit -> bool) (r : jsstring) (s : jsstring)
  : jsstring :=
  flat_map (fun c => if cls c then r else [c]) s.

(** [Canonicalize] of a case-insensitive pattern without the [u] flag:
    the code unit is replaced by its upper-case form when that is a single
    code unit, except that a unit at or above 128 is never mapped below
    128.  Hence a unit is canonicalized into ASCII only if it is ASCII
    itself, which is all that a class of ASCII ranges can observe; above
    ASCII the unit is kept. *)
Definition canonicalize (c : codeunit) : codeunit :=
  if is_lower_az c then c - 0x20 else c.

(** The class [[^a-z0-9]] under the flags [gi]. *)
Definition non_alnum_i (c : codeunit) : bool :=
  let u := canonicalize c in
  negb (is_upper_AZ u || is_digit u).

(** The class [[^a-z0-9]] without the [i] flag. *)
Definition non_alnum (c : codeunit) : bool :=
  negb (is_lower_az c || is_digit c).

(** White space and line terminators removed by [String.prototype.trim]. *)
Definition is_white (c : codeunit) : bool :=
  ((0x09 <=? c) && (c <=? 0x0D)) || (c =? 0x20) || (c =? 0xA0) ||
  (c =? 0x1680) || ((0x2000 <=? c) && (c <=? 0x200A)) ||
  (c =? 0x2028) || (c =? 0x2029) || (c =? 0x202F) || (c =? 0x205F) ||
  (c =? 0x3000) || (c =? 0xFEFF).

Fixpoint trimStart (s : jsstring) : jsstring :=
  match s with
  | c :: s' => if is_white c then trimStart s' else s
  | [] => []
  end.

Definition trim (s : jsstring) : jsstring :=
  rev (trimStart (rev (trimStart s))).

(** Truthiness of a string: only the empty string is falsy. *)
Definition truthy_string (s : jsstring) : bool :=
  match s with [] => false | _ :: _ => true end.

(** [s.split(sep)] for a separator of one code unit: the pieces of [s]
    between the occurrences of [sep]; the empty string gives one empty
    piece. *)
Fixpoint split (sep : codeunit) (s : jsstring) : list jsstring :=
  match s with
  | [] => [[]]
  | c :: s' =>
      if c =? sep then [] :: split sep s'
      else match split sep s' with
           | w :: ws => (c :: w) :: ws
           | [] => [[c]]
           end
  end.

(** [s[0]] rendered by [join]: the first code unit, or nothing when the
    index is out of range ([undefined] joins as the empty string). *)
Definition first_unit (s : jsstring) : jsstring :=
  match s with
  | c :: _ => [c]
  | [] => []
  end.

(** [s.slice(0, n)] for a count [n] that is not negative. *)
Definition slice0 (n : nat) (s : jsstring) : jsstring := firstn n s.

(** The space of the string literal [' ']. *)
Definition SP : codeunit := 0x20.

End JS.
Import JS.

(** ** What the proofs read off the case tables

    Boolean tests on table entries and on sequences of code points; each
    is evaluated once on the whole table. *)

Module CaseChecks.

(** A Unicode scalar value: a code point that is no surrogate. *)
Definition valid_scalar (c : N) : bool :=
  (c <? 0xD800) || ((0xE000 <=? c) && (c <? 0x110000)).

Definition unmapped (c : N) : bool :=
  match Unicode.find_mapping c Unicode.lower_table with
  | Some _ => false
  | None => true
  end.

(** A code point that lower-casing leaves alone in every context. *)
Definition stable_scalar (c : N) : bool := negb (c =? SIGMA) && unmapped c.

(** An entry of the lower-case table: its key and its images are scalar
    values, the images are stable, and, except below 128 and for U+0130
    and U+212A, the image is one code point at or above 128 that takes as
    many code units as the key. *)
Definition lower_entry_ok (e : N * list N) : bool :=
  let '(k, out) := e in
  valid_scalar k
  && forallb (fun d => valid_scalar d && stable_scalar d) out
  && match out with
     | [] => false
     | [d] =>
         (k <? 0x80) || (k =? 0x212A)
         || ((0x80 <=? d) && Bool.eqb (k <? 0x10000) (d <? 0x10000))
     | _ => k =? 0x130
     end.

(** An entry of the upper-case table: scalar values, and an image that
    is not empty. *)
Definition upper_entry_ok (e : N * list N) : bool :=
  let '(k, out) := e in
  valid_scalar k && forallb valid_scalar out
  && match out with [] => false | _ => true end.

(** Below 128 the tables hold the ASCII letters and nothing else. *)
Definition ascii_lower_ok (c : N) : bool :=
  bool_decide (Unicode.find_mapping c Unicode.lower_table
               = if is_upper_AZ c then Some [c + 0x20] else None).


Definition ascii_points : list N := List.map N.of_nat (seq 0 128).

(** A point that lower-casing leaves alone. *)
Definition stable (p : point) : bool :=
  match p with
  | Scalar c => stable_scalar c
  | Lone _ => true
  end.

(** A point as [decode] produces it: a scalar value, or a code unit that
    [classify] keeps apart. *)
Definition wf_point (p : point) : bool :=
  match p with
  | Scalar c => valid_scalar c
  | Lone u => negb ((u <? 0xD800) || ((0xE000 <=? u) && (u <? 0x10000)))
  end.

Definition lone_high (p : point) : bool :=
  match p with Lone u => is_high u | Scalar _ => false end.

Definition lone_low (p : point) : bool :=
  match p with Lone u => is_low u | Scalar _ => false end.

(** The string starts with a low surrogate. *)
Definition starts_low (s : jsstring) : bool :=
  match s with l :: _ => is_low l | [] => false end.

Definition head_low (ps : list point) : bool :=
  match ps with p :: _ => lone_low p | [] => false end.

(** A sequence of points as [decode] produces it: no lone high surrogate
    stands before a lone low surrogate. *)
Fixpoint canon (ps : list point) : bool :=
  match ps with
  | [] => true
  | p :: rest =>
      wf_point p && negb (lone_high p && head_low rest) && canon rest
  end.

End CaseChecks.

(** ** The note record

    A row of the [notes] table as [select('*')] returns it. *)

Inductive SummaryLength := short | medium | long.
Inductive SummaryTone := academic | casual | professional.

Record Note := {
  id : jsstring;
  user_id : jsstring;
  title : jsstring;
  summary : option jsstring;
  original_content : jsstring;
  created_at : jsstring;
  updated_at : jsstring;
  keywords : option (list jsstring);
  summary_length : option SummaryLength;
  summary_tone : option SummaryTone;
  is_bullet_points : option bool
}.

(** ** Notes page: the search filter *)

Module Notes.

(** A boolean expression that may evaluate to [undefined] (here [None])
    through optional chaining; [undefined] is falsy. *)
Definition truthy (v : option bool) : bool :=
  match v with Some b => b | None => false end.

(** The predicate handed to [notes.filter]. *)
Definition matchesQuery (searchQuery : jsstring) (note : Note) : bool :=
  includes (toLowerCase (title note)) (toLowerCase searchQuery)
  || truthy (option_map
               (fun s => includes (toLowerCase s) (toLowerCase searchQuery))
               (summary note))
  || truthy (option_map
               (existsb (fun k =>
                  includes (toLowerCase k) (toLowerCase searchQuery)))
               (keywords note)).

Definition filteredNotes (notes : list Note) (searchQuery : jsstring)
  : list Note :=
  List.filter (matchesQuery searchQuery) notes.

(** The wording of the specification: [q] is a case-insensitive substring
    of [s] when the lower-cased [q] occurs in the lower-cased [s]. *)
Definition ci_substring (q s : jsstring) : Prop :=
  exists pre post, toLowerCase s = pre ++ toLowerCase q ++ post.

Definition note_matches (q : jsstring) (n : Note) : Prop :=
  ci_substring q (title n)
  \/ (exists s, summary n = Some s /\ ci_substring q s)
  \/ (exists ks k, keywords n = Some ks /\ In k ks /\ ci_substring q k).

(** Case-insensitive occurrence as it reads on ASCII text: a piece of
    [s] equals [q] up to the case of the ASCII letters. *)
Definition occurs_ignoring_case (q s : jsstring) : Prop :=
  exists pre m post,
    s = pre ++ m ++ post
    /\ List.map ascii_lower m = List.map ascii_lower q.

Definition note_occurs (q : jsstring) (n : Note) : Prop :=
  occurs_ignoring_case q (title n)
  \/ (exists s, summary n = Some s /\ occurs_ignoring_case q s)
  \/ (exists ks k,
        keywords n = Some ks /\ In k ks /\ occurs_ignoring_case q k).

(** A note whose title, summary and keywords are ASCII text. *)
Definition ascii_note (n : Note) : bool :=
  forallb is_ascii (title n)
  && match summary n with
     | Some s => forallb is_ascii s
     | None => true
     end
  && match keywords n with
     | Some ks => forallb (forallb is_ascii) ks
     | None => true
     end.

End Notes.

(** ** Note detail page: fetching and exporting a note *)

Module NoteDetail.

(** *** Abrupt completions

    The operations of [handleExport] that can raise are kept fallible:
    reading a property of [null] raises a [TypeError], [repeat] with a
    negative count raises a [RangeError]. *)

Inductive JsError := TypeError | RangeError.

Inductive Completion (A : Type) :=
| Normal (a : A)
| Throw (e : JsError).
Arguments Normal {A} a.
Arguments Throw {A} e.

#[global] Instance completion_ret : MRet Completion := fun A a => Normal a.

#[global] Instance completion_bind : MBind Completion := fun A B k c =>
  match c with
  | Normal a => k a
  | Throw e => Throw e
  end.

(** Reading a property of a value that may be [null]. *)
Definition deref {A} (v : option A) : Completion A :=
  match v with
  | Some a => Normal a
  | None => Throw TypeError
  end.

(** [s.repeat(count)]. *)
Definition repeat_str (s : jsstring) (count : Z) : Completion jsstring :=
  if (count <? 0)%Z then Throw RangeError
  else Normal (List.concat (List.repeat s (Z.to_nat count))).

(** [s.length]. *)
Definition str_length (s : jsstring) : Z := Z.of_nat (length s).

(** *** handleExport *)

Inductive Format := txt | md.

Definition format_string (format : Format) : jsstring :=
  match format with
  | txt => lit "txt"
  | md => lit "md"
  end.

(** [note.title.replace(/[^a-z0-9]/gi, '_').toLowerCase()]. *)
Definition filenameStem (t : jsstring) : jsstring :=
  toLowerCase (replace_class non_alnum_i (lit "_") t).

(** [note.summary || 'No summary']: [null] and the empty string are
    both falsy. *)
Definition summary_or_default (note : Note) : jsstring :=
  match summary note with
  | Some s => if truthy_string s then s else lit "No summary"
  | None => lit "No summary"
  end.

(** [note.keywords && note.keywords.length > 0]. *)
Definition has_keywords (note : Note) : bool :=
  match keywords note with
  | None => false
  | Some ks => (0 <? length ks)%nat
  end.

(** The text appended by the guarded statement of the Markdown branch. *)
Definition md_keywords (ks : list jsstring) : jsstring :=
  lit "## Keywords" ++ NL ++ NL
  ++ join NL (List.map (fun k => lit "- " ++ k) ks) ++ NL ++ NL.

(** The text appended by the guarded statement of the plain-text branch. *)
Definition txt_keywords (ks : list jsstring) : jsstring :=
  lit "Keywords: " ++ join (lit ", ") ks ++ NL ++ NL.

Definition md_head (note : Note) : jsstring :=
  lit "# " ++ title note ++ NL ++ NL ++ lit "## Summary" ++ NL ++ NL
  ++ summary_or_default note ++ NL ++ NL.

Definition md_tail (note : Note) : jsstring :=
  lit "## Original Content" ++ NL ++ NL ++ original_content note.

Definition txt_head (note : Note) (rule : jsstring) : jsstring :=
  title note ++ NL ++ rule ++ NL ++ NL ++ lit "Summary:" ++ NL
  ++ summary_or_default note ++ NL ++ NL.

Definition txt_tail (note : Note) : jsstring :=
  lit "Original Content:" ++ NL ++ original_content note.

(** The [content] variable of [handleExport] at the end of the
    conditional on [format]. *)
Definition exportContent (note : Note) (format : Format)
  : Completion jsstring :=
  match format with
  | md =>
      let content := md_head note in
      content ← (if has_keywords note
                  then ks ← deref (keywords note);
                       Normal (content ++ md_keywords ks)
                  else Normal content);
      Normal (content ++ md_tail note)
  | txt =>
      rule ← repeat_str (lit "=") (str_length (title note));
      let content := txt_head note rule in
      content ← (if has_keywords note
                  then ks ← deref (keywords note);
                       Normal (content ++ txt_keywords ks)
                  else Normal content);
      Normal (content ++ txt_tail note)
  end.

(** What the handler hands to the browser: the downloaded file and the
    description of the toast. *)
Record Download := {
  download_name : jsstring;
  download_content : jsstring;
  toast_description : jsstring
}.

(** [handleExport]; [None] is the early return on a missing note. *)
Definition handleExport (note : option Note) (format : Format)
  : Completion (option Download) :=
  match note with
  | None => Normal None
  | Some note =>
      let filename :=
        filenameStem (title note) ++ lit "." ++ format_string format in
      content ← exportContent note format;
      Normal (Some {| download_name := filename;
                      download_content := content;
                      toast_description := lit "Saved as " ++ filename |})
  end.

(** The pieces of the exported document, named as the specification
    names them. *)

(** The line of [=] under the title of the plain-text form. *)
Definition underline (note : Note) : jsstring :=
  List.concat (List.repeat (lit "=") (length (title note))).

(** Everything that precedes the summary body. *)
Definition before_summary (format : Format) (note : Note) : jsstring :=
  match format with
  | md => lit "# " ++ title note ++ NL ++ NL ++ lit "## Summary" ++ NL ++ NL
  | txt => title note ++ NL ++ underline note ++ NL ++ NL
           ++ lit "Summary:" ++ NL
  end.

(** The Keywords section for a given list of keywords. *)
Definition keywords_section (format : Format) (ks : list jsstring)
  : jsstring :=
  match format with
  | md => md_keywords ks
  | txt => txt_keywords ks
  end.

(** The Original Content section. *)
Definition content_section (format : Format) (note : Note) : jsstring :=
  match format with
  | md => md_tail note
  | txt => txt_tail note
  end.

(** The text that opens a Keywords section. *)
Definition keywords_marker (format : Format) : jsstring :=
  match format with
  | md => lit "## Keywords"
  | txt => lit "Keywords:"
  end.

(** None of the note's own texts contains [m]. *)
Definition free_of (m : jsstring) (note : Note) : Prop :=
  includes (title note) m = false
  /\ (forall s, summary note = Some s -> includes s m = false)
  /\ includes (original_content note) m = false.

(** A word of a single line: not empty and without a line feed. *)
Definition line_word (m : jsstring) : bool :=
  truthy_string m && forallb (fun c => negb (c =? 10)) m.

Definition with_summary (s : option jsstring) (note : Note) : Note :=
  {| id := id note; user_id := user_id note; title := title note;
     summary := s; original_content := original_content note;
     created_at := created_at note; updated_at := updated_at note;
     keywords := keywords note; summary_length := summary_length note;
     summary_tone := summary_tone note;
     is_bullet_points := is_bullet_points note |}.

(** The derivation in the order the specification words it: lower-case
    first, then replace what lies outside [[a-z0-9]]. *)
Definition deriveStem_spec (t : jsstring) : jsstring :=
  replace_class non_alnum (lit "_") (toLowerCase t).

(** What the derivation does to a single code unit: an ASCII letter is
    lower-cased, a digit is kept, anything else becomes an underscore. *)
Definition sanitize_unit (c : codeunit) : codeunit :=
  if is_upper_AZ c then c + 0x20
  else if is_lower_az c || is_digit c then c
  else 0x5F.

(** The code units a derived stem is made of: [[a-z0-9_]]. *)
Definition stem_unit (c : codeunit) : bool :=
  is_lower_az c || is_digit c || (c =? 0x5F).

(** The two code units whose lower-case form brings an ASCII letter into
    a title that did not have it. *)
Definition lowers_into_ascii (c : codeunit) : bool :=
  (c =? 0x130) || (c =? 0x212A).

(** *** fetchNote *)

Record User := { uid : jsstring }.

Inductive QueryError := NotSingleRow.

Record QueryResult := {
  data : option Note;
  error : option QueryError
}.

(** Row-level security of the migration, policy "Users can view their
    own notes": [USING (auth.uid() = user_id)]. *)
Definition rls_select (auth_uid : jsstring) (table : list Note) : list Note :=
  List.filter (fun r => bool_decide (auth_uid = user_id r)) table.

(** [.eq(column, value)]. *)
Definition eq_filter (column : Note -> jsstring) (value : jsstring)
  (rows : list Note) : list Note :=
  List.filter (fun r => bool_decide (column r = value)) rows.

(** [.single()]: exactly one row, or an error. *)
Definition single (rows : list Note) : QueryResult :=
  match rows with
  | [r] => {| data := Some r; error := None |}
  | _ => {| data := None; error := Some NotSingleRow |}
  end.

(** The query of [fetchNote].  [policy] tells whether the remote store
    applies its row-level policy; the migration switches it on. *)
Definition queryNote (policy : bool) (table : list Note)
  (session : User) (id_param : jsstring) : QueryResult :=
  let visible := if policy then rls_select (uid session) table else table in
  single (eq_filter user_id (uid session) (eq_filter id id_param visible)).

Record PageState := {
  note : option Note;
  loading : bool
}.

Inductive Effect :=
| ConsoleError
| Navigate (path : jsstring).

(** [fetchNote], run by the effect hook; [id_param] is the route
    parameter ([None] when it is undefined). *)
Definition fetchNote (policy : bool) (table : list Note)
  (user : option User) (id_param : option jsstring) (st : PageState)
  : PageState * list Effect :=
  match user, id_param with
  | Some u, Some i =>
      if truthy_string i then
        let res := queryNote policy table u i in
        match error res with
        | Some _ =>
            ({| note := note st; loading := false |},
             [ConsoleError; Navigate (lit "/notes")])
        | None =>
            ({| note := data res; loading := false |}, [])
        end
      else (st, [])
  | _, _ => (st, [])
  end.

(** The code units a file name is made of: those of a stem, and the dot. *)
Definition name_unit (c : codeunit) : bool :=
  stem_unit c || (c =? 0x2E).

End NoteDetail.

(** ** New-note page: requesting a summary *)

Module NewNote.

(** The [result] state.  Its fields are copied from the untyped response
    body, so at run time each may be [undefined] ([None]). *)
Record SummaryResult := {
  r_title : option jsstring;
  r_summary : option jsstring;
  r_keywords : option (list jsstring)
}.

Record State := {
  content : jsstring;
  summaryLength : SummaryLength;
  summaryTone : SummaryTone;
  isBulletPoints : bool;
  isProcessing : bool;
  result : option SummaryResult;
  copied : bool
}.

(** The body sent to the [summarize] function. *)
Record Request := {
  body_content : jsstring;
  body_length : SummaryLength;
  body_tone : SummaryTone;
  body_bulletPoints : bool
}.

(** An error object; [message] may be missing. *)
Record FnError := { message : option jsstring }.

(** How the awaited [invoke] settles: it resolves to a pair of a body
    ([None] for [null]) and an error ([None] for [null]), or rejects. *)
Inductive Settled :=
| Fulfilled (data : option SummaryResult) (error : option FnError)
| Rejected (reason : FnError).

Inductive Variant := default | destructive.

Record ToastMsg := {
  toast_title : jsstring;
  toast_text : jsstring;
  toast_variant : Variant
}.

(** The handler as a tree of its effects, in program order. *)
Inductive Prog :=
| Done
| Toast (t : ToastMsg) (k : Prog)
| SetIsProcessing (b : bool) (k : Prog)
| SetResult (r : option SummaryResult) (k : Prog)
| ConsoleError (k : Prog)
| Invoke (fn : jsstring) (body : Request) (k : Settled -> Prog).

Definition contentRequired : ToastMsg :=
  {| toast_title := lit "Content required";
     toast_text := lit "Please enter some text to summarize.";
     toast_variant := destructive |}.

Definition summaryGenerated : ToastMsg :=
  {| toast_title := lit "Summary generated!";
     toast_text := lit "Your content has been summarized successfully.";
     toast_variant := default |}.

(** [error.message || 'An error occurred while summarizing.']. *)
Definition message_or_default (e : FnError) : jsstring :=
  match message e with
  | Some m => if truthy_string m then m
              else lit "An error occurred while summarizing."
  | None => lit "An error occurred while summarizing."
  end.

Definition summarizationFailed (e : FnError) : ToastMsg :=
  {| toast_title := lit "Summarization failed";
     toast_text := message_or_default e;
     toast_variant := destructive |}.

(** The [TypeError] raised by [data.title] when the body is [null]; the
    wording of its message is the engine's. *)
Definition nullBodyError : FnError :=
  {| message := Some (lit "Cannot read properties of null (reading 'title')") |}.

(** The [catch] block followed by the [finally] block. *)
Definition caught (e : FnError) : Prog :=
  ConsoleError (Toast (summarizationFailed e) (SetIsProcessing false Done)).

(** The body of the request, read from the state the handler closes
    over. *)
Definition requestBody (st : State) : Request :=
  {| body_content := content st;
     body_length := summaryLength st;
     body_tone := summaryTone st;
     body_bulletPoints := isBulletPoints st |}.

(** What follows the [await]: the rest of the [try] block, or the
    [catch] block, and then the [finally] block. *)
Definition afterInvoke (settled : Settled) : Prog :=
  match settled with
  | Rejected reason => caught reason
  | Fulfilled data error =>
      match error with
      | Some e => caught e
      | None =>
          match data with
          | None => caught nullBodyError
          | Some d =>
              SetResult
                (Some {| r_title := r_title d;
                         r_summary := r_summary d;
                         r_keywords := r_keywords d |})
                (Toast summaryGenerated (SetIsProcessing false Done))
          end
      end
  end.

Definition handleSummarize (st : State) : Prog :=
  if negb (truthy_string (trim (content st))) then
    Toast contentRequired Done
  else
    SetIsProcessing true
      (SetResult None
         (Invoke (lit "summarize") (requestBody st) afterInvoke)).

(** The settlements the handler takes for a failure, with the error it
    catches: a rejected call, a call that resolves with an error (the
    client reports transport failures and errors of the remote function
    this way), and a response without a body. *)
Inductive Failed : Settled -> FnError -> Prop :=
| failed_rejected (reason : FnError) : Failed (Rejected reason) reason
| failed_error (data : option SummaryResult) (e : FnError) :
    Failed (Fulfilled data (Some e)) e
| failed_null_body : Failed (Fulfilled None None) nullBodyError.

(** A body that lacks one of the expected fields. *)
Definition malformed (d : SummaryResult) : Prop :=
  r_title d = None \/ r_summary d = None \/ r_keywords d = None.

(** What an observer of the page sees. *)
Inductive Event :=
| EToast (t : ToastMsg)
| EConsoleError
| EInvoke (fn : jsstring) (body : Request).

Definition set_isProcessing (b : bool) (st : State) : State :=
  {| content := content st; summaryLength := summaryLength st;
     summaryTone := summaryTone st; isBulletPoints := isBulletPoints st;
     isProcessing := b; result := result st; copied := copied st |}.

Definition set_result (r : option SummaryResult) (st : State) : State :=
  {| content := content st; summaryLength := summaryLength st;
     summaryTone := summaryTone st; isBulletPoints := isBulletPoints st;
     isProcessing := isProcessing st; result := r; copied := copied st |}.

(** Running a handler against a remote function: the state it leaves
    and the events it causes, oldest first. *)
Fixpoint run (p : Prog) (remote : Request -> Settled) (st : State)
  : State * list Event :=
  match p with
  | Done => (st, [])
  | Toast t k =>
      let (st', evs) := run k remote st in (st', EToast t :: evs)
  | SetIsProcessing b k => run k remote (set_isProcessing b st)
  | SetResult r k => run k remote (set_result r st)
  | ConsoleError k =>
      let (st', evs) := run k remote st in (st', EConsoleError :: evs)
  | Invoke fn body k =>
      let (st', evs) := run (k (remote body)) remote st in
      (st', EInvoke fn body :: evs)
  end.

Definition is_invoke (e : Event) : bool :=
  match e with EInvoke _ _ => true | _ => false end.

Definition is_error_toast (e : Event) : bool :=
  match e with
  | EToast t => match toast_variant t with destructive => true | default => false end
  | _ => false
  end.

(** The number of network calls among the events. *)
Definition invocations (evs : list Event) : nat :=
  length (List.filter is_invoke evs).

End NewNote.

(** ** The remote store

    The [notes] table of the migration with its primary key, its
    [NOT NULL] columns and its row-level policies, as far as the pages
    write to it. *)

Module Store.
Import NoteDetail.

(** The error object of a failed call; the pages show its [message]. *)
Record StoreError := { err_message : jsstring }.

(** [auth.uid() = user_id] for the session that sends the request; a
    request without a session owns nothing. *)
Definition owns (session : option User) (r : Note) : bool :=
  match session with
  | Some u => bool_decide (uid u = user_id r)
  | None => false
  end.

(** [DELETE FROM notes WHERE id = value].  Under the policy "Users can
    delete their own notes" the rows of other users are out of reach of
    the statement; leaving them in place is no error. *)
Definition delete_by_id (policy : bool) (session : option User)
  (value : jsstring) (table : list Note) : list Note :=
  List.filter
    (fun r => negb (bool_decide (id r = value)
                    && (negb policy || owns session r)))
    table.

(** [.delete().eq('id', value)]: [fail] is the error of a request that
    does not get through; such a request leaves the table as it is. *)
Definition request_delete (fail : option StoreError) (policy : bool)
  (session : option User) (value : jsstring) (table : list Note)
  : list Note * option StoreError :=
  match fail with
  | Some e => (table, Some e)
  | None => (delete_by_id policy session value table, None)
  end.

(** The object handed to [insert]; a property that is [undefined] is
    not sent, so its column is [NULL]. *)
Record NewRow := {
  n_user_id : jsstring;
  n_title : option jsstring;
  n_original_content : jsstring;
  n_summary : option jsstring;
  n_keywords : option (list jsstring);
  n_summary_length : SummaryLength;
  n_summary_tone : SummaryTone;
  n_is_bullet_points : bool
}.

(** The double quote inside the messages of the store. *)
Definition QUOTE : jsstring := [34].

Definition rls_violation : StoreError :=
  {| err_message :=
       lit "new row violates row-level security policy for table "
       ++ QUOTE ++ lit "notes" ++ QUOTE |}.

Definition not_null_violation : StoreError :=
  {| err_message :=
       lit "null value in column " ++ QUOTE ++ lit "title" ++ QUOTE
       ++ lit " of relation " ++ QUOTE ++ lit "notes" ++ QUOTE
       ++ lit " violates not-null constraint" |}.

Definition unique_violation : StoreError :=
  {| err_message :=
       lit "duplicate key value violates unique constraint "
       ++ QUOTE ++ lit "notes_pkey" ++ QUOTE |}.

(** [INSERT INTO notes]: the policy "Users can create their own notes"
    ([WITH CHECK (auth.uid() = user_id)]), then [title TEXT NOT NULL], then
    the primary key.  [fresh_id] is the value of [gen_random_uuid()] and
    [now] that of [now()]. *)
Definition insert_row (policy : bool) (session : option User)
  (fresh_id now : jsstring) (row : NewRow) (table : list Note)
  : list Note * option StoreError :=
  if policy && negb (match session with
                     | Some u => bool_decide (uid u = n_user_id row)
                     | None => false
                     end)
  then (table, Some rls_violation)
  else
    match n_title row with
    | None => (table, Some not_null_violation)
    | Some t =>
        if existsb (fun r => bool_decide (id r = fresh_id)) table
        then (table, Some unique_violation)
        else (table ++
              [{| id := fresh_id; user_id := n_user_id row; title := t;
                  summary := n_summary row;
                  original_content := n_original_content row;
                  created_at := now; updated_at := now;
                  keywords := n_keywords row;
                  summary_length := Some (n_summary_length row);
                  summary_tone := Some (n_summary_tone row);
                  is_bullet_points := Some (n_is_bullet_points row) |}],
              None)
    end.

Definition request_insert (fail : option StoreError) (policy : bool)
  (session : option User) (fresh_id now : jsstring) (row : NewRow)
  (table : list Note) : list Note * option StoreError :=
  match fail with
  | Some e => (table, Some e)
  | None => insert_row policy session fresh_id now row table
  end.

(** What a page does besides changing its state. *)
Inductive UiEvent :=
| UToast (t : NewNote.ToastMsg)
| UNavigate (path : jsstring)
| UConsoleError.

End Store.

(** ** Notes page: loading, deleting and rendering the list *)

Module NotesList.
Import NoteDetail Store.

Record State := {
  notes : list Note;
  searchQuery : jsstring;
  loading : bool
}.

(** [fetchNotes].  [order] stands for [ORDER BY created_at DESC], whose
    comparison of time stamps is the store's. *)
Definition fetchNotes (order : list Note -> list Note)
  (fail : option StoreError) (policy : bool) (table : list Note)
  (user : option User) (st : State) : State * list UiEvent :=
  match user with
  | None => (st, [])
  | Some u =>
      match fail with
      | Some _ =>
          ({| notes := notes st; searchQuery := searchQuery st;
              loading := false |}, [UConsoleError])
      | None =>
          let visible :=
            if policy then rls_select (uid u) table else table in
          ({| notes := order (eq_filter user_id (uid u) visible);
              searchQuery := searchQuery st; loading := false |}, [])
      end
  end.

Definition deleteFailed (e : StoreError) : NewNote.ToastMsg :=
  {| NewNote.toast_title := lit "Delete failed";
     NewNote.toast_text := err_message e;
     NewNote.toast_variant := NewNote.destructive |}.

Definition noteDeleted : NewNote.ToastMsg :=
  {| NewNote.toast_title := lit "Note deleted";
     NewNote.toast_text := lit "Your note has been deleted.";
     NewNote.toast_variant := NewNote.default |}.

(** [handleDelete(id)]: the table after the request, the state of the
    page and the toast. *)
Definition handleDelete (fail : option StoreError) (policy : bool)
  (table : list Note) (session : option User) (id_arg : jsstring)
  (st : State) : list Note * State * list UiEvent :=
  match request_delete fail policy session id_arg table with
  | (table', Some e) => (table', st, [UToast (deleteFailed e)])
  | (table', None) =>
      (table',
       {| notes := List.filter
                     (fun n => negb (bool_decide (id n = id_arg)))
                     (notes st);
          searchQuery := searchQuery st; loading := loading st |},
       [UToast noteDeleted])
  end.

(** The three bodies the page can render under its search box. *)
Inductive View :=
| Skeleton
| EmptyState (headline hint : jsstring) (createButton : bool)
| NoteCards (shown : list Note).

Definition render (st : State) : View :=
  if loading st then Skeleton
  else
    match Notes.filteredNotes (notes st) (searchQuery st) with
    | [] =>
        if truthy_string (searchQuery st)
        then EmptyState (lit "No notes found")
               (lit "Try a different search term") false
        else EmptyState (lit "No notes yet")
               (lit "Create your first note to get started") true
    | shown => NoteCards shown
    end.

(** The keywords of a card: the chips that are shown and, when there are
    more than three keywords, the number behind "+ ... more". *)
Definition keywordChips (note : Note) : option (list jsstring * option Z) :=
  match keywords note with
  | None => None
  | Some ks =>
      if (0 <? length ks)%nat
      then Some (firstn 3 ks,
                 if (3 <? length ks)%nat
                 then Some (Z.of_nat (length ks) - 3)%Z
                 else None)
      else None
  end.

(** The list of the page shows exactly the notes that the table holds for
    the user. *)
Definition in_sync (u : User) (table listed : list Note) : Prop :=
  forall n, In n listed <-> In n table /\ user_id n = uid u.

End NotesList.

(** ** Note detail page: deleting the note *)

Module NoteActions.
Import NoteDetail Store.

Definition deleteFailed (e : StoreError) : NewNote.ToastMsg :=
  {| NewNote.toast_title := lit "Delete failed";
     NewNote.toast_text := err_message e;
     NewNote.toast_variant := NewNote.destructive |}.

(** The toast of the detail page has a title and no description. *)
Definition noteDeleted : NewNote.ToastMsg :=
  {| NewNote.toast_title := lit "Note deleted";
     NewNote.toast_text := [];
     NewNote.toast_variant := NewNote.default |}.

(** [handleDelete] of the detail page. *)
Definition handleDelete (fail : option StoreError) (policy : bool)
  (table : list Note) (session : option User) (st : PageState)
  : list Note * list UiEvent :=
  match note st with
  | None => (table, [])
  | Some n =>
      match request_delete fail policy session (id n) table with
      | (table', Some e) => (table', [UToast (deleteFailed e)])
      | (table', None) =>
          (table', [UToast noteDeleted; UNavigate (lit "/notes")])
      end
  end.

End NoteActions.

(** ** New-note page: saving, and the Generate button *)

Module SaveNote.
Import NoteDetail Store NewNote.

Definition noteSaved : ToastMsg :=
  {| toast_title := lit "Note saved!";
     toast_text := lit "Your note has been saved successfully.";
     toast_variant := default |}.

(** [error.message || 'An error occurred while saving.']. *)
Definition saveFailed (e : StoreError) : ToastMsg :=
  {| toast_title := lit "Save failed";
     toast_text := if truthy_string (err_message e) then err_message e
                   else lit "An error occurred while saving.";
     toast_variant := destructive |}.

(** The object built for [insert]. *)
Definition newRow (u : User) (r : SummaryResult) (st : State) : NewRow :=
  {| n_user_id := uid u;
     n_title := r_title r;
     n_original_content := content st;
     n_summary := r_summary r;
     n_keywords := r_keywords r;
     n_summary_length := summaryLength st;
     n_summary_tone := summaryTone st;
     n_is_bullet_points := isBulletPoints st |}.

(** [handleSave]; the session of the request is the signed-in [user]. *)
Definition handleSave (fail : option StoreError) (policy : bool)
  (table : list Note) (fresh_id now : jsstring) (user : option User)
  (st : State) : list Note * list UiEvent :=
  match result st, user with
  | Some r, Some u =>
      match request_insert fail policy (Some u) fresh_id now
              (newRow u r st) table with
      | (table', Some e) =>
          (table', [UConsoleError; UToast (saveFailed e)])
      | (table', None) =>
          (table', [UToast noteSaved; UNavigate (lit "/notes")])
      end
  | _, _ => (table, [])
  end.

(** [disabled={isProcessing || !content.trim()}] of the Generate
    button. *)
Definition generateDisabled (st : State) : bool :=
  isProcessing st || negb (truthy_string (trim (content st))).

(** The state of the page and the body of the request at the moment a
    handler reaches its [await]. *)
Fixpoint atAwait (p : Prog) (st : State) : option (State * Request) :=
  match p with
  | Done => None
  | Toast _ k => atAwait k st
  | SetIsProcessing b k => atAwait k (set_isProcessing b st)
  | SetResult r k => atAwait k (set_result r st)
  | ConsoleError k => atAwait k st
  | Invoke _ body _ => Some (st, body)
  end.

(** The body of the Summary card. *)
Inductive Panel :=
| Generating
| Placeholder
| Generated (shown_title shown_summary : option jsstring)
    (chips : list jsstring).

(** The conditional that renders the card: while processing, with a
    result, without one.  [result.keywords.length] reads a property of
    [result.keywords], which raises when that is [undefined]. *)
Definition renderPanel (st : State) : Completion Panel :=
  if isProcessing st then Normal Generating
  else
    match result st with
    | Some r =>
        ks ← deref (r_keywords r);
        Normal (Generated (r_title r) (r_summary r)
                  (if (0 <? length ks)%nat then ks else []))
    | None => Normal Placeholder
    end.

End SaveNote.

(** ** Profile page and dashboard: names *)

Module ProfilePage.

(** [getInitials]; the argument is [null] ([None]) or a string. *)
Definition getInitials (name : option jsstring) : jsstring :=
  match name with
  | None => lit "U"
  | Some s =>
      if truthy_string s
      then slice0 2 (toUpperCase (join [] (List.map first_unit (split SP s))))
      else lit "U"
  end.

End ProfilePage.

Module DashboardPage.


(** The columns the dashboard selects. *)
Record RecentNote := {
  rn_id : jsstring;
  rn_title : jsstring;
  rn_summary : option jsstring;
  rn_created_at : jsstring;
  rn_keywords : option (list jsstring)
}.

Definition project (n : Note) : RecentNote :=
  {| rn_id := id n; rn_title := title n; rn_summary := summary n;
     rn_created_at := created_at n; rn_keywords := keywords n |}.

Record Stats := { totalNotes : Z; thisWeek : Z }.

Record State := {
  recentNotes : list RecentNote;
  stats : Stats;
  loading : bool
}.

(** The rows [.eq('user_id', user.id)] selects for the session. *)
Definition own_rows (policy : bool) (u : NoteDetail.User)
  (table : list Note) : list Note :=
  NoteDetail.eq_filter user_id (NoteDetail.uid u)
    (if policy then NoteDetail.rls_select (NoteDetail.uid u) table
     else table).

(** [count || 0]. *)
Definition count_or_zero (count : option Z) : Z :=
  match count with
  | Some c => c
  | None => 0%Z
  end.

(** [fetchData].  [order] stands for [ORDER BY created_at DESC] and
    [since] for the comparison [created_at >= weekAgo], both the store's;
    the three flags tell which of the three requests get through.  The
    errors of the requests are not looked at. *)
Definition fetchData (order : list Note -> list Note) (since : Note -> bool)
  (ok_recent ok_total ok_week : bool) (policy : bool) (table : list Note)
  (user : option NoteDetail.User) (st : State) : State :=
  match user with
  | None => st
  | Some u =>
      let notes :=
        if ok_recent
        then Some (List.map project (firstn 5 (order (own_rows policy u table))))
        else None in
      let total :=
        if ok_total
        then Some (Z.of_nat (length (own_rows policy u table)))
        else None in
      let week :=
        if ok_week
        then Some (Z.of_nat
                     (length (List.filter since (own_rows policy u table))))
        else None in
      {| recentNotes := match notes with
                        | Some l => l
                        | None => recentNotes st
                        end;
         stats := {| totalNotes := count_or_zero total;
                     thisWeek := count_or_zero week |};
         loading := false |}
  end.

End DashboardPage.

(** ** Sidebar *)

Module Sidebar.

Record NavItem := { label : jsstring; path : jsstring }.

Definition navItems : list NavItem :=
  [ {| label := lit "Dashboard"; path := lit "/dashboard" |};
    {| label := lit "New Note"; path := lit "/new" |};
    {| label := lit "My Notes"; path := lit "/notes" |};
    {| label := lit "Folders"; path := lit "/folders" |};
    {| label := lit "Tags"; path := lit "/tags" |} ].

Definition bottomItems : list NavItem :=
  [ {| label := lit "Profile"; path := lit "/profile" |};
    {| label := lit "Settings"; path := lit "/settings" |} ].

(** [location.pathname === item.path]. *)
Definition isActive (pathname : jsstring) (item : NavItem) : bool :=
  bool_decide (pathname = path item).

End Sidebar.

(** ** Sample notes *)

Module Examples.

Definition sample (t : jsstring) (s : option jsstring)
  (ks : option (list jsstring)) (c : jsstring) : Note :=
  {| id := lit "0b9f6a1e"; user_id := lit "alice"; title := t;
     summary := s; original_content := c;
     created_at := lit "2026-01-03T19:05:31Z";
     updated_at := lit "2026-01-03T19:05:31Z";
     keywords := ks; summary_length := Some medium;
     summary_tone := Some professional; is_bullet_points := Some false |}.

(** The note of the specification's scenario. *)
Definition q1_report : Note :=
  sample (lit "Q1 Report!!") None (Some []) (lit "Revenue grew.").

(** A title that starts with U+0130, the dotted capital I. *)
Definition istanbul : Note :=
  sample (0x130 :: lit "stanbul") (Some (lit "A city.")) None (lit "Notes.").

(** A note without keywords whose summary ends with a line that reads
    like a Keywords section. *)
Definition quoting_txt : Note :=
  sample (lit "T") (Some (lit "S" ++ NL ++ NL ++ lit "Keywords: a, b"))
    (Some []) (lit "C").

Definition quoting_md : Note :=
  sample (lit "T")
    (Some (lit "S" ++ NL ++ NL ++ lit "## Keywords" ++ NL ++ NL
           ++ lit "- a" ++ NL ++ lit "- b"))
    None (lit "C").

(** The note with the same texts and two keywords. *)
Definition tagged : Note :=
  sample (lit "T") (Some (lit "S")) (Some [lit "a"; lit "b"]) (lit "C").

(** A stored summary that is the empty string. *)
Definition empty_summary : Note :=
  sample (lit "T") (Some []) (Some [lit "a"]) (lit "C").

(** A table with a note of alice and a note of bob. *)
Definition bob : NoteDetail.User := {| NoteDetail.uid := lit "bob" |}.

Definition bobs_note : Note :=
  {| id := lit "5d2c77aa"; user_id := lit "bob"; title := lit "Groceries";
     summary := None; original_content := lit "Milk, eggs.";
     created_at := lit "2026-01-04T08:00:00Z";
     updated_at := lit "2026-01-04T08:00:00Z";
     keywords := None; summary_length := Some short;
     summary_tone := Some casual; is_bullet_points := Some true |}.

Definition notes_table : list Note := [q1_report; bobs_note].

Definition loading_page : NoteDetail.PageState :=
  {| NoteDetail.note := None; NoteDetail.loading := true |}.

(** A draft on the new-note page, with a summary generated earlier. *)
Definition earlier_result : NewNote.SummaryResult :=
  {| NewNote.r_title := Some (lit "Fox");
     NewNote.r_summary := Some (lit "A fox jumps.");
     NewNote.r_keywords := Some [lit "fox"] |}.

Definition draft : NewNote.State :=
  {| NewNote.content := lit "The quick brown fox";
     NewNote.summaryLength := short; NewNote.summaryTone := casual;
     NewNote.isBulletPoints := false; NewNote.isProcessing := false;
     NewNote.result := Some earlier_result; NewNote.copied := false |}.

Definition blank_draft : NewNote.State :=
  {| NewNote.content := lit "   "; NewNote.summaryLength := medium;
     NewNote.summaryTone := professional; NewNote.isBulletPoints := false;
     NewNote.isProcessing := false; NewNote.result := Some earlier_result;
     NewNote.copied := false |}.

(** A remote function that is unreachable. *)
Definition unreachable (_ : NewNote.Request) : NewNote.Settled :=
  NewNote.Fulfilled None
    (Some {| NewNote.message := Some (lit "Failed to send a request") |}).

(** A remote function that answers with an empty JSON object. *)
Definition empty_object (_ : NewNote.Request) : NewNote.Settled :=
  NewNote.Fulfilled
    (Some {| NewNote.r_title := None; NewNote.r_summary := None;
             NewNote.r_keywords := None |})
    None.

(** A title that ends with a capital sigma: alpha, sigma. *)
Definition alpha_sigma : Note :=
  sample [0x391; 0x3A3] None None (lit "Notes.").

End Examples.

(** ** Sample sessions *)

Module Scenarios.

Definition alice : NoteDetail.User := {| NoteDetail.uid := lit "alice" |}.

(** A remote function that answers with a complete summary. *)
Definition fox_summary (_ : NewNote.Request) : NewNote.Settled :=
  NewNote.Fulfilled (Some Examples.earlier_result) None.

(** The notes page of alice, loaded. *)
Definition listed : NotesList.State :=
  {| NotesList.notes := [Examples.q1_report];
     NotesList.searchQuery := []; NotesList.loading := false |}.

(** The detail page of alice, showing her note. *)
Definition opened : NoteDetail.PageState :=
  {| NoteDetail.note := Some Examples.q1_report;
     NoteDetail.loading := false |}.

(** A note with five keywords. *)
Definition five_keywords : Note :=
  Examples.sample (lit "T") None
    (Some [lit "a"; lit "b"; lit "c"; lit "d"; lit "e"]) (lit "C").

End Scenarios.

(** Case analysis on every comparison of code units in the goal. *)
Ltac unit_cases :=
  repeat match goal with
  | |- context [N.leb ?a ?b] =>
      first [is_var a | is_var b]; destruct (N.leb_spec a b); simpl
  | |- context [N.eqb ?a ?b] =>
      is_var a; destruct (N.eqb_spec a b); simpl
  end;
  repeat match goal with
  | |- context [N.leb ?a ?b] => destruct (N.leb_spec a b); simpl
  | |- context [N.eqb ?a ?b] => destruct (N.eqb_spec a b); simpl
  end;
  try reflexivity; try (exfalso; lia); try (repeat f_equal; lia).

(** * Properties *)

(** ** Strings *)

Section StringFacts.

Lemma startsWith_iff (s q : jsstring) :
  startsWith s q = true <-> exists post, s = q ++ post.
Proof.
  revert s. induction q as [|c q IH]; intros s; simpl.
  - split; [intros _; now exists s | now destruct s].
  - destruct s as [|d s]; simpl.
    + split; [discriminate | intros [post H]; discriminate].
    + rewrite andb_true_iff, N.eqb_eq, IH. split.
      * intros [-> [post ->]]. now exists post.
      * intros [post H]. injection H as -> ->. split; [reflexivity | now exists post].
Qed.

Lemma includes_iff (s q : jsstring) :
  includes s q = true <-> exists pre post, s = pre ++ q ++ post.
Proof.
  induction s as [|d s IH]; cbn [includes].
  - rewrite orb_false_r, startsWith_iff. split.
    + intros [post H]. now exists [], post.
    + intros [pre [post H]]. destruct pre; [now exists post | discriminate].
  - rewrite orb_true_iff, startsWith_iff, IH. split.
    + intros [[post H] | [pre [post H]]].
      * now exists [], post.
      * exists (d :: pre), post. simpl. now rewrite H.
    + intros [pre [post H]]. destruct pre as [|e pre]; simpl in H.
      * left. now exists post.
      * right. injection H as _ H. now exists pre, post.
Qed.

Lemma includes_empty (s : jsstring) : includes s [] = true.
Proof. destruct s; reflexivity. Qed.

End StringFacts.

(** ** The case conversions *)

Section CaseFacts.
Import CaseChecks.

(** *** The tables *)

Lemma find_mapping_In (c : N) (t : list (N * list N)) (out : list N) :
  Unicode.find_mapping c t = Some out -> In (c, out) t.
Proof.
  induction t as [|[k v] t IH]; cbn [Unicode.find_mapping]; [discriminate|].
  destruct (N.eqb_spec c k) as [->|_].
  - intros [= ->]. now left.
  - destruct (c <? k); [discriminate|]. intros H. right. now apply IH.
Qed.

Lemma lower_table_ok : forallb lower_entry_ok Unicode.lower_table = true.
Proof. vm_compute. reflexivity. Qed.

Lemma upper_table_ok : forallb upper_entry_ok Unicode.upper_table = true.
Proof. vm_compute. reflexivity. Qed.

Lemma ascii_lower_table : forallb ascii_lower_ok ascii_points = true.
Proof. vm_compute. reflexivity. Qed.


Lemma ascii_point (c : N) : c < 0x80 -> In c ascii_points.
Proof.
  intros H. unfold ascii_points. apply in_map_iff.
  exists (N.to_nat c). split; [apply N2Nat.id|].
  apply in_seq. lia.
Qed.

Lemma lower_entry (c : N) (out : list N) :
  Unicode.find_mapping c Unicode.lower_table = Some out ->
  lower_entry_ok (c, out) = true.
Proof.
  intros H. apply find_mapping_In in H.
  pose proof lower_table_ok as Hall. rewrite forallb_forall in Hall.
  now apply Hall.
Qed.

Lemma upper_entry (c : N) (out : list N) :
  Unicode.find_mapping c Unicode.upper_table = Some out ->
  upper_entry_ok (c, out) = true.
Proof.
  intros H. apply find_mapping_In in H.
  pose proof upper_table_ok as Hall. rewrite forallb_forall in Hall.
  now apply Hall.
Qed.

Lemma find_lower_ascii (c : N) :
  c < 0x80 ->
  Unicode.find_mapping c Unicode.lower_table
  = if is_upper_AZ c then Some [c + 0x20] else None.
Proof.
  intros H. pose proof ascii_lower_table as Hall.
  rewrite forallb_forall in Hall. specialize (Hall c (ascii_point c H)).
  now apply bool_decide_eq_true in Hall.
Qed.


(** *** Decoding *)

Lemma decode_pair (h l : codeunit) (t : jsstring) :
  is_high h && is_low l = true ->
  decode (h :: l :: t) = Scalar (pair_value h l) :: decode t.
Proof. intros H. cbn [decode]. now rewrite H. Qed.

Lemma decode_single (u : codeunit) (t : jsstring) :
  is_high u && starts_low t = false ->
  decode (u :: t) = classify u :: decode t.
Proof.
  destruct t as [|l t]; [reflexivity|]. cbn [starts_low decode].
  now intros ->.
Qed.

(** Induction along [decode]: a surrogate pair, or a single code unit
    that forms no pair with the next one. *)
Lemma decode_ind (P : jsstring -> Prop) :
  P [] ->
  (forall h l t, is_high h && is_low l = true -> P t -> P (h :: l :: t)) ->
  (forall u t, is_high u && starts_low t = false -> P t -> P (u :: t)) ->
  forall s, P s.
Proof.
  intros Hnil Hpair Hone s.
  assert (H : P s /\ forall u, P (u :: s)).
  { induction s as [|a s [IH1 IH2]].
    - split; [exact Hnil|]. intros u. apply Hone; [|exact Hnil].
      cbn. apply andb_false_r.
    - split; [apply IH2|]. intros u.
      destruct (is_high u && is_low a) eqn:E.
      + now apply Hpair.
      + apply Hone; [exact E | apply IH2]. }
  apply H.
Qed.

(** *** Lower-casing ASCII *)

Lemma not_high_ascii (c : codeunit) : c < 0x80 -> is_high c = false.
Proof.
  intros H. unfold is_high.
  destruct (N.leb_spec 0xD800 c); [lia | reflexivity].
Qed.

Lemma classify_ascii (c : codeunit) : c < 0x80 -> classify c = Scalar c.
Proof.
  intros H. unfold classify.
  destruct (N.ltb_spec c 0xD800); [reflexivity | lia].
Qed.

Lemma lower_point_ascii (final : bool) (c : codeunit) :
  c < 0x80 ->
  flat_map encode (lower_point final (Scalar c)) = [ascii_lower c].
Proof.
  intros H. unfold lower_point, SIGMA.
  destruct (N.eqb_spec c 0x3A3); [lia|].
  rewrite (find_lower_ascii c H). unfold ascii_lower.
  destruct (is_upper_AZ c) eqn:E; cbn [List.map flat_map encode app].
  - unfold is_upper_AZ in E. apply andb_true_iff in E as [_ E].
    apply N.leb_le in E.
    destruct (N.ltb_spec (c + 0x20) 0x10000); [reflexivity | lia].
  - destruct (N.ltb_spec c 0x10000); [reflexivity | lia].
Qed.

Lemma lower_points_ascii (s : jsstring) (preceded : bool) :
  forallb is_ascii s = true ->
  flat_map encode (lower_points preceded (decode s)) = List.map ascii_lower s.
Proof.
  revert preceded. induction s as [|c s IH]; intros preceded H;
    [reflexivity|].
  cbn [forallb] in H. apply andb_true_iff in H as [Hc Hs].
  unfold is_ascii in Hc. apply N.ltb_lt in Hc.
  rewrite decode_single by (now rewrite (not_high_ascii c Hc)).
  rewrite (classify_ascii c Hc). cbn [lower_points List.map].
  rewrite flat_map_app, lower_point_ascii by exact Hc.
  now rewrite IH.
Qed.

(** On ASCII text [toLowerCase] is the ASCII mapping, unit by unit. *)
Lemma toLowerCase_ascii (s : jsstring) :
  forallb is_ascii s = true -> toLowerCase s = List.map ascii_lower s.
Proof. apply lower_points_ascii. Qed.

End CaseFacts.

(** ** The export file name *)

Section FileName.
Import NoteDetail CaseChecks.

Lemma underscore_lit : lit "_" = [0x5F].
Proof. reflexivity. Qed.

Lemma sanitize_unit_high (u : codeunit) : 0x80 <= u -> sanitize_unit u = 0x5F.
Proof.
  intros H. unfold sanitize_unit, is_upper_AZ, is_lower_az, is_digit.
  unit_cases.
Qed.

Lemma replace_high (us : jsstring) :
  Forall (fun u => 0x80 <= u) us ->
  replace_class non_alnum (lit "_") us = List.map (fun _ => 0x5F) us.
Proof.
  rewrite underscore_lit. unfold replace_class.
  induction 1 as [|u us Hu _ IH]; [reflexivity|].
  cbn [flat_map List.map]. rewrite IH. f_equal.
  unfold non_alnum, is_lower_az, is_digit. unit_cases.
Qed.

Lemma encode_astral (d : N) :
  0x10000 <= d ->
  exists h l, encode (Scalar d) = [h; l] /\ 0xD800 <= h /\ 0xDC00 <= l.
Proof.
  intros H. unfold encode.
  destruct (N.ltb_spec d 0x10000); [lia|].
  eexists _, _. split; [reflexivity|]. split; apply N.le_add_r.
Qed.

Lemma encode_bmp (d : N) : d < 0x10000 -> encode (Scalar d) = [d].
Proof.
  intros H. unfold encode. destruct (N.ltb_spec d 0x10000); [reflexivity|lia].
Qed.

(** The image of a code point at or above 128, other than U+0130 and
    U+212A: one code point at or above 128, on the same side of U+10000. *)
Lemma lower_image (final : bool) (c : N) :
  0x80 <= c -> c <> 0x130 -> c <> 0x212A ->
  exists d, lower_point final (Scalar c) = [Scalar d]
            /\ 0x80 <= d /\ (d <? 0x10000) = (c <? 0x10000).
Proof.
  intros H128 H130 H212A. unfold lower_point.
  destruct (N.eqb_spec c SIGMA) as [->|_].
  { destruct final; eexists; (split; [reflexivity|]); now vm_compute. }
  destruct (Unicode.find_mapping c Unicode.lower_table) as [out|] eqn:E.
  2:{ exists c. repeat split. exact H128. }
  apply lower_entry in E. unfold lower_entry_ok in E.
  apply andb_true_iff in E as [_ E].
  destruct out as [|d [|d' out]]; [discriminate| |].
  - exists d. split; [reflexivity|].
    destruct (N.ltb_spec c 0x80); [lia|].
    destruct (N.eqb_spec c 0x212A); [congruence|]. cbn [orb] in E.
    apply andb_true_iff in E as [E1 E2]. apply N.leb_le in E1.
    split; [exact E1|]. apply eqb_prop in E2. now symmetry.
  - apply N.eqb_eq in E. congruence.
Qed.

Lemma lowered_astral (final : bool) (v : N) :
  0x10000 <= v ->
  replace_class non_alnum (lit "_")
    (flat_map encode (lower_point final (Scalar v))) = [0x5F; 0x5F].
Proof.
  intros H.
  destruct (lower_image final v) as [d [-> [_ Hd]]]; try lia.
  destruct (N.ltb_spec v 0x10000); [lia|].
  apply N.ltb_ge in Hd.
  destruct (encode_astral d Hd) as [h [l [E [Hh Hl]]]].
  cbn [flat_map]. rewrite app_nil_r, E.
  rewrite replace_high; [reflexivity|].
  repeat constructor; lia.
Qed.

Lemma lowered_bmp (final : bool) (u : codeunit) :
  classify u = Scalar u -> lowers_into_ascii u = false ->
  replace_class non_alnum (lit "_")
    (flat_map encode (lower_point final (Scalar u))) = [sanitize_unit u].
Proof.
  intros Hcl Hplain.
  assert (Hbmp : u < 0x10000).
  { unfold classify in Hcl.
    destruct (N.ltb_spec u 0xD800); [lia|]. cbn [orb] in Hcl.
    destruct (0xE000 <=? u); [|discriminate].
    destruct (N.ltb_spec u 0x10000); [lia | discriminate]. }
  destruct (N.lt_ge_cases u 0x80) as [Hascii|Hhigh].
  - rewrite (lower_point_ascii final u Hascii), underscore_lit.
    unfold replace_class, non_alnum, ascii_lower, sanitize_unit,
      is_upper_AZ, is_lower_az, is_digit.
    cbn [flat_map]. unit_cases.
  - unfold lowers_into_ascii in Hplain.
    apply orb_false_iff in Hplain as [H130 H212A].
    apply N.eqb_neq in H130, H212A.
    destruct (lower_image final u Hhigh H130 H212A) as [d [-> [Hd Hside]]].
    apply N.ltb_lt in Hbmp. rewrite Hbmp in Hside. apply N.ltb_lt in Hside.
    cbn [flat_map]. rewrite app_nil_r, (encode_bmp d Hside).
    rewrite replace_high by (repeat constructor; exact Hd).
    now rewrite (sanitize_unit_high u Hhigh).
Qed.

Lemma lone_unit (u : codeunit) : classify u = Lone u -> 0xD800 <= u.
Proof.
  unfold classify. destruct (N.ltb_spec u 0xD800); [discriminate|].
  intros _. exact H.
Qed.

Lemma classify_cases (u : codeunit) :
  classify u = Scalar u \/ classify u = Lone u.
Proof. unfold classify. destruct (_ || _); [now left | now right]. Qed.

Lemma lowered_single (final : bool) (u : codeunit) :
  lowers_into_ascii u = false ->
  replace_class non_alnum (lit "_")
    (flat_map encode (lower_point final (classify u))) = [sanitize_unit u].
Proof.
  intros Hplain. destruct (classify_cases u) as [E|E]; rewrite E.
  - now apply lowered_bmp.
  - apply lone_unit in E. cbn [lower_point flat_map encode app].
    rewrite replace_high by (repeat constructor; lia).
    rewrite sanitize_unit_high by lia. reflexivity.
Qed.

Lemma replace_class_app (cls : codeunit -> bool) (r s t : jsstring) :
  replace_class cls r (s ++ t) = replace_class cls r s ++ replace_class cls r t.
Proof. apply flat_map_app. Qed.

Lemma spec_points_map (t : jsstring) :
  forallb (fun c => negb (lowers_into_ascii c)) t = true ->
  forall preceded,
    replace_class non_alnum (lit "_")
      (flat_map encode (lower_points preceded (decode t)))
    = List.map sanitize_unit t.
Proof.
  induction t as [| h l t Hpair IH | u t Hone IH] using decode_ind;
    intros Hplain preceded.
  - reflexivity.
  - cbn [forallb] in Hplain.
    apply andb_true_iff in Hplain as [_ Hplain].
    apply andb_true_iff in Hplain as [_ Hplain].
    rewrite (decode_pair h l t Hpair). cbn [lower_points].
    rewrite flat_map_app, replace_class_app, IH by exact Hplain.
    apply andb_true_iff in Hpair as [Hh Hl].
    unfold is_high in Hh. unfold is_low in Hl.
    apply andb_true_iff in Hh as [Hh _]. apply andb_true_iff in Hl as [Hl _].
    apply N.leb_le in Hh, Hl.
    rewrite lowered_astral by (unfold pair_value; lia).
    cbn [List.map]. rewrite !sanitize_unit_high by lia. reflexivity.
  - cbn [forallb] in Hplain. apply andb_true_iff in Hplain as [Hu Hplain].
    apply negb_true_iff in Hu.
    rewrite (decode_single u t Hone). cbn [lower_points].
    rewrite flat_map_app, replace_class_app, IH by exact Hplain.
    now rewrite (lowered_single _ u Hu).
Qed.

Lemma deriveStem_spec_map (t : jsstring) :
  forallb (fun c => negb (lowers_into_ascii c)) t = true ->
  deriveStem_spec t = List.map sanitize_unit t.
Proof. intros H. now apply spec_points_map. Qed.

(** What the handler lower-cases is ASCII. *)
Lemma replaced_ascii (t : jsstring) :
  forallb is_ascii (replace_class non_alnum_i (lit "_") t) = true
  /\ List.map ascii_lower (replace_class non_alnum_i (lit "_") t)
     = List.map sanitize_unit t.
Proof.
  rewrite underscore_lit. unfold replace_class.
  induction t as [|c t [IH1 IH2]]; [now split|].
  cbn [flat_map List.map]. rewrite forallb_app, map_app, IH1, IH2.
  split.
  - rewrite andb_true_r.
    unfold non_alnum_i, canonicalize, is_ascii, is_upper_AZ, is_lower_az,
      is_digit.
    repeat match goal with
    | |- context [N.leb ?a ?b] =>
        first [is_var a | is_var b]; destruct (N.leb_spec a b); simpl
    end;
    repeat match goal with
    | |- context [N.leb ?a ?b] => destruct (N.leb_spec a b); simpl
    | |- context [N.ltb ?a ?b] => destruct (N.ltb_spec a b); simpl
    end; try reflexivity; lia.
  - f_equal.
    unfold non_alnum_i, canonicalize, ascii_lower, sanitize_unit,
      is_upper_AZ, is_lower_az, is_digit.
    unit_cases.
Qed.

Lemma filenameStem_map (t : jsstring) :
  filenameStem t = List.map sanitize_unit t.
Proof.
  unfold filenameStem.
  destruct (replaced_ascii t) as [H1 H2].
  now rewrite toLowerCase_ascii.
Qed.

Lemma sanitize_unit_stem (c : codeunit) : stem_unit (sanitize_unit c) = true.
Proof.
  unfold stem_unit, sanitize_unit, is_upper_AZ, is_lower_az, is_digit.
  unit_cases.
Qed.

Lemma stem_unit_fixed (c : codeunit) :
  stem_unit c = true ->
  sanitize_unit c = c /\ lowers_into_ascii c = false.
Proof.
  unfold stem_unit, sanitize_unit, lowers_into_ascii,
    is_upper_AZ, is_lower_az, is_digit.
  unit_cases; (discriminate || (intros _; split; (reflexivity || lia))).
Qed.

(** Whatever is replaced, the result is made of stem units. *)
Lemma replaced_units (s : jsstring) :
  forallb stem_unit (replace_class non_alnum (lit "_") s) = true.
Proof.
  rewrite underscore_lit. unfold replace_class.
  induction s as [|c s IH]; [reflexivity|].
  cbn [flat_map]. rewrite forallb_app, IH, andb_true_r.
  unfold non_alnum, stem_unit, is_lower_az, is_digit. unit_cases.
Qed.

Lemma deriveStem_spec_units (s : jsstring) :
  forallb stem_unit (deriveStem_spec s) = true.
Proof. apply replaced_units. Qed.

Lemma stem_fixed (l : jsstring) :
  forallb stem_unit l = true ->
  filenameStem l = l /\ deriveStem_spec l = l.
Proof.
  intros H.
  assert (Hmap : List.map sanitize_unit l = l
                 /\ forallb (fun c => negb (lowers_into_ascii c)) l = true).
  { induction l as [|c l IH]; [now split|].
    cbn [forallb] in H. apply andb_true_iff in H as [Hc Hl].
    destruct (stem_unit_fixed c Hc) as [E1 E2].
    destruct (IH Hl) as [IH1 IH2]. cbn [List.map forallb].
    now rewrite E1, E2, IH1, IH2. }
  destruct Hmap as [E1 E2]. split.
  - now rewrite filenameStem_map.
  - now rewrite deriveStem_spec_map.
Qed.

Lemma filenameStem_units (s : jsstring) :
  forallb stem_unit (filenameStem s) = true.
Proof.
  rewrite filenameStem_map. induction s as [|c s IH]; [reflexivity|].
  cbn [List.map forallb]. now rewrite sanitize_unit_stem, IH.
Qed.

(** C5. Deriving a file-name stem is idempotent: the stem of a stem is
    that stem again.  This holds for the derivation as the handler
    computes it, for the derivation in the order the specification words
    it applied to a stem the handler produced, and for the specification's
    derivation on its own. *)
Theorem filenameStem_idempotent (s : jsstring) :
  filenameStem (filenameStem s) = filenameStem s
  /\ deriveStem_spec (filenameStem s) = filenameStem s
  /\ deriveStem_spec (deriveStem_spec s) = deriveStem_spec s.
Proof.
  destruct (stem_fixed _ (filenameStem_units s)) as [E1 E2].
  destruct (stem_fixed _ (deriveStem_spec_units s)) as [_ E3].
  now rewrite E1, E2, E3.
Qed.

End FileName.

(** ** Lower-casing twice *)

Section CaseIdempotence.
Import CaseChecks.

Lemma lone_low_classify (u : codeunit) : lone_low (classify u) = is_low u.
Proof.
  unfold classify, lone_low, is_low.
  repeat match goal with
  | |- context [N.leb ?a ?b] => destruct (N.leb_spec a b); simpl
  | |- context [N.ltb ?a ?b] => destruct (N.ltb_spec a b); simpl
  end; try reflexivity; lia.
Qed.

Lemma lone_high_classify (u : codeunit) : lone_high (classify u) = is_high u.
Proof.
  unfold classify, lone_high, is_high.
  repeat match goal with
  | |- context [N.leb ?a ?b] => destruct (N.leb_spec a b); simpl
  | |- context [N.ltb ?a ?b] => destruct (N.ltb_spec a b); simpl
  end; try reflexivity; lia.
Qed.

Lemma wf_classify (u : codeunit) : wf_point (classify u) = true.
Proof.
  unfold classify, wf_point, valid_scalar.
  repeat match goal with
  | |- context [N.leb ?a ?b] => destruct (N.leb_spec a b); simpl
  | |- context [N.ltb ?a ?b] => destruct (N.ltb_spec a b); simpl
  end; try reflexivity; lia.
Qed.

Lemma head_low_decode (t : jsstring) :
  head_low (decode t) = true -> starts_low t = true.
Proof.
  destruct t as [|l [|l2 t]]; cbn [decode head_low starts_low].
  - discriminate.
  - now rewrite lone_low_classify.
  - destruct (is_high l && is_low l2); cbn [head_low lone_low];
      [discriminate | now rewrite lone_low_classify].
Qed.

Lemma pair_value_valid (h l : codeunit) :
  is_high h && is_low l = true -> valid_scalar (pair_value h l) = true.
Proof.
  unfold is_high, is_low, valid_scalar, pair_value.
  rewrite !andb_true_iff, !N.leb_le. intros [[H1 H2] [H3 H4]].
  destruct (N.ltb_spec (0x10000 + (h - 0xD800) * 0x400 + (l - 0xDC00)) 0xD800);
    [lia|].
  destruct (N.leb_spec 0xE000 (0x10000 + (h - 0xD800) * 0x400 + (l - 0xDC00)));
    [|lia].
  destruct (N.ltb_spec (0x10000 + (h - 0xD800) * 0x400 + (l - 0xDC00)) 0x110000);
    [reflexivity | lia].
Qed.

Lemma canon_decode (s : jsstring) : canon (decode s) = true.
Proof.
  induction s as [| h l t Hpair IH | u t Hone IH] using decode_ind.
  - reflexivity.
  - rewrite (decode_pair h l t Hpair). cbn [canon wf_point lone_high].
    now rewrite (pair_value_valid h l Hpair), IH.
  - rewrite (decode_single u t Hone). cbn [canon].
    rewrite wf_classify, IH, lone_high_classify, andb_true_r.
    destruct (is_high u); [|reflexivity]. cbn [andb] in *.
    destruct (head_low (decode t)) eqn:E; [|reflexivity].
    apply head_low_decode in E. congruence.
Qed.

(** The image of a scalar is a list of scalars that is not empty; they
    are stable, and scalar values when the code point is one. *)
Lemma lower_point_shape (final : bool) (c : N) :
  exists d ds,
    lower_point final (Scalar c) = List.map Scalar (d :: ds)
    /\ forallb stable_scalar (d :: ds) = true
    /\ (valid_scalar c = true -> forallb valid_scalar (d :: ds) = true).
Proof.
  unfold lower_point.
  destruct (N.eqb_spec c SIGMA) as [->|Hs].
  { destruct final; eexists _, []; (split; [reflexivity|]);
      split; intros; now vm_compute. }
  destruct (Unicode.find_mapping c Unicode.lower_table) as [out|] eqn:E.
  - apply lower_entry in E. unfold lower_entry_ok in E.
    apply andb_true_iff in E as [E E3]. apply andb_true_iff in E as [_ E].
    destruct out as [|d ds]; [discriminate|]. exists d, ds.
    split; [reflexivity|]. rewrite forallb_forall in E. split.
    + apply forallb_forall. intros x Hx. specialize (E x Hx).
      now apply andb_true_iff in E.
    + intros _. apply forallb_forall. intros x Hx. specialize (E x Hx).
      now apply andb_true_iff in E.
  - exists c, []. split; [reflexivity|]. split.
    + cbn. unfold stable_scalar, unmapped. rewrite E.
      apply N.eqb_neq in Hs. now rewrite Hs.
    + intros Hv. cbn. now rewrite Hv.
Qed.

Lemma canon_scalars_app (ds : list N) (rest : list point) :
  forallb valid_scalar ds = true -> canon rest = true ->
  canon (List.map Scalar ds ++ rest) = true.
Proof.
  intros Hds Hrest. induction ds as [|d ds IH]; [exact Hrest|].
  cbn [forallb] in Hds. apply andb_true_iff in Hds as [Hd Hds].
  cbn [List.map app canon wf_point lone_high andb negb].
  now rewrite Hd, IH.
Qed.

Lemma head_low_lower_points (preceded : bool) (ps : list point) :
  head_low (lower_points preceded ps) = head_low ps.
Proof.
  destruct ps as [|[c|u] rest]; cbn [lower_points]; [reflexivity| |].
  - destruct (lower_point_shape (preceded && negb (followed_by_cased rest)) c)
      as [d [ds [-> _]]].
    reflexivity.
  - reflexivity.
Qed.

Lemma canon_lower_points (ps : list point) :
  canon ps = true -> forall preceded, canon (lower_points preceded ps) = true.
Proof.
  induction ps as [|p rest IH]; intros H preceded; [reflexivity|].
  cbn [canon] in H. apply andb_true_iff in H as [H Hrest].
  apply andb_true_iff in H as [Hwf Hadj].
  cbn [lower_points]. destruct p as [c|u].
  - destruct (lower_point_shape (preceded && negb (followed_by_cased rest)) c)
      as [d [ds [-> [_ Hv]]]].
    apply canon_scalars_app; [now apply Hv | now apply IH].
  - cbn [lower_point app canon].
    now rewrite Hwf, head_low_lower_points, Hadj, IH.
Qed.

Lemma stable_lower_points (ps : list point) (preceded : bool) :
  forallb stable (lower_points preceded ps) = true.
Proof.
  revert preceded. induction ps as [|p rest IH]; intros preceded;
    [reflexivity|].
  cbn [lower_points]. rewrite forallb_app, IH, andb_true_r.
  destruct p as [c|u]; [|reflexivity].
  destruct (lower_point_shape (preceded && negb (followed_by_cased rest)) c)
    as [d [ds [-> [Hs _]]]].
  rewrite forallb_forall in *. intros p Hp.
  apply in_map_iff in Hp as [x [<- Hx]]. now apply Hs.
Qed.

Lemma lower_points_stable (ps : list point) :
  forallb stable ps = true ->
  forall preceded, lower_points preceded ps = ps.
Proof.
  induction ps as [|p rest IH]; intros H preceded; [reflexivity|].
  cbn [forallb] in H. apply andb_true_iff in H as [Hp Hrest].
  cbn [lower_points]. rewrite IH by exact Hrest.
  destruct p as [c|u]; [|reflexivity].
  cbn [stable] in Hp. unfold stable_scalar, unmapped in Hp.
  apply andb_true_iff in Hp as [Hs Hm]. apply negb_true_iff in Hs.
  unfold lower_point. rewrite Hs.
  destruct (Unicode.find_mapping c Unicode.lower_table);
    [discriminate | reflexivity].
Qed.

Lemma encode_pair (c : N) :
  0x10000 <= c ->
  encode (Scalar c)
  = [0xD800 + (c - 0x10000) / 0x400; 0xDC00 + (c - 0x10000) mod 0x400].
Proof.
  intros H. unfold encode. destruct (N.ltb_spec c 0x10000); [lia|reflexivity].
Qed.

Lemma astral_units (c : N) :
  0x10000 <= c -> c < 0x110000 ->
  is_high (0xD800 + (c - 0x10000) / 0x400)
  && is_low (0xDC00 + (c - 0x10000) mod 0x400) = true
  /\ pair_value (0xD800 + (c - 0x10000) / 0x400)
       (0xDC00 + (c - 0x10000) mod 0x400) = c.
Proof.
  intros Hlo Hhi.
  assert (Hq : (c - 0x10000) / 0x400 < 0x400)
    by (apply N.Div0.div_lt_upper_bound; lia).
  assert (Hr : (c - 0x10000) mod 0x400 < 0x400)
    by (apply N.mod_lt; lia).
  assert (Hdm : c - 0x10000
                = 0x400 * ((c - 0x10000) / 0x400) + (c - 0x10000) mod 0x400)
    by (apply N.div_mod; lia).
  revert Hq Hr Hdm.
  generalize ((c - 0x10000) / 0x400) as q, ((c - 0x10000) mod 0x400) as r.
  intros q r Hq Hr Hdm. split.
  - unfold is_high, is_low. rewrite !andb_true_iff, !N.leb_le. lia.
  - unfold pair_value. lia.
Qed.

Lemma valid_scalar_cases (c : N) :
  valid_scalar c = true ->
  (c < 0x10000 /\ classify c = Scalar c /\ is_high c = false
   /\ is_low c = false)
  \/ (0x10000 <= c /\ c < 0x110000).
Proof.
  unfold valid_scalar, classify, is_high, is_low.
  repeat match goal with
  | |- context [N.leb ?a ?b] => destruct (N.leb_spec a b); simpl
  | |- context [N.ltb ?a ?b] => destruct (N.ltb_spec a b); simpl
  end; intros Hv; try discriminate;
    solve [left; repeat split; (reflexivity || lia) | right; lia].
Qed.

Lemma starts_low_encode (ps : list point) :
  canon ps = true -> starts_low (flat_map encode ps) = head_low ps.
Proof.
  destruct ps as [|[c|u] rest]; [reflexivity| |reflexivity].
  cbn [canon wf_point]. intros H.
  apply andb_true_iff in H as [H _]. apply andb_true_iff in H as [Hv _].
  cbn [flat_map head_low lone_low].
  destruct (valid_scalar_cases c Hv) as [[Hb [_ [_ Hl]]] | [Hlo Hhi]].
  - rewrite (encode_bmp c Hb). exact Hl.
  - rewrite (encode_pair c Hlo). cbn [app starts_low].
    destruct (astral_units c Hlo Hhi) as [Hu _].
    apply andb_true_iff in Hu as [Hu _].
    unfold is_high in Hu. unfold is_low.
    apply andb_true_iff in Hu as [_ Hu]. apply N.leb_le in Hu.
    destruct (N.leb_spec 0xDC00 (0xD800 + (c - 0x10000) / 0x400));
      [lia | reflexivity].
Qed.

(** Decoding what was encoded gives the points back. *)
Lemma decode_encode (ps : list point) :
  canon ps = true -> decode (flat_map encode ps) = ps.
Proof.
  induction ps as [|p rest IH]; intros H; [reflexivity|].
  pose proof H as Hall. cbn [canon] in H.
  apply andb_true_iff in H as [H Hrest].
  apply andb_true_iff in H as [Hwf Hadj].
  cbn [flat_map]. destruct p as [c|u].
  - cbn [wf_point] in Hwf.
    destruct (valid_scalar_cases c Hwf) as [[Hb [Hc [Hh _]]] | [Hlo Hhi]].
    + rewrite (encode_bmp c Hb). cbn [app].
      rewrite decode_single by (now rewrite Hh).
      now rewrite Hc, IH.
    + rewrite (encode_pair c Hlo). cbn [app].
      destruct (astral_units c Hlo Hhi) as [Hu Hp].
      now rewrite (decode_pair _ _ _ Hu), Hp, IH.
  - cbn [encode app]. rewrite decode_single.
    + rewrite IH by exact Hrest. f_equal.
      cbn [wf_point] in Hwf. unfold classify.
      apply negb_true_iff in Hwf. now rewrite Hwf.
    + rewrite (starts_low_encode rest Hrest).
      cbn [lone_high] in Hadj. now apply negb_true_iff in Hadj.
Qed.

(** Lower-casing is idempotent. *)
Lemma toLowerCase_idem (s : jsstring) :
  toLowerCase (toLowerCase s) = toLowerCase s.
Proof.
  unfold toLowerCase.
  rewrite decode_encode by (apply canon_lower_points, canon_decode).
  now rewrite lower_points_stable by apply stable_lower_points.
Qed.

(** *** Upper-casing *)

Lemma decode_nil (s : jsstring) : decode s = [] -> s = [].
Proof.
  destruct s as [|h [|l t]]; cbn [decode]; [reflexivity|discriminate|].
  destruct (is_high h && is_low l); discriminate.
Qed.

Lemma upper_point_shape (p : point) :
  exists q qs, upper_point p = q :: qs.
Proof.
  destruct p as [c|u]; cbn [upper_point]; [|now eexists _, _].
  destruct (Unicode.find_mapping c Unicode.upper_table) as [out|] eqn:E;
    [|now eexists _, _].
  apply upper_entry in E. unfold upper_entry_ok in E.
  apply andb_true_iff in E as [_ E].
  destruct out; [discriminate|]. now eexists _, _.
Qed.

Lemma encode_shape (p : point) : exists u us, encode p = u :: us.
Proof.
  destruct p as [c|u]; cbn [encode]; [|now eexists _, _].
  destruct (c <? 0x10000); now eexists _, _.
Qed.

Lemma toUpperCase_nil_iff (s : jsstring) : toUpperCase s = [] <-> s = [].
Proof.
  split; [|now intros ->]. unfold toUpperCase. intros H.
  apply decode_nil. destruct (decode s) as [|p ps]; [reflexivity|].
  exfalso. cbn [flat_map] in H.
  destruct (upper_point_shape p) as [q [qs E]]. rewrite E in H.
  cbn [app flat_map] in H.
  destruct (encode_shape q) as [u [us E']]. rewrite E' in H.
  discriminate H.
Qed.


End CaseIdempotence.

(** ** The search filter *)

Section SearchFilter.
Import Notes.

Lemma ci_substring_includes (q s : jsstring) :
  includes (toLowerCase s) (toLowerCase q) = true <-> ci_substring q s.
Proof. apply includes_iff. Qed.

Lemma summary_match_iff (q : jsstring) (n : Note) :
  truthy (option_map
            (fun s => includes (toLowerCase s) (toLowerCase q)) (summary n))
  = true
  <-> exists s, summary n = Some s /\ ci_substring q s.
Proof.
  destruct (summary n) as [s|]; simpl.
  - rewrite ci_substring_includes. split.
    + intros H. now exists s.
    + intros [s' [[= <-] H]]. exact H.
  - split; [discriminate | intros [s' [[=] _]]].
Qed.

Lemma keywords_match_iff (q : jsstring) (n : Note) :
  truthy (option_map
            (existsb (fun k => includes (toLowerCase k) (toLowerCase q)))
            (keywords n))
  = true
  <-> exists ks k, keywords n = Some ks /\ In k ks /\ ci_substring q k.
Proof.
  destruct (keywords n) as [ks|]; simpl.
  - rewrite existsb_exists. split.
    + intros [k [Hin Hk]]. exists ks, k.
      now rewrite <- ci_substring_includes.
    + intros [ks' [k [[= <-] [Hin Hk]]]]. exists k.
      now rewrite ci_substring_includes.
  - split; [discriminate | intros [ks' [k [[=] _]]]].
Qed.

Lemma matchesQuery_iff (q : jsstring) (n : Note) :
  matchesQuery q n = true <-> note_matches q n.
Proof.
  unfold matchesQuery, note_matches.
  rewrite !orb_true_iff, ci_substring_includes,
    summary_match_iff, keywords_match_iff.
  tauto.
Qed.

Lemma matchesQuery_empty (n : Note) : matchesQuery [] n = true.
Proof.
  unfold matchesQuery. change (toLowerCase []) with (@nil codeunit).
  now rewrite includes_empty.
Qed.

Lemma matchesQuery_lower (q : jsstring) (n : Note) :
  matchesQuery (toLowerCase q) n = matchesQuery q n.
Proof. unfold matchesQuery. now rewrite toLowerCase_idem. Qed.

Lemma filter_sublist {A} (f : A -> bool) (l : list A) :
  sublist (List.filter f l) l.
Proof.
  induction l as [|x l IH]; simpl.
  - constructor.
  - destruct (f x); now constructor.
Qed.

(** On ASCII text the occurrence of the lower-cased query in the
    lower-cased text is the occurrence of the query up to the case of
    the letters A to Z. *)
Lemma ci_substring_ascii (q s : jsstring) :
  forallb is_ascii q = true -> forallb is_ascii s = true ->
  ci_substring q s <-> occurs_ignoring_case q s.
Proof.
  intros Hq Hs. unfold ci_substring, occurs_ignoring_case.
  rewrite (toLowerCase_ascii q Hq), (toLowerCase_ascii s Hs). split.
  - intros [pre [post E]].
    apply List.map_eq_app in E as [pre' [rest [-> [_ E]]]].
    apply List.map_eq_app in E as [m [post' [-> [E _]]]].
    now exists pre', m, post'.
  - intros [pre [m [post [-> E]]]].
    exists (List.map ascii_lower pre), (List.map ascii_lower post).
    now rewrite !List.map_app, E.
Qed.

Lemma note_matches_ascii (q : jsstring) (n : Note) :
  forallb is_ascii q = true -> ascii_note n = true ->
  note_matches q n <-> note_occurs q n.
Proof.
  intros Hq Hn. unfold ascii_note in Hn.
  apply andb_true_iff in Hn as [Hn Hk]. apply andb_true_iff in Hn as [Ht Hs].
  unfold note_matches, note_occurs.
  rewrite (ci_substring_ascii q (title n) Hq Ht).
  assert (E1 : (exists s, summary n = Some s /\ ci_substring q s)
               <-> (exists s, summary n = Some s
                              /\ occurs_ignoring_case q s)).
  { split; intros [s [E H]]; exists s; (split; [exact E|]);
      rewrite E in Hs; now apply (ci_substring_ascii q s Hq Hs). }
  assert (E2 : (exists ks k, keywords n = Some ks /\ In k ks
                             /\ ci_substring q k)
               <-> (exists ks k, keywords n = Some ks /\ In k ks
                                 /\ occurs_ignoring_case q k)).
  { split; intros [ks [k [E [Hin H]]]]; exists ks, k;
      (split; [exact E|]); (split; [exact Hin|]);
      rewrite E in Hk; rewrite forallb_forall in Hk;
      now apply (ci_substring_ascii q k Hq (Hk k Hin)). }
  tauto.
Qed.

(** C1, as amended.  The search filter keeps exactly the notes in which
    the lower-cased query occurs in the lower-cased title, in the
    lower-cased summary when there is one, or in some lower-cased
    keyword; the result is an order-preserving sub-list of the notes, the
    empty query keeps every note, and a query and its lower-cased form
    select the same notes.  For an ASCII query and a note of ASCII text
    the notes kept are exactly those in which the query occurs up to the
    case of its letters. *)
Theorem filteredNotes_search (L : list Note) (q : jsstring) :
  (forall n, In n (filteredNotes L q) <-> In n L /\ note_matches q n)
  /\ sublist (filteredNotes L q) L
  /\ filteredNotes L [] = L
  /\ filteredNotes L q = filteredNotes L (toLowerCase q)
  /\ (forallb is_ascii q = true ->
      forall n, ascii_note n = true ->
        (In n (filteredNotes L q) <-> In n L /\ note_occurs q n)).
Proof.
  unfold filteredNotes. split; [|split; [|split; [|split]]].
  - intros n. rewrite filter_In, matchesQuery_iff. reflexivity.
  - apply filter_sublist.
  - induction L as [|n L IH]; simpl; [reflexivity|].
    now rewrite matchesQuery_empty, IH.
  - apply filter_ext. intros n. now rewrite matchesQuery_lower.
  - intros Hq n Hn.
    now rewrite filter_In, matchesQuery_iff, (note_matches_ascii q n Hq Hn).
Qed.

Lemma filteredNotes_search_sample :
  forallb is_ascii (lit "REP") = true
  /\ ascii_note Examples.q1_report = true
  /\ In Examples.q1_report (filteredNotes [Examples.q1_report] (lit "REP")).
Proof.
  split; [reflexivity|]. split; [reflexivity|].
  destruct (filteredNotes_search [Examples.q1_report] (lit "REP"))
    as [_ [_ [_ [_ H]]]].
  apply H; [reflexivity | reflexivity |].
  split; [now left|].
  left. exists (lit "Q1 "), (lit "Rep"), (lit "ort!!").
  split; reflexivity.
Defined.

(** C1 as stated fails beyond ASCII: the lower-casing is that of the whole
    string, where a capital sigma that ends a word becomes a final sigma.
    The query made of a capital sigma occurs as such in the title alpha,
    sigma, and the note is not kept. *)
Lemma filteredNotes_final_sigma :
  In Examples.alpha_sigma [Examples.alpha_sigma]
  /\ title Examples.alpha_sigma = [0x391] ++ [0x3A3] ++ []
  /\ toLowerCase (title Examples.alpha_sigma) = [0x3B1; 0x3C2]
  /\ toLowerCase [0x3A3] = [0x3C3]
  /\ filteredNotes [Examples.alpha_sigma] [0x3A3] = [].
Proof.
  split; [now left|]. split; [reflexivity|]. split; [now vm_compute|].
  split; now vm_compute.
Qed.

End SearchFilter.

(** ** The exported document *)

Section ExportedDocument.
Import NoteDetail.

Lemma repeat_str_length (s t : jsstring) :
  repeat_str s (str_length t) =
  Normal (List.concat (List.repeat s (length t))).
Proof.
  unfold repeat_str, str_length.
  destruct (Z.ltb_spec (Z.of_nat (length t)) 0) as [H|H]; [lia|].
  now rewrite Nat2Z.id.
Qed.

(** The handler never raises: its content is the head, the Keywords
    section when there are keywords, and the Original Content section. *)
Lemma exportContent_normal (note : Note) (format : Format) :
  exportContent note format =
  Normal (before_summary format note ++ summary_or_default note ++ NL ++ NL
          ++ match keywords note with
             | Some (k :: ks) => keywords_section format (k :: ks)
             | _ => []
             end
          ++ content_section format note).
Proof.
  destruct format;
    unfold exportContent, has_keywords, before_summary, content_section,
      keywords_section, txt_head, md_head, underline;
    rewrite ?repeat_str_length;
    destruct (keywords note) as [[|k ks]|];
    unfold mbind, completion_bind, deref; cbn [Nat.ltb Nat.leb length];
    f_equal; rewrite <- ?app_assoc; reflexivity.
Qed.

Lemma handleExport_normal (note : Note) (format : Format) :
  exists content,
    exportContent note format = Normal content
    /\ handleExport (Some note) format =
       Normal (Some {| download_name :=
                         filenameStem (title note) ++ lit "."
                         ++ format_string format;
                       download_content := content;
                       toast_description :=
                         lit "Saved as " ++ filenameStem (title note)
                         ++ lit "." ++ format_string format |}).
Proof.
  eexists. split; [apply exportContent_normal|].
  unfold handleExport. now rewrite exportContent_normal.
Qed.

(** C2, as amended.  The handler returns a file whose name is the title
    with every ASCII letter lower-cased, every digit kept and every other
    code unit replaced by an underscore, followed by a dot and the
    extension.  When the title contains neither U+0130 nor U+212A this is
    the lower-cased title with everything outside [[a-z0-9]] replaced. *)
Theorem export_filename (note : Note) (format : Format) :
  exists d,
    handleExport (Some note) format = Normal (Some d)
    /\ download_name d =
       List.map sanitize_unit (title note) ++ lit "." ++ format_string format
    /\ (forallb (fun c => negb (lowers_into_ascii c)) (title note) = true ->
        download_name d =
        deriveStem_spec (title note) ++ lit "." ++ format_string format).
Proof.
  destruct (handleExport_normal note format) as [content [_ H]].
  eexists. split; [exact H|]. cbn [download_name]. split.
  - now rewrite filenameStem_map.
  - intros Hplain. now rewrite deriveStem_spec_map, filenameStem_map.
Qed.

(** The scenario of the specification: "Q1 Report!!" exported as plain
    text is saved as "q1_report__.txt". *)
Lemma export_filename_q1 :
  forallb (fun c => negb (lowers_into_ascii c))
    (title Examples.q1_report) = true
  /\ exists d,
       handleExport (Some Examples.q1_report) txt = Normal (Some d)
       /\ download_name d = lit "q1_report__.txt".
Proof.
  split; [reflexivity|].
  destruct (export_filename Examples.q1_report txt) as [d [H1 [_ H3]]].
  exists d. split; [exact H1|].
  rewrite H3; reflexivity.
Defined.

(** C2 as stated fails on a title with U+0130: the handler replaces the
    letter by one underscore, while lower-casing first turns it into "i"
    followed by a combining dot, which the replacement then turns into
    "i_". *)
Lemma export_filename_istanbul :
  exists d,
    handleExport (Some Examples.istanbul) txt = Normal (Some d)
    /\ download_name d = lit "_stanbul.txt"
    /\ deriveStem_spec (title Examples.istanbul) ++ lit "."
       ++ format_string txt = lit "i_stanbul.txt"
    /\ download_name d <>
       deriveStem_spec (title Examples.istanbul) ++ lit "."
       ++ format_string txt.
Proof.
  destruct (handleExport_normal Examples.istanbul txt) as [content [_ H]].
  eexists. split; [exact H|]. cbn [download_name].
  split; [reflexivity|]. split; [reflexivity|]. discriminate.
Qed.

(** C4. Both formatters are total: for every note the handler completes
    normally with a file, and when the summary is [null] the summary body
    of that file is the text "No summary". *)
Theorem handleExport_total (note : Note) (format : Format) :
  handleExport None format = Normal None
  /\ exists d,
       handleExport (Some note) format = Normal (Some d)
       /\ (summary note = None ->
           download_content d =
           before_summary format note ++ lit "No summary" ++ NL ++ NL
           ++ match keywords note with
              | Some (k :: ks) => keywords_section format (k :: ks)
              | _ => []
              end
           ++ content_section format note).
Proof.
  split; [reflexivity|].
  destruct (handleExport_normal note format) as [content [Hc H]].
  eexists. split; [exact H|]. cbn [download_content]. intros Hs.
  rewrite exportContent_normal in Hc. injection Hc as <-.
  unfold summary_or_default. now rewrite Hs.
Qed.

Lemma handleExport_total_q1 :
  summary Examples.q1_report = None
  /\ exists d,
       handleExport (Some Examples.q1_report) md = Normal (Some d)
       /\ download_content d =
          lit "# Q1 Report!!" ++ NL ++ NL ++ lit "## Summary" ++ NL ++ NL
          ++ lit "No summary" ++ NL ++ NL
          ++ lit "## Original Content" ++ NL ++ NL ++ lit "Revenue grew.".
Proof.
  split; [reflexivity|].
  destruct (handleExport_total Examples.q1_report md) as [_ [d [H1 H2]]].
  exists d. split; [exact H1|].
  rewrite H2; reflexivity.
Defined.

(** C9. A summary that is the empty string is exported like a missing
    one: the summary body is "No summary", and the file is the one the
    handler produces for the same note without a summary. *)
Theorem export_empty_summary (note : Note) (format : Format) :
  summary note = Some [] ->
  handleExport (Some note) format =
  handleExport (Some (with_summary None note)) format
  /\ exists d,
       handleExport (Some note) format = Normal (Some d)
       /\ download_content d =
          before_summary format note ++ lit "No summary" ++ NL ++ NL
          ++ match keywords note with
             | Some (k :: ks) => keywords_section format (k :: ks)
             | _ => []
             end
          ++ content_section format note.
Proof.
  intros Hs.
  assert (Hc : exportContent note format =
               Normal (before_summary format note ++ lit "No summary"
                       ++ NL ++ NL
                       ++ match keywords note with
                          | Some (k :: ks) => keywords_section format (k :: ks)
                          | _ => []
                          end
                       ++ content_section format note)).
  { rewrite exportContent_normal. unfold summary_or_default.
    now rewrite Hs. }
  split.
  - unfold handleExport. rewrite Hc, exportContent_normal.
    destruct format; reflexivity.
  - eexists. split.
    + unfold handleExport. rewrite Hc. reflexivity.
    + reflexivity.
Qed.

Lemma export_empty_summary_sample :
  summary Examples.empty_summary = Some []
  /\ handleExport (Some Examples.empty_summary) txt =
     handleExport (Some (with_summary None Examples.empty_summary)) txt.
Proof.
  split; [reflexivity|].
  apply (export_empty_summary Examples.empty_summary txt). reflexivity.
Defined.

(** *** Occurrences of a one-line word in a document *)

Lemma startsWith_line (a b m : jsstring) :
  forallb (fun c => negb (c =? 10)) m = true ->
  startsWith (a ++ 10 :: b) m = startsWith a m.
Proof.
  revert a. induction m as [|x m IH]; intros a H.
  - now destruct a.
  - cbn [forallb] in H. apply andb_true_iff in H as [Hx Hm].
    destruct a as [|d a]; cbn [app startsWith].
    + apply negb_true_iff in Hx. now rewrite Hx.
    + now rewrite IH.
Qed.

Lemma includes_line (a b m : jsstring) :
  line_word m = true ->
  includes (a ++ 10 :: b) m = includes a m || includes b m.
Proof.
  unfold line_word. intros H. apply andb_true_iff in H as [Hne Hm].
  induction a as [|d a IH].
  - cbn [app includes].
    pose proof (startsWith_line [] b m Hm) as E. cbn [app] in E.
    rewrite E. now destruct m.
  - change ((d :: a) ++ 10 :: b) with (d :: (a ++ 10 :: b)).
    cbn [includes]. rewrite IH.
    change (d :: (a ++ 10 :: b)) with ((d :: a) ++ 10 :: b).
    rewrite (startsWith_line (d :: a) b m Hm). now rewrite orb_assoc.
Qed.

Lemma includes_line_nil (b m : jsstring) :
  line_word m = true ->
  includes (10 :: b) m = includes b m.
Proof.
  intros H. pose proof (includes_line [] b m H) as E. cbn [app] in E.
  rewrite E. unfold line_word in H. now destruct m.
Qed.

Lemma includes_repeat (c x : codeunit) (m : jsstring) (n : nat) :
  x <> c ->
  includes (List.concat (List.repeat [c] n)) (x :: m) = false.
Proof.
  intros Hx. induction n as [|n IH]; [reflexivity|].
  cbn [List.repeat List.concat app includes startsWith]. rewrite IH.
  apply N.eqb_neq in Hx. now rewrite Hx.
Qed.

Lemma includes_summary_or_default (m : jsstring) (note : Note) :
  includes (lit "No summary") m = false ->
  (forall s, summary note = Some s -> includes s m = false) ->
  includes (summary_or_default note) m = false.
Proof.
  intros Hlit Hs. unfold summary_or_default.
  destruct (summary note) as [s|]; [|exact Hlit].
  destruct (truthy_string s); [now apply Hs | exact Hlit].
Qed.

(** Without keywords the document shows the marker of a Keywords section
    only if one of the note's own texts does. *)
Lemma export_without_marker (note : Note) (format : Format) :
  free_of (keywords_marker format) note ->
  includes (before_summary format note ++ summary_or_default note
            ++ NL ++ NL ++ content_section format note)
           (keywords_marker format) = false.
Proof.
  intros [Ht [Hs Hc]].
  destruct format;
    unfold before_summary, content_section, txt_tail, md_tail,
      keywords_marker, NL in *;
    rewrite <- ?app_assoc; cbn [app].
  - repeat first [ rewrite includes_line by reflexivity
                   | rewrite includes_line_nil by reflexivity ].
    rewrite Ht, Hc, includes_summary_or_default by first [reflexivity | exact Hs].
    unfold underline. change (lit "=") with [61].
    change (lit "Keywords:") with (75 :: lit "eywords:").
    now rewrite includes_repeat by discriminate.
  - change (lit "# " ++ title note ++ 10 :: 10 :: ?r)
      with (35 :: 32 :: (title note ++ 10 :: 10 :: r)).
    change (lit "## Keywords") with (35 :: 35 :: lit " Keywords") at 1.
    cbn [includes startsWith N.eqb Pos.eqb andb orb].
    change (35 :: 35 :: lit " Keywords") with (lit "## Keywords").
    repeat first [ rewrite includes_line by reflexivity
                 | rewrite includes_line_nil by reflexivity ].
    rewrite Ht, Hc, includes_summary_or_default by first [reflexivity | exact Hs].
    reflexivity.
Qed.

(** With keywords the section stands between the summary and the
    original content. *)
Lemma export_with_marker (format : Format) (pre post : jsstring)
  (kws : list jsstring) :
  includes (pre ++ keywords_section format kws ++ post)
           (keywords_marker format) = true.
Proof.
  apply includes_iff. destruct format.
  - exists pre,
      (lit " " ++ join (lit ", ") kws ++ NL ++ NL ++ post).
    unfold keywords_section, txt_keywords, keywords_marker.
    change (lit "Keywords: ") with (lit "Keywords:" ++ lit " ").
    now rewrite <- !app_assoc.
  - exists pre,
      (NL ++ NL ++ join NL (List.map (fun k => lit "- " ++ k) kws)
       ++ NL ++ NL ++ post).
    unfold keywords_section, md_keywords, keywords_marker.
    now rewrite <- !app_assoc.
Qed.

(** C3, as amended.  For a note whose keyword list is [null] or empty the
    exported document is the head immediately followed by the Original
    Content section, and it contains the marker of a Keywords section only
    if the title, the summary or the original content of the note does;
    for a note with keywords the section is present. *)
Theorem export_keywords_section (note : Note) (format : Format) :
  exists d,
    handleExport (Some note) format = Normal (Some d)
    /\ ((keywords note = None \/ keywords note = Some []) ->
        download_content d =
          before_summary format note ++ summary_or_default note
          ++ NL ++ NL ++ content_section format note
        /\ (free_of (keywords_marker format) note ->
            includes (download_content d) (keywords_marker format) = false))
    /\ (forall ks, keywords note = Some ks -> ks <> [] ->
        download_content d =
          before_summary format note ++ summary_or_default note
          ++ NL ++ NL ++ keywords_section format ks
          ++ content_section format note
        /\ includes (download_content d) (keywords_marker format) = true).
Proof.
  destruct (handleExport_normal note format) as [content [Hc H]].
  eexists. split; [exact H|]. cbn [download_content].
  rewrite exportContent_normal in Hc. injection Hc as <-. split.
  - intros Hk.
    assert (E : match keywords note with
                | Some (k :: ks) => keywords_section format (k :: ks)
                | _ => []
                end = []) by (destruct Hk as [-> | ->]; reflexivity).
    rewrite E. cbn [app]. split; [reflexivity|].
    apply export_without_marker.
  - intros ks Hk Hne. rewrite Hk.
    destruct ks as [|k ks]; [congruence|]. split; [reflexivity|].
    pose proof (export_with_marker format
                  (before_summary format note ++ summary_or_default note
                   ++ NL ++ NL)
                  (content_section format note) (k :: ks)) as E.
    rewrite <- !app_assoc in E. exact E.
Qed.

Lemma export_keywords_section_q1 :
  keywords Examples.q1_report = Some []
  /\ free_of (keywords_marker txt) Examples.q1_report
  /\ exists d,
       handleExport (Some Examples.q1_report) txt = Normal (Some d)
       /\ includes (download_content d) (lit "Keywords:") = false.
Proof.
  assert (Hfree : free_of (keywords_marker txt) Examples.q1_report).
  { split; [reflexivity|]. split; [|reflexivity]. intros s Hs.
    discriminate Hs. }
  split; [reflexivity|]. split; [exact Hfree|].
  destruct (export_keywords_section Examples.q1_report txt)
    as [d [H1 [H2 _]]].
  exists d. split; [exact H1|].
  destruct (H2 (or_intror eq_refl)) as [_ H3]. exact (H3 Hfree).
Defined.

(** C3 as stated fails on a note without keywords whose summary quotes
    such a section: the exported document is then, unit for unit, the
    document of the note that has the keywords. *)
Lemma export_keywords_quoted :
  keywords Examples.quoting_txt = Some []
  /\ keywords Examples.quoting_md = None
  /\ handleExport (Some Examples.quoting_txt) txt =
     handleExport (Some Examples.tagged) txt
  /\ handleExport (Some Examples.quoting_md) md =
     handleExport (Some Examples.tagged) md
  /\ (exists d,
        handleExport (Some Examples.quoting_txt) txt = Normal (Some d)
        /\ includes (download_content d) (lit "Keywords:") = true)
  /\ (exists d,
        handleExport (Some Examples.quoting_md) md = Normal (Some d)
        /\ includes (download_content d) (lit "## Keywords") = true).
Proof.
  split; [reflexivity|]. split; [reflexivity|].
  split; [vm_compute; reflexivity|]. split; [vm_compute; reflexivity|].
  split; eexists; (split; [vm_compute; reflexivity|vm_compute; reflexivity]).
Qed.

End ExportedDocument.

(** ** Fetching a note *)

Section Fetch.
Import NoteDetail.

Lemma NoDup_map_inj {A B} (f : A -> B) (l : list A) (x y : A) :
  List.NoDup (List.map f l) -> In x l -> In y l -> f x = f y -> x = y.
Proof.
  induction l as [|a l IH]; simpl; [tauto|].
  intros Hnd Hx Hy E. apply NoDup_cons_iff in Hnd as [Hnotin Hnd].
  destruct Hx as [-> | Hx], Hy as [-> | Hy]; auto.
  - exfalso. apply Hnotin. rewrite E. now apply in_map.
  - exfalso. apply Hnotin. rewrite <- E. now apply in_map.
Qed.

Lemma visible_incl (policy : bool) (uid : jsstring) (table : list Note)
  (x : Note) :
  In x (if policy then rls_select uid table else table) -> In x table.
Proof.
  destruct policy; [|tauto]. unfold rls_select.
  rewrite filter_In. tauto.
Qed.

(** Whatever the query selects carries the requested id and belongs to
    the session's user, with or without the remote policy. *)
Lemma query_rows_scoped (policy : bool) (table : list Note) (session : User)
  (i : jsstring) (x : Note) :
  In x (eq_filter user_id (uid session)
          (eq_filter id i
             (if policy then rls_select (uid session) table else table))) ->
  In x table /\ id x = i /\ user_id x = uid session.
Proof.
  unfold eq_filter. rewrite !filter_In, !bool_decide_eq_true.
  intros [[Hin Hid] Hu]. apply visible_incl in Hin. tauto.
Qed.

Lemma queryNote_scoped (policy : bool) (table : list Note) (session : User)
  (i : jsstring) (x : Note) :
  data (queryNote policy table session i) = Some x ->
  In x table /\ id x = i /\ user_id x = uid session.
Proof.
  unfold queryNote, single. intros H.
  apply (query_rows_scoped policy).
  destruct (eq_filter user_id (uid session) _) as [|r [|r' rows]];
    simpl in H; try discriminate.
  injection H as ->. now left.
Qed.

(** C6. With unique note ids (the primary key of the table), fetching by
    the id of a note that belongs to someone else selects no row: the
    query reports an error, the page keeps the note it had, stops loading
    and redirects to the list.  This holds whether or not the remote
    store applies its row-level policy. *)
Theorem fetchNote_other_owner (policy : bool) (table : list Note)
  (r : Note) (B : User) (st : PageState) :
  List.NoDup (List.map id table) ->
  In r table ->
  user_id r <> uid B ->
  id r <> [] ->
  queryNote policy table B (id r) =
    {| data := None; error := Some NotSingleRow |}
  /\ fetchNote policy table (Some B) (Some (id r)) st =
     ({| note := note st; loading := false |},
      [ConsoleError; Navigate (lit "/notes")]).
Proof.
  intros Hpk Hr Howner Hid.
  assert (Hq : queryNote policy table B (id r) =
               {| data := None; error := Some NotSingleRow |}).
  { unfold queryNote.
    destruct (eq_filter user_id (uid B) _) as [|x rows] eqn:E;
      [reflexivity|].
    exfalso.
    destruct (query_rows_scoped policy table B (id r) x) as [Hx [Hxi Hxu]].
    { rewrite E. now left. }
    apply Howner.
    now rewrite <- (NoDup_map_inj id table x r Hpk Hx Hr Hxi). }
  split; [exact Hq|].
  unfold fetchNote. destruct (id r) as [|c i] eqn:Ei; [congruence|].
  cbn [truthy_string]. now rewrite Hq.
Qed.

Lemma fetchNote_other_owner_sample :
  List.NoDup (List.map id Examples.notes_table)
  /\ In Examples.q1_report Examples.notes_table
  /\ user_id Examples.q1_report <> uid Examples.bob
  /\ fetchNote true Examples.notes_table (Some Examples.bob)
       (Some (id Examples.q1_report)) Examples.loading_page =
     ({| note := None; loading := false |},
      [ConsoleError; Navigate (lit "/notes")]).
Proof.
  assert (Hpk : List.NoDup (List.map id Examples.notes_table)).
  { repeat constructor; simpl; intros H;
      repeat (destruct H as [H|H]; [discriminate H|]); exact H. }
  split; [exact Hpk|]. split; [now left|]. split; [discriminate|].
  apply (fetchNote_other_owner true Examples.notes_table
           Examples.q1_report Examples.bob Examples.loading_page Hpk).
  - now left.
  - discriminate.
  - discriminate.
Defined.

End Fetch.

(** ** Requesting a summary *)

Section Summarize.
Import NewNote.

Lemma trimStart_white (s : jsstring) :
  forallb is_white s = true -> trimStart s = [].
Proof.
  induction s as [|c s IH]; [reflexivity|].
  cbn [forallb trimStart]. intros H.
  apply andb_true_iff in H as [Hc Hs]. rewrite Hc. now apply IH.
Qed.

Lemma trimStart_head (s : jsstring) (c : codeunit) (t : jsstring) :
  trimStart s = c :: t -> is_white c = false.
Proof.
  induction s as [|d s IH]; [discriminate|].
  cbn [trimStart]. destruct (is_white d) eqn:Hd; [exact IH|].
  intros [= <- _]. exact Hd.
Qed.

Lemma trimStart_nil (s : jsstring) :
  trimStart s = [] -> forallb is_white s = true.
Proof.
  induction s as [|d s IH]; [reflexivity|].
  cbn [trimStart forallb]. destruct (is_white d); [exact IH|discriminate].
Qed.

(** [!content.trim()] holds exactly for the drafts made of white space
    only, the empty draft among them. *)
Lemma trim_blank (s : jsstring) :
  truthy_string (trim s) = false <-> forallb is_white s = true.
Proof.
  unfold trim. split.
  - intros H.
    destruct (rev (trimStart (rev (trimStart s)))) as [|x xs] eqn:E;
      [|discriminate].
    apply (f_equal (@rev codeunit)) in E. rewrite rev_involutive in E.
    cbn [rev] in E. apply trimStart_nil in E.
    destruct (trimStart s) as [|c t] eqn:Es; [now apply trimStart_nil|].
    exfalso. apply trimStart_head in Es.
    rewrite forallb_forall in E.
    rewrite (E c) in Es; [discriminate|].
    apply -> in_rev. now left.
  - intros H. now rewrite (trimStart_white s H).
Qed.

Lemma handleSummarize_nonblank (st : State) :
  forallb is_white (content st) = false ->
  handleSummarize st =
  SetIsProcessing true
    (SetResult None
       (Invoke (lit "summarize") (requestBody st) afterInvoke)).
Proof.
  intros H. unfold handleSummarize.
  destruct (truthy_string (trim (content st))) eqn:E; [reflexivity|].
  apply trim_blank in E. congruence.
Qed.

(** The handler never writes the draft: content and options survive any
    run. *)
Lemma run_keeps_draft (p : Prog) (remote : Request -> Settled) (st : State) :
  requestBody (fst (run p remote st)) = requestBody st.
Proof.
  revert st. induction p as [|t k IH|b k IH|r k IH|k IH|fn body k IH];
    intros st; cbn [run].
  - reflexivity.
  - specialize (IH st). destruct (run k remote st). exact IH.
  - now rewrite IH.
  - now rewrite IH.
  - specialize (IH st). destruct (run k remote st). exact IH.
  - specialize (IH (remote body) st).
    destruct (run (k (remote body)) remote st). exact IH.
Qed.

Lemma run_afterInvoke_failed (remote : Request -> Settled) (st : State)
  (settled : Settled) (e : FnError) :
  Failed settled e ->
  run (afterInvoke settled) remote st =
  (set_isProcessing false st, [EConsoleError; EToast (summarizationFailed e)]).
Proof. intros H. destruct H; reflexivity. Qed.

Lemma invocations_afterInvoke (remote : Request -> Settled) (st : State)
  (settled : Settled) :
  invocations (snd (run (afterInvoke settled) remote st)) = 0%nat.
Proof.
  destruct settled as [[d|] [e|] | reason]; reflexivity.
Qed.

(** C7. A draft that is empty or made of white space only is refused on
    the spot: the handler is the single destructive toast "Content
    required"; run against any remote function it calls nothing and leaves
    the state, result included, as it was. *)
Theorem handleSummarize_blank (st : State) (remote : Request -> Settled) :
  forallb is_white (content st) = true ->
  handleSummarize st = Toast contentRequired Done
  /\ run (handleSummarize st) remote st = (st, [EToast contentRequired])
  /\ invocations (snd (run (handleSummarize st) remote st)) = 0%nat
  /\ toast_variant contentRequired = destructive.
Proof.
  intros H. apply trim_blank in H.
  assert (E : handleSummarize st = Toast contentRequired Done).
  { unfold handleSummarize. now rewrite H. }
  rewrite E. repeat split.
Qed.

Lemma handleSummarize_blank_sample :
  forallb is_white (content Examples.blank_draft) = true
  /\ run (handleSummarize Examples.blank_draft) Examples.unreachable
       Examples.blank_draft =
     (Examples.blank_draft, [EToast contentRequired]).
Proof.
  split; [reflexivity|].
  apply (handleSummarize_blank Examples.blank_draft Examples.unreachable).
  reflexivity.
Defined.

(** The failures the handler catches.  For a draft that is not blank the
    handler calls the remote function exactly once, whatever comes back,
    and never writes the content or the options.  When the call is
    rejected, resolves with an error, or resolves without a body, the
    failure is shown as the destructive toast "Summarization failed" and
    the page stops processing. *)
Lemma handleSummarize_caught (st : State) (remote : Request -> Settled) :
  forallb is_white (content st) = false ->
  requestBody (fst (run (handleSummarize st) remote st)) = requestBody st
  /\ invocations (snd (run (handleSummarize st) remote st)) = 1%nat
  /\ forall e, Failed (remote (requestBody st)) e ->
       snd (run (handleSummarize st) remote st) =
         [EInvoke (lit "summarize") (requestBody st);
          EConsoleError; EToast (summarizationFailed e)]
       /\ toast_variant (summarizationFailed e) = destructive
       /\ isProcessing (fst (run (handleSummarize st) remote st)) = false.
Proof.
  intros H. split; [apply run_keeps_draft|].
  rewrite (handleSummarize_nonblank st H). cbn [run]. split.
  - pose proof (invocations_afterInvoke remote
                  (set_result None (set_isProcessing true st))
                  (remote (requestBody st))) as E.
    destruct (run (afterInvoke (remote (requestBody st))) remote _).
    exact (f_equal S E).
  - intros e He.
    rewrite (run_afterInvoke_failed remote _ _ e He). now cbn.
Qed.

(** C8 fails on a malformed response.  The remote function answers the
    draft with an empty object: no error, a body, none of the three
    fields.  The handler stores the body as the result and announces
    "Summary generated!"; no error is shown.  The render that follows
    reads the length of the missing keyword list and raises a
    [TypeError], so the page, and with it the draft the handler had left
    untouched, is gone. *)
Lemma handleSummarize_malformed :
  forallb is_white (content Examples.draft) = false
  /\ Examples.empty_object (requestBody Examples.draft) =
     Fulfilled (Some {| r_title := None; r_summary := None;
                        r_keywords := None |}) None
  /\ malformed {| r_title := None; r_summary := None; r_keywords := None |}
  /\ run (handleSummarize Examples.draft) Examples.empty_object
       Examples.draft =
     ({| content := lit "The quick brown fox"; summaryLength := short;
         summaryTone := casual; isBulletPoints := false;
         isProcessing := false;
         result := Some {| r_title := None; r_summary := None;
                           r_keywords := None |};
         copied := false |},
      [EInvoke (lit "summarize") (requestBody Examples.draft);
       EToast summaryGenerated])
  /\ existsb is_error_toast
       (snd (run (handleSummarize Examples.draft) Examples.empty_object
               Examples.draft)) = false
  /\ SaveNote.renderPanel
       (fst (run (handleSummarize Examples.draft) Examples.empty_object
               Examples.draft))
     = NoteDetail.Throw NoteDetail.TypeError.
Proof.
  split; [reflexivity|]. split; [reflexivity|]. split; [now left|].
  split; [reflexivity|]. split; reflexivity.
Qed.

(** C10. For a draft that is not blank the handler clears the result
    before it calls the remote function, so after a failed call the
    result is [null] even if a summary had been generated before. *)
Theorem handleSummarize_discards_result (st : State)
  (remote : Request -> Settled) (prev : SummaryResult) (e : FnError) :
  forallb is_white (content st) = false ->
  result st = Some prev ->
  Failed (remote (requestBody st)) e ->
  (exists k, handleSummarize st =
             SetIsProcessing true
               (SetResult None (Invoke (lit "summarize") (requestBody st) k)))
  /\ result (fst (run (handleSummarize st) remote st)) = None
  /\ result (fst (run (handleSummarize st) remote st)) <> result st.
Proof.
  intros H Hprev He. rewrite (handleSummarize_nonblank st H).
  assert (E : result (fst (run (SetIsProcessing true
                 (SetResult None
                    (Invoke (lit "summarize") (requestBody st) afterInvoke)))
                 remote st)) = None).
  { cbn [run]. now rewrite (run_afterInvoke_failed remote _ _ e He). }
  split; [now exists afterInvoke|]. split; [exact E|].
  rewrite E, Hprev. discriminate.
Qed.

Lemma handleSummarize_discards_result_sample :
  result Examples.draft = Some Examples.earlier_result
  /\ result (fst (run (handleSummarize Examples.draft) Examples.unreachable
                    Examples.draft)) = None.
Proof.
  split; [reflexivity|].
  apply (handleSummarize_discards_result Examples.draft Examples.unreachable
           Examples.earlier_result
           {| message := Some (lit "Failed to send a request") |}).
  - reflexivity.
  - reflexivity.
  - constructor.
Defined.

End Summarize.

(** * Further properties of the pages *)

(** ** The store and the detail page *)

Section StoreFacts.
Import NoteDetail Store.

Lemma delete_by_id_In (policy : bool) (session : option User)
  (value : jsstring) (table : list Note) (r : Note) :
  In r (delete_by_id policy session value table) <->
  In r table
  /\ ~ (id r = value /\ (policy = false \/ owns session r = true)).
Proof.
  unfold delete_by_id. rewrite filter_In, negb_true_iff, andb_false_iff,
    orb_false_iff, bool_decide_eq_false, negb_false_iff.
  split; intros [Hin H]; (split; [exact Hin|]).
  - intros [Hid Hp]. destruct H as [H | [Hpol Hown]]; [tauto|].
    destruct Hp as [Hp | Hp]; congruence.
  - destruct (decide (id r = value)) as [Hid|Hid]; [|now left].
    right. destruct policy, (owns session r); try tauto;
      exfalso; apply H; tauto.
Qed.

Lemma NoDup_map_filter {A B} (f : A -> B) (p : A -> bool) (l : list A) :
  List.NoDup (List.map f l) -> List.NoDup (List.map f (List.filter p l)).
Proof.
  induction l as [|a l IH]; simpl; [auto|].
  intros H. apply NoDup_cons_iff in H as [Hnotin Hnd].
  destruct (p a); simpl; [|auto].
  constructor; [|auto].
  intros Hin. apply Hnotin. apply in_map_iff in Hin as [x [E Hx]].
  apply filter_In in Hx as [Hx _]. rewrite <- E. now apply in_map.
Qed.

Lemma NoDup_singleton_iff {A} (l : list A) (r : A) :
  List.NoDup l -> (forall x, In x l <-> x = r) -> l = [r].
Proof.
  intros Hnd H. destruct l as [|x l].
  - exfalso. now apply (H r).
  - assert (x = r) as -> by (apply H; now left).
    destruct l as [|y l]; [reflexivity|]. exfalso.
    assert (y = r) as -> by (apply H; right; now left).
    apply NoDup_cons_iff in Hnd as [Hnotin _]. apply Hnotin. now left.
Qed.

(** The rows a fetch selects when the requested note is the session's
    own. *)
Lemma query_rows_own (policy : bool) (table : list Note) (r : Note)
  (u : User) :
  List.NoDup (List.map id table) -> In r table -> user_id r = uid u ->
  eq_filter user_id (uid u)
    (eq_filter id (id r)
       (if policy then rls_select (uid u) table else table)) = [r].
Proof.
  intros Hpk Hr Hu. apply NoDup_singleton_iff.
  - unfold eq_filter. apply List.NoDup_filter, List.NoDup_filter.
    apply List.NoDup_map_inv in Hpk.
    destruct policy; [now apply List.NoDup_filter | exact Hpk].
  - intros x. split.
    + intros Hx. apply query_rows_scoped in Hx as [Hx [Hid _]].
      now apply (NoDup_map_inj id table x r Hpk Hx Hr).
    + intros ->. unfold eq_filter, rls_select.
      rewrite !filter_In, !bool_decide_eq_true.
      split; [split; [|reflexivity] | exact Hu].
      destruct policy; [|exact Hr].
      rewrite filter_In, bool_decide_eq_true. now split.
Qed.

Lemma fetch_own_row (policy : bool) (table : list Note) (r : Note)
  (u : User) (st : PageState) :
  List.NoDup (List.map id table) -> In r table -> user_id r = uid u ->
  id r <> [] ->
  fetchNote policy table (Some u) (Some (id r)) st =
  ({| note := Some r; loading := false |}, []).
Proof.
  intros Hpk Hr Hu Hid. unfold fetchNote, queryNote.
  destruct (id r) as [|c i] eqn:Ei; [congruence|]. cbn [truthy_string].
  rewrite <- Ei, (query_rows_own policy table r u Hpk Hr Hu). reflexivity.
Qed.

(** X1. With unique ids, fetching one's own note by its id loads exactly
    that note, stops loading and does not redirect. *)
Theorem fetchNote_own_note (policy : bool) (table : list Note) (r : Note)
  (u : User) (st : PageState) :
  List.NoDup (List.map id table) -> In r table -> user_id r = uid u ->
  id r <> [] ->
  fetchNote policy table (Some u) (Some (id r)) st =
  ({| note := Some r; loading := false |}, []).
Proof. apply fetch_own_row. Qed.

Lemma fetchNote_own_note_sample :
  fetchNote true Examples.notes_table (Some Examples.bob)
    (Some (id Examples.bobs_note)) Examples.loading_page =
  ({| note := Some Examples.bobs_note; loading := false |}, []).
Proof.
  apply (fetchNote_own_note true Examples.notes_table Examples.bobs_note
           Examples.bob Examples.loading_page).
  - repeat constructor; simpl; intros H;
      repeat (destruct H as [H|H]; [discriminate H|]); exact H.
  - right. now left.
  - reflexivity.
  - discriminate.
Defined.

(** X2. Whatever the table holds, even with duplicate ids and without the
    remote policy, a note that a fetch puts on a page that showed none
    is a row of the table with the requested id that belongs to the
    signed-in user. *)
Theorem fetchNote_shows_own_rows (policy : bool) (table : list Note)
  (user : option User) (id_param : option jsstring) (st : PageState)
  (x : Note) :
  note st = None ->
  note (fst (fetchNote policy table user id_param st)) = Some x ->
  exists u i, user = Some u /\ id_param = Some i
              /\ In x table /\ id x = i /\ user_id x = uid u.
Proof.
  intros Hst. unfold fetchNote.
  destruct user as [u|], id_param as [i|]; cbn; try congruence.
  destruct (truthy_string i); cbn; [|congruence].
  destruct (error (queryNote policy table u i)); cbn; [congruence|].
  intros H. exists u, i. split; [reflexivity|]. split; [reflexivity|].
  now apply (queryNote_scoped policy).
Qed.

Lemma fetchNote_shows_own_rows_sample :
  exists u i, Some Examples.bob = Some u
              /\ Some (id Examples.bobs_note) = Some i
              /\ In Examples.bobs_note Examples.notes_table
              /\ id Examples.bobs_note = i
              /\ user_id Examples.bobs_note = uid u.
Proof.
  apply (fetchNote_shows_own_rows false Examples.notes_table
           (Some Examples.bob) (Some (id Examples.bobs_note))
           Examples.loading_page Examples.bobs_note).
  - reflexivity.
  - reflexivity.
Defined.

End StoreFacts.

(** ** Deleting and listing notes *)

Section NotesListFacts.
Import NoteDetail Store NotesList.

Lemma filter_comm {A} (f g : A -> bool) (l : list A) :
  List.filter f (List.filter g l) = List.filter g (List.filter f l).
Proof.
  induction l as [|a l IH]; simpl; [reflexivity|].
  destruct (f a) eqn:Ef, (g a) eqn:Eg; simpl;
    rewrite ?Ef, ?Eg, IH; reflexivity.
Qed.

Lemma filter_other_ids_length {A B} `{EqDecision B} (f : A -> B)
  (l : list A) (x : A) :
  List.NoDup (List.map f l) -> In x l ->
  S (length (List.filter (fun y => negb (bool_decide (f y = f x))) l))
  = length l.
Proof.
  induction l as [|a l IH]; simpl; [tauto|].
  intros Hnd Hx. apply NoDup_cons_iff in Hnd as [Hnotin Hnd].
  destruct Hx as [-> | Hx].
  - rewrite bool_decide_eq_true_2 by reflexivity. simpl. f_equal.
    clear IH Hnd. induction l as [|b l IH]; simpl; [reflexivity|].
    rewrite bool_decide_eq_false_2.
    + simpl. f_equal. apply IH. intros H. apply Hnotin. now right.
    + intros E. apply Hnotin. left. exact E.
  - rewrite bool_decide_eq_false_2.
    + simpl. f_equal. now apply IH.
    + intros E. apply Hnotin. rewrite E. now apply in_map.
Qed.

Lemma filteredNotes_empty_query (L : list Note) :
  Notes.filteredNotes L [] = L.
Proof.
  unfold Notes.filteredNotes. induction L as [|n L IH]; simpl;
    [reflexivity|].
  now rewrite matchesQuery_empty, IH.
Qed.

Lemma NoDup_snoc {A} (l : list A) (x : A) :
  List.NoDup l -> ~ In x l -> List.NoDup (l ++ [x]).
Proof.
  induction l as [|a l IH]; simpl; intros Hnd Hx.
  - constructor; [tauto | constructor].
  - apply NoDup_cons_iff in Hnd as [Hnotin Hnd]. constructor.
    + rewrite in_app_iff. simpl. intros [H | [H | []]]; [tauto|].
      apply Hx. now left.
    + apply IH; [exact Hnd | tauto].
Qed.

Lemma request_delete_unique (fail : option StoreError) (policy : bool)
  (session : option User) (value : jsstring) (table : list Note) :
  List.NoDup (List.map id table) ->
  List.NoDup (List.map id
                (fst (request_delete fail policy session value table))).
Proof.
  intros H. destruct fail; cbn; [exact H|].
  now apply NoDup_map_filter.
Qed.

Lemma insert_row_unique (policy : bool) (session : option User)
  (fresh_id now : jsstring) (row : NewRow) (table : list Note) :
  List.NoDup (List.map id table) ->
  List.NoDup (List.map id
                (fst (insert_row policy session fresh_id now row table))).
Proof.
  intros H. unfold insert_row.
  destruct (policy && _); [exact H|].
  destruct (n_title row); [|exact H].
  destruct (existsb _ table) eqn:E; [exact H|]. cbn [fst].
  rewrite map_app. apply NoDup_snoc; [exact H|]. cbn [List.map id].
  intros Hin. apply in_map_iff in Hin as [x [Hx Hin]].
  assert (existsb (fun r => bool_decide (id r = fresh_id)) table = true).
  { apply existsb_exists. exists x. split; [exact Hin|].
    now apply bool_decide_eq_true. }
  congruence.
Qed.

(** X3. After a successful delete the list of the notes page holds the
    notes it held, in their order, without those of the deleted id; and
    what a search shows afterwards is what it showed before without
    them. *)
Theorem handleDelete_view (policy : bool) (table : list Note)
  (session : option User) (i : jsstring) (st : State) (q : jsstring) :
  (forall n,
     In n (notes (snd (fst (handleDelete None policy table session i st))))
     <-> In n (notes st) /\ id n <> i)
  /\ sublist (notes (snd (fst (handleDelete None policy table session i st))))
       (notes st)
  /\ Notes.filteredNotes
       (notes (snd (fst (handleDelete None policy table session i st)))) q
     = List.filter (fun n => negb (bool_decide (id n = i)))
         (Notes.filteredNotes (notes st) q)
  /\ searchQuery (snd (fst (handleDelete None policy table session i st)))
     = searchQuery st.
Proof.
  cbn. split; [|split; [|split]].
  - intros n. rewrite filter_In, negb_true_iff, bool_decide_eq_false.
    reflexivity.
  - apply filter_sublist.
  - unfold Notes.filteredNotes. apply filter_comm.
  - reflexivity.
Qed.

(** X4. When the ids of the listed notes are unique, a successful delete
    of a listed note shortens the list by exactly one. *)
Theorem handleDelete_one_fewer (policy : bool) (table : list Note)
  (session : option User) (n : Note) (st : State) :
  List.NoDup (List.map id (notes st)) -> In n (notes st) ->
  S (length (notes (snd (fst
       (handleDelete None policy table session (id n) st)))))
  = length (notes st).
Proof. intros Hnd Hn. cbn. now apply filter_other_ids_length. Qed.

Lemma handleDelete_one_fewer_sample :
  S (length (notes (snd (fst
       (handleDelete None true Examples.notes_table (Some Scenarios.alice)
          (id Examples.q1_report) Scenarios.listed)))))
  = 1%nat.
Proof.
  apply (handleDelete_one_fewer true Examples.notes_table
           (Some Scenarios.alice) Examples.q1_report Scenarios.listed).
  - repeat constructor. simpl. tauto.
  - now left.
Defined.

(** X5. Deleting keeps the page in step with the store: if the list
    showed exactly the user's rows before [handleDelete], it shows exactly
    the user's rows of the table as the request leaves it, whether the
    request gets through or fails, with or without the remote policy. *)
Theorem handleDelete_in_sync (fail : option StoreError) (policy : bool)
  (table : list Note) (u : User) (i : jsstring) (st : State) :
  in_sync u table (notes st) ->
  in_sync u (fst (fst (handleDelete fail policy table (Some u) i st)))
    (notes (snd (fst (handleDelete fail policy table (Some u) i st)))).
Proof.
  intros Hsync. destruct fail as [e|]; cbn; [exact Hsync|].
  intros n. rewrite filter_In, negb_true_iff, bool_decide_eq_false,
    delete_by_id_In, (Hsync n).
  split.
  - intros [[Hin Hu] Hid]. repeat split; try assumption. tauto.
  - intros [[Hin Hnot] Hu]. repeat split; try assumption.
    intros Hid. apply Hnot. split; [exact Hid|]. right.
    cbn. now apply bool_decide_eq_true.
Qed.

Lemma handleDelete_in_sync_sample :
  in_sync Scenarios.alice Examples.notes_table (notes Scenarios.listed)
  /\ in_sync Scenarios.alice
       (fst (fst (handleDelete None true Examples.notes_table
                    (Some Scenarios.alice) (id Examples.q1_report)
                    Scenarios.listed)))
       [].
Proof.
  assert (H : in_sync Scenarios.alice Examples.notes_table
                (notes Scenarios.listed)).
  { intros n. cbn. split.
    - intros [<- | []]. split; [now left | reflexivity].
    - intros [[<- | [<- | []]] Hu]; [now left | discriminate Hu]. }
  split; [exact H|].
  exact (handleDelete_in_sync None true Examples.notes_table Scenarios.alice
           (id Examples.q1_report) Scenarios.listed H).
Defined.

(** X6. Neither delete handler names the user in its request.  Under the
    remote policy a row that the session does not own survives every
    delete, from the list and from the detail page; without the policy a
    delete from the list removes the row with the given id whoever owns
    it. *)
Theorem handleDelete_reach (fail : option StoreError) (table : list Note)
  (session : option User) (i : jsstring) (st : State) (pst : PageState)
  (r : Note) :
  In r table -> owns session r = false ->
  In r (fst (fst (handleDelete fail true table session i st)))
  /\ In r (fst (NoteActions.handleDelete fail true table session pst))
  /\ (id r = i ->
      ~ In r (fst (fst (handleDelete None false table session i st)))).
Proof.
  intros Hr Hown.
  assert (Hkeep : forall v,
            In r (fst (request_delete fail true session v table))).
  { intros v. destruct fail; cbn; [exact Hr|].
    apply delete_by_id_In. split; [exact Hr|].
    intros [_ [H | H]]; congruence. }
  split; [|split].
  - unfold handleDelete. specialize (Hkeep i).
    destruct (request_delete fail true session i table) as [t' [e|]];
      exact Hkeep.
  - unfold NoteActions.handleDelete.
    destruct (note pst) as [n|]; [|exact Hr]. specialize (Hkeep (id n)).
    destruct (request_delete fail true session (id n) table) as [t' [e|]];
      exact Hkeep.
  - intros Hid. cbn. rewrite delete_by_id_In. intros [_ H].
    apply H. split; [exact Hid | now left].
Qed.

Lemma handleDelete_reach_sample :
  In Examples.q1_report Examples.notes_table
  /\ owns (Some Examples.bob) Examples.q1_report = false
  /\ In Examples.q1_report
       (fst (fst (handleDelete None true Examples.notes_table
                    (Some Examples.bob) (id Examples.q1_report)
                    Scenarios.listed))).
Proof.
  split; [now left|]. split; [reflexivity|].
  apply (handleDelete_reach None Examples.notes_table (Some Examples.bob)
           (id Examples.q1_report) Scenarios.listed Scenarios.opened
           Examples.q1_report).
  - now left.
  - reflexivity.
Defined.

End NotesListFacts.

(** ** Delete, list and fetch together *)

Section DeleteThenLook.
Import NoteDetail Store NotesList.

Lemma visible_In (policy : bool) (u : User) (table : list Note) (n : Note) :
  user_id n = uid u ->
  (In n (if policy then rls_select (uid u) table else table) <-> In n table).
Proof.
  intros Hu. destruct policy; [|reflexivity].
  unfold rls_select. rewrite filter_In, bool_decide_eq_true. split.
  - tauto.
  - intros H. now split.
Qed.

Lemma own_rows_In (policy : bool) (u : User) (table : list Note) (n : Note) :
  In n (eq_filter user_id (uid u)
          (if policy then rls_select (uid u) table else table))
  <-> In n table /\ user_id n = uid u.
Proof.
  unfold eq_filter. rewrite filter_In, bool_decide_eq_true. split.
  - intros [Hin Hu]. split; [|exact Hu]. now apply (visible_In policy u).
  - intros [Hin Hu]. split; [|exact Hu]. now apply (visible_In policy u).
Qed.

(** X7. Deleting the note of the detail page succeeds with the toast
    "Note deleted" and a move to the list; afterwards fetching that id
    under the same session finds nothing and redirects, and a list
    fetched from the table holds no note of that id. *)
Theorem delete_then_look (order : list Note -> list Note) (policy : bool)
  (table : list Note) (u : User) (r : Note) (pst st : PageState)
  (lst : State) :
  (forall l, Permutation l (order l)) ->
  note pst = Some r -> user_id r = uid u -> id r <> [] ->
  snd (NoteActions.handleDelete None policy table (Some u) pst) =
    [UToast NoteActions.noteDeleted; UNavigate (lit "/notes")]
  /\ fetchNote policy
       (fst (NoteActions.handleDelete None policy table (Some u) pst))
       (Some u) (Some (id r)) st =
     ({| note := note st; NoteDetail.loading := false |},
      [ConsoleError; Navigate (lit "/notes")])
  /\ forall n,
       In n (notes (fst (fetchNotes order None policy
                           (fst (NoteActions.handleDelete None policy table
                                   (Some u) pst))
                           (Some u) lst))) ->
       id n <> id r.
Proof.
  intros Horder Hpst Hu Hid. unfold NoteActions.handleDelete.
  rewrite Hpst. cbn [request_delete fst snd].
  assert (Hgone : forall x,
            In x (delete_by_id policy (Some u) (id r) table) ->
            user_id x = uid u -> id x <> id r).
  { intros x Hx Hxu Hxi. apply delete_by_id_In in Hx as [_ Hx].
    apply Hx. split; [exact Hxi|]. right. cbn.
    now apply bool_decide_eq_true. }
  split; [reflexivity|]. split.
  - assert (Ht : truthy_string (id r) = true)
      by (destruct (id r); [congruence | reflexivity]).
    unfold fetchNote, queryNote. rewrite Ht.
    destruct (eq_filter user_id (uid u) _) as [|x rows] eqn:E;
      [reflexivity|].
    exfalso.
    destruct (query_rows_scoped policy
                (delete_by_id policy (Some u) (id r) table) u (id r) x)
      as [Hx [Hxi Hxu]].
    { rewrite E. now left. }
    exact (Hgone x Hx Hxu Hxi).
  - intros n. cbn. intros Hn.
    apply (Permutation_in _ (Permutation_sym (Horder _))) in Hn.
    apply own_rows_In in Hn as [Hn Hnu]. exact (Hgone n Hn Hnu).
Qed.

Lemma delete_then_look_sample :
  fetchNote true
    (fst (NoteActions.handleDelete None true Examples.notes_table
            (Some Scenarios.alice) Scenarios.opened))
    (Some Scenarios.alice) (Some (id Examples.q1_report))
    Examples.loading_page =
  ({| note := None; NoteDetail.loading := false |},
   [ConsoleError; Navigate (lit "/notes")]).
Proof.
  apply (delete_then_look (@rev Note) true Examples.notes_table
           Scenarios.alice Examples.q1_report Scenarios.opened
           Examples.loading_page Scenarios.listed).
  - intros l. apply Permutation_rev.
  - reflexivity.
  - reflexivity.
  - discriminate.
Defined.



(** X9. The handlers keep the primary key: if the ids of the table are
    unique before a delete from the list, a delete from the detail page
    or a save, they are unique after it, whatever the outcome of the
    request. *)
Theorem handlers_keep_ids_unique (fail : option StoreError) (policy : bool)
  (table : list Note) (session : option User) (i fresh_id now : jsstring)
  (st : State) (pst : PageState) (nst : NewNote.State) :
  List.NoDup (List.map id table) ->
  List.NoDup (List.map id
                (fst (fst (handleDelete fail policy table session i st))))
  /\ List.NoDup (List.map id
                   (fst (NoteActions.handleDelete fail policy table session
                           pst)))
  /\ List.NoDup (List.map id
                   (fst (SaveNote.handleSave fail policy table fresh_id now
                           session nst))).
Proof.
  intros Hpk. split; [|split].
  - unfold handleDelete.
    pose proof (request_delete_unique fail policy session i table Hpk) as H.
    destruct (request_delete fail policy session i table) as [t' [e|]];
      exact H.
  - unfold NoteActions.handleDelete.
    destruct (note pst) as [n|]; [|exact Hpk].
    pose proof (request_delete_unique fail policy session (id n) table Hpk)
      as H.
    destruct (request_delete fail policy session (id n) table)
      as [t' [e|]]; exact H.
  - unfold SaveNote.handleSave.
    destruct (NewNote.result nst) as [r|], session as [u|]; try exact Hpk.
    unfold request_insert. destruct fail as [e|]; [exact Hpk|].
    pose proof (insert_row_unique policy (Some u) fresh_id now
                  (SaveNote.newRow u r nst) table Hpk) as H.
    destruct (insert_row policy (Some u) fresh_id now _ table)
      as [t' [e|]]; exact H.
Qed.

Lemma handlers_keep_ids_unique_sample :
  List.NoDup (List.map id
                (fst (SaveNote.handleSave None true Examples.notes_table
                        (lit "c41d0e52") (lit "2026-01-05T10:00:00Z")
                        (Some Examples.bob) Examples.draft))).
Proof.
  apply (handlers_keep_ids_unique None true Examples.notes_table
           (Some Examples.bob) [] (lit "c41d0e52")
           (lit "2026-01-05T10:00:00Z") Scenarios.listed Scenarios.opened
           Examples.draft).
  repeat constructor; simpl; intros H;
    repeat (destruct H as [H|H]; [discriminate H|]); exact H.
Defined.

End DeleteThenLook.

(** ** Summarize, save, open *)

Section SaveFacts.
Import NoteDetail Store NewNote SaveNote.

Lemma fresh_not_listed (fresh_id : jsstring) (table : list Note) :
  ~ In fresh_id (List.map id table) ->
  existsb (fun r => bool_decide (id r = fresh_id)) table = false.
Proof.
  intros H. destruct (existsb _ table) eqn:E; [|reflexivity]. exfalso.
  apply existsb_exists in E as [x [Hx E]].
  apply bool_decide_eq_true in E. apply H. rewrite <- E. now apply in_map.
Qed.

(** The row a save stores. *)
Lemma insert_own_row (policy : bool) (table : list Note)
  (fresh_id now : jsstring) (u : User) (r : SummaryResult) (t : jsstring)
  (st : State) :
  r_title r = Some t -> ~ In fresh_id (List.map id table) ->
  insert_row policy (Some u) fresh_id now (newRow u r st) table =
  (table ++
   [{| id := fresh_id; user_id := uid u; title := t;
       summary := r_summary r; original_content := content st;
       created_at := now; updated_at := now; keywords := r_keywords r;
       summary_length := Some (summaryLength st);
       summary_tone := Some (summaryTone st);
       is_bullet_points := Some (isBulletPoints st) |}], None).
Proof.
  intros Ht Hfresh. unfold insert_row. cbn [n_user_id newRow n_title].
  rewrite bool_decide_eq_true_2 by reflexivity.
  rewrite andb_false_r, Ht, (fresh_not_listed _ _ Hfresh). reflexivity.
Qed.

Lemma run_success (st : State) (remote : Request -> Settled)
  (d : SummaryResult) :
  forallb is_white (content st) = false ->
  remote (requestBody st) = Fulfilled (Some d) None ->
  run (handleSummarize st) remote st =
  ({| content := content st; summaryLength := summaryLength st;
      summaryTone := summaryTone st; isBulletPoints := isBulletPoints st;
      isProcessing := false;
      result := Some {| r_title := r_title d; r_summary := r_summary d;
                        r_keywords := r_keywords d |};
      copied := copied st |},
   [EInvoke (lit "summarize") (requestBody st); EToast summaryGenerated]).
Proof.
  intros Hc Hr. rewrite (handleSummarize_nonblank st Hc).
  cbn [run]. rewrite Hr. reflexivity.
Qed.

(** X10. Generating a summary and then saving stores exactly one new row:
    it belongs to the signed-in user, its original content is the draft
    as entered, its title, summary and keywords are those of the response
    and its options those of the page; the page shows "Note saved!" and
    moves to the list. *)
Theorem summarize_then_save (st : State) (remote : Request -> Settled)
  (d : SummaryResult) (t : jsstring) (policy : bool) (table : list Note)
  (fresh_id now : jsstring) (u : User) :
  forallb is_white (content st) = false ->
  remote (requestBody st) = Fulfilled (Some d) None ->
  r_title d = Some t ->
  ~ In fresh_id (List.map id table) ->
  handleSave None policy table fresh_id now (Some u)
    (fst (run (handleSummarize st) remote st)) =
  (table ++
   [{| id := fresh_id; user_id := uid u; title := t;
       summary := r_summary d; original_content := content st;
       created_at := now; updated_at := now; keywords := r_keywords d;
       summary_length := Some (summaryLength st);
       summary_tone := Some (summaryTone st);
       is_bullet_points := Some (isBulletPoints st) |}],
   [UToast noteSaved; UNavigate (lit "/notes")]).
Proof.
  intros Hc Hr Ht Hfresh. rewrite (run_success st remote d Hc Hr).
  unfold handleSave, request_insert. cbn [result fst].
  erewrite insert_own_row; [reflexivity | exact Ht | exact Hfresh].
Qed.

Lemma summarize_then_save_sample :
  length (fst (handleSave None true Examples.notes_table (lit "c41d0e52")
                 (lit "2026-01-05T10:00:00Z") (Some Scenarios.alice)
                 (fst (run (handleSummarize Examples.draft)
                         Scenarios.fox_summary Examples.draft)))) = 3%nat.
Proof.
  rewrite (summarize_then_save Examples.draft Scenarios.fox_summary
             Examples.earlier_result (lit "Fox") true Examples.notes_table
             (lit "c41d0e52") (lit "2026-01-05T10:00:00Z") Scenarios.alice).
  - reflexivity.
  - reflexivity.
  - reflexivity.
  - reflexivity.
  - simpl. intros H.
    repeat (destruct H as [H|H]; [discriminate H|]). exact H.
Defined.

(** X11. A saved note can be opened: with unique ids and a fresh,
    non-empty id, fetching that id under the same user after a successful
    save loads a note with the draft as original content, the title of
    the result and the user as owner. *)
Theorem save_then_fetch (policy : bool) (table : list Note)
  (fresh_id now : jsstring) (u : User) (st : State) (r : SummaryResult)
  (t : jsstring) (pst : PageState) :
  List.NoDup (List.map id table) ->
  ~ In fresh_id (List.map id table) ->
  fresh_id <> [] ->
  result st = Some r -> r_title r = Some t ->
  exists n,
    fetchNote policy
      (fst (handleSave None policy table fresh_id now (Some u) st))
      (Some u) (Some fresh_id) pst =
    ({| note := Some n; loading := false |}, [])
    /\ id n = fresh_id /\ user_id n = uid u /\ title n = t
    /\ original_content n = content st
    /\ summary n = r_summary r /\ keywords n = r_keywords r.
Proof.
  intros Hpk Hfresh Hne Hres Ht.
  unfold handleSave, request_insert. rewrite Hres.
  rewrite (insert_own_row policy table fresh_id now u r t st Ht Hfresh).
  cbn [fst]. eexists. split.
  - match goal with
    | |- fetchNote _ (_ ++ [?row]) _ _ _ = _ =>
        apply (fetch_own_row policy (table ++ [row]) row u pst)
    end.
    + rewrite map_app. now apply NoDup_snoc.
    + apply in_app_iff. right. now left.
    + reflexivity.
    + exact Hne.
  - repeat split.
Qed.

Lemma save_then_fetch_sample :
  exists n,
    fetchNote true
      (fst (handleSave None true Examples.notes_table (lit "c41d0e52")
              (lit "2026-01-05T10:00:00Z") (Some Scenarios.alice)
              Examples.draft))
      (Some Scenarios.alice) (Some (lit "c41d0e52")) Examples.loading_page =
    ({| note := Some n; loading := false |}, [])
    /\ original_content n = lit "The quick brown fox".
Proof.
  destruct (save_then_fetch true Examples.notes_table (lit "c41d0e52")
              (lit "2026-01-05T10:00:00Z") Scenarios.alice Examples.draft
              Examples.earlier_result (lit "Fox") Examples.loading_page)
    as [n [H1 [_ [_ [_ [H2 _]]]]]].
  - repeat constructor; simpl; intros H;
      repeat (destruct H as [H|H]; [discriminate H|]); exact H.
  - simpl. intros H.
    repeat (destruct H as [H|H]; [discriminate H|]). exact H.
  - discriminate.
  - reflexivity.
  - reflexivity.
  - exists n. split; [exact H1 | exact H2].
Defined.

(** X12. A save has three outcomes and no other: nothing happens (no
    result or no user); or the request fails, the table is untouched, the
    destructive toast "Save failed" carries a text that is not empty and
    the page stays; or exactly one row is appended and the page moves to
    the list.  In particular the page never leaves without having stored
    the note. *)
Theorem handleSave_outcomes (fail : option StoreError) (policy : bool)
  (table : list Note) (fresh_id now : jsstring) (user : option User)
  (st : State) :
  (handleSave fail policy table fresh_id now user st = (table, [])
   /\ (result st = None \/ user = None))
  \/ (exists e,
        handleSave fail policy table fresh_id now user st =
        (table, [UConsoleError; UToast (saveFailed e)])
        /\ toast_text (saveFailed e) <> []
        /\ toast_variant (saveFailed e) = destructive)
  \/ (exists row,
        handleSave fail policy table fresh_id now user st =
        (table ++ [row], [UToast noteSaved; UNavigate (lit "/notes")])
        /\ id row = fresh_id
        /\ exists u, user = Some u /\ user_id row = uid u).
Proof.
  assert (Htext : forall e, toast_text (saveFailed e) <> []).
  { intros e. cbn. destruct (err_message e); cbn; discriminate. }
  unfold handleSave.
  destruct (result st) as [r|]; [|left; split; [reflexivity | now left]].
  destruct user as [u|]; [|left; split; [reflexivity | now right]].
  right. unfold request_insert.
  destruct fail as [e|].
  { left. exists e. repeat split. apply Htext. }
  unfold insert_row.
  destruct (policy && _).
  { left. exists rls_violation. repeat split. apply Htext. }
  destruct (n_title (newRow u r st)).
  2:{ left. exists not_null_violation. repeat split. apply Htext. }
  destruct (existsb _ table).
  { left. exists unique_violation. repeat split. apply Htext. }
  right. eexists. split; [reflexivity|]. split; [reflexivity|].
  exists u. now split.
Qed.

(** X13. A result without a title cannot be saved: the store refuses the
    row, the table stays as it was, and the page reports "Save failed"
    without leaving.  This is what becomes of the result that an empty
    response object leaves on the page. *)
Theorem handleSave_untitled (policy : bool) (table : list Note)
  (fresh_id now : jsstring) (u : User) (st : State) (r : SummaryResult) :
  result st = Some r -> r_title r = None ->
  handleSave None policy table fresh_id now (Some u) st =
  (table, [UConsoleError; UToast (saveFailed not_null_violation)]).
Proof.
  intros Hres Ht. unfold handleSave, request_insert, insert_row.
  rewrite Hres. cbn [n_user_id newRow n_title].
  rewrite bool_decide_eq_true_2 by reflexivity.
  now rewrite andb_false_r, Ht.
Qed.

Lemma handleSave_untitled_sample :
  handleSave None true Examples.notes_table (lit "c41d0e52")
    (lit "2026-01-05T10:00:00Z") (Some Scenarios.alice)
    (fst (run (handleSummarize Examples.draft) Examples.empty_object
            Examples.draft)) =
  (Examples.notes_table,
   [UConsoleError; UToast (saveFailed not_null_violation)]).
Proof.
  apply (handleSave_untitled true Examples.notes_table (lit "c41d0e52")
           (lit "2026-01-05T10:00:00Z") Scenarios.alice
           (fst (run (handleSummarize Examples.draft) Examples.empty_object
                   Examples.draft))
           {| r_title := None; r_summary := None; r_keywords := None |}).
  - reflexivity.
  - reflexivity.
Defined.

Lemma run_afterInvoke_idle (remote : Request -> Settled) (st : State)
  (settled : Settled) :
  isProcessing (fst (run (afterInvoke settled) remote st)) = false.
Proof. destruct settled as [[d|] [e|] | reason]; reflexivity. Qed.

Lemma renderPanel_throws (st : State) (remote : Request -> Settled) :
  forallb is_white (content st) = false ->
  renderPanel (fst (run (handleSummarize st) remote st)) = Throw TypeError
  <-> exists d,
        remote (requestBody st) = Fulfilled (Some d) None
        /\ r_keywords d = None.
Proof.
  intros Hc. rewrite (handleSummarize_nonblank st Hc). cbn [run].
  destruct (remote (requestBody st)) as [[d|] [e|] | reason] eqn:E;
    cbn; unfold renderPanel; cbn.
  - split; [discriminate | intros [d' [[=] _]]].
  - destruct (r_keywords d) as [ks|] eqn:Ek; cbn.
    + split; [discriminate | intros [d' [[= <-] Hk]]; congruence].
    + split; [intros _; now exists d | reflexivity].
  - split; [discriminate | intros [d' [[=] _]]].
  - split; [discriminate | intros [d' [[=] _]]].
  - split; [discriminate | intros [d' [[=] _]]].
Qed.

(** X14. When the Generate button is enabled, a click reaches the request
    with the content and options of the page; at that moment the page is
    processing, its result is cleared and the button is disabled.  When
    the request has settled and the page renders, the button is enabled
    again.  The page fails to render exactly when the response has a body
    without a keyword list. *)
Theorem generate_button (st : State) (remote : Request -> Settled) :
  generateDisabled st = false ->
  (exists st',
     atAwait (handleSummarize st) st = Some (st', requestBody st)
     /\ isProcessing st' = true /\ result st' = None
     /\ generateDisabled st' = true)
  /\ (forall panel,
        renderPanel (fst (run (handleSummarize st) remote st))
        = Normal panel ->
        generateDisabled (fst (run (handleSummarize st) remote st)) = false)
  /\ (renderPanel (fst (run (handleSummarize st) remote st))
      = Throw TypeError
      <-> exists d,
            remote (requestBody st) = Fulfilled (Some d) None
            /\ r_keywords d = None).
Proof.
  unfold generateDisabled. intros H.
  apply orb_false_iff in H as [Hidle Hcontent].
  assert (Hc : forallb is_white (content st) = false).
  { destruct (forallb is_white (content st)) eqn:E; [|reflexivity].
    apply trim_blank in E. rewrite E in Hcontent. discriminate. }
  split; [|split].
  - rewrite (handleSummarize_nonblank st Hc). cbn [atAwait].
    eexists. split; [reflexivity|]. now cbn.
  - intros panel _.
    pose proof (run_keeps_draft (handleSummarize st) remote st) as Hk.
    apply (f_equal body_content) in Hk. cbn [body_content requestBody] in Hk.
    rewrite Hk, Hcontent, orb_false_r.
    rewrite (handleSummarize_nonblank st Hc). cbn [run].
    pose proof (run_afterInvoke_idle remote
                  (set_result None (set_isProcessing true st))
                  (remote (requestBody st))) as Hi.
    destruct (run (afterInvoke (remote (requestBody st))) remote _).
    exact Hi.
  - apply (renderPanel_throws st remote Hc).
Qed.

Lemma generate_button_sample :
  generateDisabled Examples.draft = false
  /\ renderPanel
       (fst (run (handleSummarize Examples.draft) Examples.unreachable
               Examples.draft)) = Normal Placeholder
  /\ generateDisabled
       (fst (run (handleSummarize Examples.draft) Examples.unreachable
               Examples.draft)) = false.
Proof.
  split; [reflexivity|]. split; [reflexivity|].
  destruct (generate_button Examples.draft Examples.unreachable) as [_ [H _]];
    [reflexivity|].
  apply (H Placeholder). reflexivity.
Defined.

End SaveFacts.

(** ** What the notes page renders *)

Section Rendering.
Import NotesList.

(** X15. Once loaded, the notes page shows "No notes yet" with the Create
    button exactly when the user has no note and the search box is empty;
    with an empty search box and at least one note it shows every note;
    and the cards it shows are always the filtered notes, never an empty
    list of cards. *)
Theorem render_loaded (st : State) :
  loading st = false ->
  (render st = EmptyState (lit "No notes yet")
                 (lit "Create your first note to get started") true
   <-> notes st = [] /\ searchQuery st = [])
  /\ (searchQuery st = [] -> notes st <> [] ->
      render st = NoteCards (notes st))
  /\ (forall shown, render st = NoteCards shown ->
      shown = Notes.filteredNotes (notes st) (searchQuery st)
      /\ shown <> []).
Proof.
  intros Hl. unfold render. rewrite Hl. split; [|split].
  - split.
    + destruct (searchQuery st) as [|c q] eqn:Eq.
      * rewrite filteredNotes_empty_query.
        destruct (notes st); [tauto | discriminate].
      * destruct (Notes.filteredNotes (notes st) (c :: q));
          cbn [truthy_string]; intros H; [|discriminate].
        vm_compute in H. discriminate.
    + intros [Hn Hq]. rewrite Hn, Hq. reflexivity.
  - intros Hq Hn. rewrite Hq, filteredNotes_empty_query.
    destruct (notes st); [congruence | reflexivity].
  - intros shown.
    destruct (Notes.filteredNotes (notes st) (searchQuery st)) as [|n l].
    + destruct (truthy_string (searchQuery st)); discriminate.
    + intros [= <-]. split; [reflexivity | discriminate].
Qed.

Lemma render_loaded_sample :
  loading Scenarios.listed = false
  /\ render Scenarios.listed = NoteCards [Examples.q1_report].
Proof.
  split; [reflexivity|].
  destruct (render_loaded Scenarios.listed) as [_ [H _]]; [reflexivity|].
  apply H; [reflexivity | discriminate].
Defined.

(** X16. A card shows keywords only for a list that is not empty: at most
    three chips, the first keywords in their order; the number after the
    plus sign appears only when it is at least one, and chips and hidden
    keywords together are all the keywords. *)
Theorem keywordChips_count (note : Note) (chips : list jsstring)
  (more : option Z) :
  keywordChips note = Some (chips, more) ->
  exists ks,
    keywords note = Some ks /\ ks <> []
    /\ chips = firstn 3 ks /\ (length chips <= 3)%nat
    /\ (Z.of_nat (length chips)
        + match more with Some m => m | None => 0 end
        = Z.of_nat (length ks))%Z
    /\ (forall m, more = Some m -> (1 <= m)%Z).
Proof.
  unfold keywordChips. destruct (keywords note) as [ks|]; [|discriminate].
  destruct (Nat.ltb_spec 0 (length ks)) as [Hpos|Hpos]; [|discriminate].
  intros [= <- <-]. exists ks. split; [reflexivity|].
  split; [destruct ks; [simpl in Hpos; lia | discriminate]|].
  split; [reflexivity|]. rewrite length_firstn.
  split; [lia|].
  destruct (Nat.ltb_spec 3 (length ks)) as [H3|H3]; split;
    try lia; intros m [= <-]; lia.
Qed.

Lemma keywordChips_count_sample :
  exists ks,
    keywords Scenarios.five_keywords = Some ks /\ ks <> []
    /\ [lit "a"; lit "b"; lit "c"] = firstn 3 ks
    /\ (length [lit "a"; lit "b"; lit "c"] <= 3)%nat
    /\ (Z.of_nat (length [lit "a"; lit "b"; lit "c"]) + 2
        = Z.of_nat (length ks))%Z
    /\ (forall m, Some 2%Z = Some m -> (1 <= m)%Z).
Proof.
  apply (keywordChips_count Scenarios.five_keywords
           [lit "a"; lit "b"; lit "c"] (Some 2%Z)).
  reflexivity.
Defined.

End Rendering.

(** ** Names *)

Section Names.

Lemma split_cons (sep c : codeunit) (s : jsstring) :
  exists w ws, split sep s = w :: ws.
Proof.
  induction s as [|d s [w [ws IH]]]; cbn [split]; [now eexists _, _|].
  destruct (d =? sep); [now eexists _, _|]. rewrite IH. now eexists _, _.
Qed.



Lemma initials_nil_iff (s : jsstring) :
  join [] (List.map first_unit (split SP s)) = []
  <-> forallb (fun c => c =? SP) s = true.
Proof.
  induction s as [|c s IH]; cbn [split forallb]; [now split|].
  destruct (split_cons SP c s) as [w [ws E]].
  destruct (c =? SP); cbn [andb].
  - rewrite <- IH, E. cbn [List.map first_unit join app].
    destruct (List.map first_unit ws); reflexivity.
  - rewrite E. cbn [List.map first_unit join].
    split; [|discriminate].
    destruct (List.map first_unit ws); cbn; discriminate.
Qed.

(** X18. The initials of the avatar are at most two code units.  They are
    the letter "U" for a missing or empty name, and they are empty exactly
    for a name that is not empty and made of spaces only. *)
Theorem getInitials_short (name : option jsstring) :
  (length (ProfilePage.getInitials name) <= 2)%nat
  /\ (name = None \/ name = Some [] ->
      ProfilePage.getInitials name = lit "U")
  /\ (ProfilePage.getInitials name = [] <->
      exists s, name = Some s /\ s <> []
                /\ forallb (fun c => c =? SP) s = true).
Proof.
  unfold ProfilePage.getInitials, slice0. split; [|split].
  - destruct name as [s|]; [|vm_compute; lia].
    destruct (truthy_string s); [|vm_compute; lia].
    rewrite length_firstn. lia.
  - intros [-> | ->]; reflexivity.
  - destruct name as [s|].
    2:{ split; [discriminate | intros [s [[=] _]]]. }
    destruct s as [|c s]; cbn [truthy_string].
    { split; [discriminate | intros [s [[= <-] [H _]]]; congruence]. }
    split.
    + intros H. exists (c :: s). split; [reflexivity|].
      split; [discriminate|].
      apply initials_nil_iff, toUpperCase_nil_iff.
      destruct (toUpperCase _); [reflexivity | discriminate H].
    + intros [s' [[= <-] [_ H]]]. apply initials_nil_iff in H.
      now rewrite H.
Qed.

End Names.

Section Initials.

Lemma getInitials_spaces_sample :
  ProfilePage.getInitials (Some (lit "   ")) = [].
Proof.
  destruct (getInitials_short (Some (lit "   "))) as [_ [_ H]].
  apply H. exists (lit "   ").
  split; [reflexivity|]. split; [discriminate | reflexivity].
Defined.









End Initials.

(** ** More on the export and on the search *)

Section ExportAndSearch.
Import NoteDetail.

(** X20. The name of an exported file is made of the letters a to z, the
    digits, the underscore and the dot only, so it holds no path
    separator; it has one code unit for each code unit of the title, plus
    the dot and the extension; and the toast names exactly this file. *)
Theorem export_filename_safe (note : Note) (format : Format) :
  exists d,
    handleExport (Some note) format = Normal (Some d)
    /\ forallb name_unit (download_name d) = true
    /\ length (download_name d)
       = (length (title note) + 1 + length (format_string format))%nat
    /\ toast_description d = lit "Saved as " ++ download_name d.
Proof.
  destruct (handleExport_normal note format) as [content [_ H]].
  eexists. split; [exact H|]. cbn [download_name toast_description].
  split; [|split; [|reflexivity]].
  - rewrite !forallb_app. apply andb_true_iff. split.
    + pose proof (filenameStem_units (title note)) as Hs.
      rewrite forallb_forall in *. intros c Hc. unfold name_unit.
      now rewrite (Hs c Hc).
    + destruct format; reflexivity.
  - rewrite filenameStem_map, !length_app, length_map.
    change (length (lit ".")) with 1%nat. lia.
Qed.

Lemma filter_implies_sublist {A} (f g : A -> bool) (l : list A) :
  (forall x, f x = true -> g x = true) ->
  sublist (List.filter f l) (List.filter g l).
Proof.
  intros H. induction l as [|a l IH]; simpl; [constructor|].
  destruct (f a) eqn:Ef.
  - rewrite (H a Ef). now constructor.
  - destruct (g a); [now constructor | exact IH].
Qed.

Lemma ci_substring_narrow (a q b s : jsstring) :
  forallb is_ascii (a ++ q ++ b) = true ->
  Notes.ci_substring (a ++ q ++ b) s -> Notes.ci_substring q s.
Proof.
  intros Hq [pre [post H]].
  rewrite (toLowerCase_ascii _ Hq), !List.map_app in H.
  rewrite !forallb_app in Hq.
  apply andb_true_iff in Hq as [_ Hq]. apply andb_true_iff in Hq as [Hq _].
  exists (pre ++ List.map ascii_lower a), (List.map ascii_lower b ++ post).
  now rewrite H, (toLowerCase_ascii q Hq), <- !app_assoc.
Qed.

(** X21. Typing more ASCII text into the search box never brings a note
    back: the notes found for an ASCII query extended at either end are
    among the notes found for the query itself, in the same order. *)
Theorem filteredNotes_narrows (L : list Note) (a q b : jsstring) :
  forallb is_ascii (a ++ q ++ b) = true ->
  sublist (Notes.filteredNotes L (a ++ q ++ b)) (Notes.filteredNotes L q).
Proof.
  intros Hq. unfold Notes.filteredNotes. apply filter_implies_sublist.
  intros n. rewrite !matchesQuery_iff. unfold Notes.note_matches.
  intros [H | [[s [Hs H]] | [ks [k [Hk [Hin H]]]]]].
  - left. now apply (ci_substring_narrow a q b).
  - right. left. exists s. split; [exact Hs|].
    now apply (ci_substring_narrow a q b).
  - right. right. exists ks, k. repeat split; try assumption.
    now apply (ci_substring_narrow a q b).
Qed.

Lemma filteredNotes_narrows_sample :
  forallb is_ascii (lit "Q1 " ++ lit "Rep" ++ lit "ort") = true
  /\ sublist
       (Notes.filteredNotes Examples.notes_table
          (lit "Q1 " ++ lit "Rep" ++ lit "ort"))
       (Notes.filteredNotes Examples.notes_table (lit "Rep")).
Proof.
  split; [reflexivity|].
  apply (filteredNotes_narrows Examples.notes_table
           (lit "Q1 ") (lit "Rep") (lit "ort")).
  reflexivity.
Defined.

(** Beyond ASCII a longer query can find a note that a part of it does
    not: the title alpha, final sigma is found for the query capital
    alpha, capital sigma, and not for the query capital sigma. *)
Lemma filteredNotes_sigma_returns :
  Notes.filteredNotes
    [Examples.sample [0x3B1; 0x3C2] None None (lit "Notes.")]
    ([0x391] ++ [0x3A3] ++ [])
  = [Examples.sample [0x3B1; 0x3C2] None None (lit "Notes.")]
  /\ Notes.filteredNotes
       [Examples.sample [0x3B1; 0x3C2] None None (lit "Notes.")] [0x3A3]
     = [].
Proof. split; now vm_compute. Qed.

End ExportAndSearch.

(** ** The summary card, the dashboard and the sidebar *)

Section Cards.
Import NoteDetail NewNote SaveNote.

(** X22. After a failed request the summary card renders its placeholder,
    and after a response with a keyword list it renders the result with
    that list; after a response that has a body but no keyword list the
    card cannot be rendered at all: reading the length of the missing
    list raises a [TypeError]. *)
Theorem renderPanel_after_summarize (st : State)
  (remote : Request -> Settled) :
  forallb is_white (content st) = false ->
  (forall e, Failed (remote (requestBody st)) e ->
     renderPanel (fst (run (handleSummarize st) remote st))
     = Normal Placeholder)
  /\ (forall d ks,
        remote (requestBody st) = Fulfilled (Some d) None ->
        r_keywords d = Some ks ->
        renderPanel (fst (run (handleSummarize st) remote st))
        = Normal (Generated (r_title d) (r_summary d) ks))
  /\ (forall d,
        remote (requestBody st) = Fulfilled (Some d) None ->
        r_keywords d = None ->
        renderPanel (fst (run (handleSummarize st) remote st))
        = Throw TypeError).
Proof.
  intros Hc. split; [|split].
  - intros e He. rewrite (handleSummarize_nonblank st Hc). cbn [run].
    now rewrite (run_afterInvoke_failed remote _ _ e He).
  - intros d ks Hr Hk. rewrite (run_success st remote d Hc Hr).
    unfold renderPanel. cbn. rewrite Hk. cbn. now destruct ks.
  - intros d Hr Hk. rewrite (run_success st remote d Hc Hr).
    unfold renderPanel. cbn. now rewrite Hk.
Qed.

Lemma renderPanel_after_summarize_sample :
  renderPanel (fst (run (handleSummarize Examples.draft)
                      Examples.empty_object Examples.draft))
  = Throw TypeError.
Proof.
  destruct (renderPanel_after_summarize Examples.draft
              Examples.empty_object) as [_ [_ H]]; [reflexivity|].
  apply (H {| r_title := None; r_summary := None; r_keywords := None |});
    reflexivity.
Defined.

End Cards.

Section DashboardFacts.
Import DashboardPage.

Lemma firstn_In {A} (n : nat) (l : list A) (x : A) :
  In x (firstn n l) -> In x l.
Proof.
  revert l. induction n as [|n IH]; intros [|a l]; simpl; try tauto.
  intros [H | H]; [now left | right; now apply IH].
Qed.

(** X23. When its three requests get through, the dashboard lists at
    most five notes, each of them one of the user's rows, and never more
    than the total it shows; the total is the number of the user's rows
    and the count of the week lies between zero and the total.  The
    errors are not looked at: a total that could not be counted is shown
    as zero, next to whatever the other requests brought. *)
Theorem fetchData_counts (order : list Note -> list Note)
  (since : Note -> bool) (policy : bool) (table : list Note)
  (u : NoteDetail.User) (st : State) :
  (forall l, Permutation l (order l)) ->
  (length (recentNotes (fetchData order since true true true policy table
                          (Some u) st)) <= 5)%nat
  /\ (Z.of_nat (length (recentNotes
                          (fetchData order since true true true policy
                             table (Some u) st)))
      <= totalNotes (stats (fetchData order since true true true policy
                              table (Some u) st)))%Z
  /\ (forall c,
        In c (recentNotes (fetchData order since true true true policy
                             table (Some u) st)) ->
        exists n, In n table /\ user_id n = NoteDetail.uid u
                  /\ c = project n)
  /\ totalNotes (stats (fetchData order since true true true policy table
                          (Some u) st))
     = Z.of_nat (length (own_rows policy u table))
  /\ (0 <= thisWeek (stats (fetchData order since true true true policy
                              table (Some u) st))
      <= totalNotes (stats (fetchData order since true true true policy
                              table (Some u) st)))%Z
  /\ forall ok_recent ok_week,
       totalNotes (stats (fetchData order since ok_recent false ok_week
                            policy table (Some u) st)) = 0%Z
       /\ loading (fetchData order since ok_recent false ok_week policy
                     table (Some u) st) = false.
Proof.
  intros Horder. cbn.
  pose proof (Permutation_length (Horder (own_rows policy u table))) as Hlen.
  rewrite length_map, length_firstn.
  split; [lia|]. split; [lia|]. split; [|split; [reflexivity|split]].
  - intros c Hc. apply in_map_iff in Hc as [n [<- Hn]].
    exists n. apply firstn_In in Hn.
    apply (Permutation_in _ (Permutation_sym (Horder _))) in Hn.
    apply own_rows_In in Hn as [Hn Hu]. now repeat split.
  - pose proof (filter_length_le since (own_rows policy u table)). lia.
  - intros ok_recent ok_week. split; reflexivity.
Qed.

Lemma fetchData_counts_sample :
  totalNotes (stats (fetchData (@rev Note) (fun _ => true) true true true
                       true Examples.notes_table (Some Examples.bob)
                       {| recentNotes := [];
                          stats := {| totalNotes := 0; thisWeek := 0 |};
                          loading := true |})) = 1%Z.
Proof.
  destruct (fetchData_counts (@rev Note) (fun _ => true) true
              Examples.notes_table Examples.bob
              {| recentNotes := [];
                 stats := {| totalNotes := 0; thisWeek := 0 |};
                 loading := true |}) as [_ [_ [_ [H _]]]].
  - intros l. apply Permutation_rev.
  - rewrite H. reflexivity.
Defined.

End DashboardFacts.

Section SidebarFacts.
Import Sidebar.

Lemma active_at_most_one (pathname : jsstring) (items : list NavItem) :
  List.NoDup (List.map path items) ->
  (length (List.filter (isActive pathname) items) <= 1)%nat.
Proof.
  induction items as [|it items IH]; simpl; [lia|].
  intros Hnd. apply NoDup_cons_iff in Hnd as [Hnotin Hnd].
  unfold isActive at 1. destruct (bool_decide_reflect (pathname = path it))
    as [E|E]; [|now apply IH].
  simpl. replace (List.filter (isActive pathname) items) with (@nil NavItem);
    [simpl; lia|].
  symmetry. clear IH Hnd. induction items as [|x items IH]; [reflexivity|].
  simpl. unfold isActive at 1.
  rewrite bool_decide_eq_false_2.
  - apply IH. intros H. apply Hnotin. now right.
  - intros E'. apply Hnotin. left. congruence.
Qed.

(** X24. Whatever the location, the sidebar highlights at most one of
    its entries; on the page of a single note, at [/notes/] followed by an
    id, it highlights none, "My Notes" included. *)
Theorem sidebar_active (pathname : jsstring) (note_id : jsstring) :
  (length (List.filter (isActive pathname) (navItems ++ bottomItems)) <= 1)%nat
  /\ List.filter (isActive (lit "/notes/" ++ note_id))
       (navItems ++ bottomItems) = [].
Proof.
  split.
  - apply active_at_most_one.
    repeat constructor; simpl; intros H;
      repeat (destruct H as [H|H]; [discriminate H|]); exact H.
  - vm_compute. reflexivity.
Qed.

End SidebarFacts.

